(** * sagemaker.base_predictor: the Predictor client, embedded and verified

    A shallow embedding of [src/sagemaker/base_predictor.py].  The Predictor
    is a record of its attributes; every method is a computation in a small
    state-and-exception monad whose state holds the Predictor, the outside
    world (the remote service and the clock) and the log of the calls that
    were made through the session.  An exception leaves the state as it was
    when it was raised, as in Python. *)

From Stdlib Require Import ZArith.
From stdpp Require Import base option strings list gmap pretty.

Local Open Scope string_scope.
Local Open Scope list_scope.
Local Open Scope Z_scope.

(** ** Python values *)

(** Truth value testing: [None], zero, the empty string and empty containers
    are false. *)
Class Truthy (A : Type) := truthy : A -> bool.

#[export] Instance truthy_bool : Truthy bool := fun b => b.
#[export] Instance truthy_Z : Truthy Z := fun z => negb (z =? 0).
#[export] Instance truthy_string : Truthy string :=
  fun s => match s with EmptyString => false | String _ _ => true end.
#[export] Instance truthy_list {A} : Truthy (list A) :=
  fun l => match l with [] => false | _ :: _ => true end.
#[export] Instance truthy_option {A} `{Truthy A} : Truthy (option A) :=
  fun o => match o with None => false | Some a => truthy a end.
#[export] Instance truthy_gmap {V} : Truthy (gmap string V) :=
  fun m => truthy (map_to_list m).

(** [sep.join(l)] *)
Fixpoint join (sep : string) (l : list string) : string :=
  match l with
  | [] => ""
  | [x] => x
  | x :: rest => x +:+ sep +:+ join sep rest
  end.

(** [s.endswith(suffix)] *)
Definition endswith (s suffix : string) : bool :=
  let n := String.length s in
  let k := String.length suffix in
  if (k <=? n)%nat then String.eqb (String.substring (n - k) k s) suffix else false.

(** [str(x)] for the optional arguments that are formatted into messages. *)
Class PyStr (A : Type) := py_str : A -> string.
#[export] Instance py_str_string : PyStr string := fun s => s.
#[export] Instance py_str_Z : PyStr Z := fun z => pretty z.
#[export] Instance py_str_option {A} `{PyStr A} : PyStr (option A) :=
  fun o => match o with None => "None" | Some a => py_str a end.

(** A [CONTENT_TYPE] or [ACCEPT] attribute: a [str], or a tuple of them. *)
Inductive mime :=
| MStr (s : string)
| MTuple (l : list string).

#[export] Instance truthy_mime : Truthy mime :=
  fun c => match c with MStr s => truthy s | MTuple l => truthy l end.

(** [c if isinstance(c, str) else ", ".join(c)] *)
Definition str_or_join (c : mime) : string :=
  match c with MStr s => s | MTuple l => join ", " l end.

(** ** Exceptions *)

Inductive exn :=
| ValueError (msg : string)
| TypeError (msg : string)
| AttributeError (msg : string)
| IndexError (msg : string)
| ClientError (msg : string)
| Exception (msg : string).

Inductive result (A : Type) :=
| Ok (a : A)
| Raise (e : exn).
Arguments Ok {A} a.
Arguments Raise {A} e.

Definition raised {A} (r : result A) : bool :=
  match r with Ok _ => false | Raise _ => true end.

(** ** Collaborators that live outside this module *)

(** Modelled from the spec: the class
    [sagemaker.jumpstart.types.JumpStartSerializablePayload] is imported, not
    defined in this module.  It is the "pre-packaged payload type" with an
    embedded content type and accept; both attributes may be [None] or
    empty.  [payload_body] stands for the rest of the object. *)
Record JumpStartSerializablePayload := {
  content_type_of : option string;
  accept_of : option string;
  payload_body : string;
}.

(** Modelled from the spec: the enumeration [sagemaker.enums.EndpointType]
    is imported; the two members are the ones [update_endpoint] names. *)
Inductive EndpointType := MODEL_BASED | INFERENCE_COMPONENT_BASED.

(** Modelled from the spec: the monitor classes imported from
    [sagemaker.model_monitor], as the five names
    [_get_model_monitor_class] can return. *)
Inductive monitor_class :=
| ModelMonitor
| DefaultModelMonitor
| ModelQualityMonitor
| ModelBiasMonitor
| ModelExplainabilityMonitor.

(** *** Shapes of the service's responses

    Modelled from the spec: the responses are dictionaries built by the
    service; each record keeps the keys this module reads, a key it reads
    with [in] or [.get] being optional. *)

Record InvokeResponse := {
  resp_Body : string;
  resp_ContentType : option string;
}.

Record EndpointDescription := {
  EndpointConfigName : string;
  EndpointArn : string;
}.

(** One entry of [ProductionVariants]; [ModelName] may be absent. *)
Record ProductionVariantSummary := {
  VariantName : string;
  pv_ModelName : option string;
}.

Record EndpointConfigDescription := {
  ProductionVariants : list ProductionVariantSummary;
}.

(** [desc["Specification"]["ModelName"]], each level optional. *)
Record InferenceComponentDescription := {
  Specification : option (option string);
}.

Record MonitoringScheduleSummary := {
  MonitoringScheduleName : string;
  MonitoringType : option string;
}.

(** [schedule["MonitoringScheduleConfig"].get("MonitoringJobDefinition")],
    reduced to the [ImageUri] of its [MonitoringAppSpecification]. *)
Record MonitoringScheduleDescription := {
  MonitoringJobDefinition : option string;
}.

(** *** Requests that this module builds *)

(** Values stored under the keys of a [Container] or [StartupParameters]
    dictionary. *)
Inductive field_value :=
| FStr (s : string)
| FInt (z : Z)
| FDict (d : gmap string string).

#[export] Instance truthy_field_value : Truthy field_value :=
  fun v => match v with FStr s => truthy s | FInt z => truthy z | FDict d => truthy d end.

(** Modelled from the spec: the class [ResourceRequirements] is imported;
    the record holds what [get_compute_resource_requirements()] and
    [copy_count] give.  An instance is taken to be true ([if resources:]
    tests for [None]). *)
Record ResourceRequirements := {
  get_compute_resource_requirements : gmap string field_value;
  copy_count : Z;
}.

(** Values stored under the keys of [request["specification"]]: a string
    ([ModelName]) or a dictionary. *)
Inductive spec_value :=
| SVStr (s : string)
| SVDict (d : gmap string field_value).

#[export] Instance truthy_spec_value : Truthy spec_value :=
  fun v => match v with SVStr s => truthy s | SVDict d => truthy d end.

(** The keyword arguments that [update_predictor] hands to
    [update_inference_component]. *)
Record update_inference_component_request := {
  inference_component_name : string;
  specification : gmap string spec_value;
  runtime_config : option (gmap string Z);
}.

(** ** The environment: session, clock and imported helpers

    Everything the module imports and calls but does not define.  [World] is
    the state of whatever is outside the process; a remote call may fail and
    may change it. *)
Class Env := {
  World : Type;
  (** payloads and results of the configured (de)serializers *)
  Data : Type;
  Prediction : Type;
  (** [sagemaker.model_monitor.DataCaptureConfig] and its request form *)
  DataCaptureConfig : Type;
  DataCaptureConfigDict : Type;
  new_DataCaptureConfig : bool -> DataCaptureConfig;
  _to_request_dict : DataCaptureConfig -> DataCaptureConfigDict;
  (** [sagemaker.session.production_variant]; the last argument is [None]
      when [managed_instance_scaling] is not passed *)
  ProductionVariant : Type;
  production_variant :
    string -> string -> Z -> option string -> option (gmap string Z) -> ProductionVariant;
  (** monitor objects returned by [clazz.attach] *)
  Monitor : Type;
  (** [sagemaker.utils.name_from_base]: appends a timestamp *)
  name_from_base : string -> World -> string;
  (** [sagemaker.model_monitor.model_monitoring.DEFAULT_REPOSITORY_NAME] *)
  DEFAULT_REPOSITORY_NAME : string;
  (** [PayloadSerializer(bucket, region, s3_client).serialize] *)
  jumpstart_serialize : JumpStartSerializablePayload -> World -> result string * World;
  (** [sagemaker_runtime_client.invoke_endpoint] *)
  runtime_invoke_endpoint : gmap string string -> World -> result InvokeResponse * World;
  (** [sagemaker_client.describe_endpoint], [describe_endpoint_config] *)
  client_describe_endpoint : string -> World -> result EndpointDescription * World;
  client_describe_endpoint_config :
    string -> World -> result EndpointConfigDescription * World;
  (** methods of [sagemaker.session.Session] *)
  session_describe_inference_component :
    string -> World -> result InferenceComponentDescription * World;
  session_create_endpoint_config_from_existing :
    string -> string -> option (list (gmap string string)) -> option string ->
    option DataCaptureConfigDict -> option (list ProductionVariant) ->
    option EndpointType -> World -> result unit * World;
  session_update_endpoint : string -> string -> option bool -> World -> result unit * World;
  session_delete_model : string -> World -> result unit * World;
  session_update_inference_component :
    update_inference_component_request -> World -> result unit * World;
  session_list_monitoring_schedules :
    string -> World -> result (list MonitoringScheduleSummary) * World;
  session_describe_monitoring_schedule :
    string -> World -> result MonitoringScheduleDescription * World;
  monitor_attach : monitor_class -> string -> World -> result Monitor * World;
}.

Declare Scope method_scope.
Delimit Scope method_scope with method.

Section Model.
Context `{env : Env}.

(** The payload handed to [predict]: [isinstance(data,
    JumpStartSerializablePayload)] or anything else. *)
Inductive payload :=
| Plain (d : Data)
| JumpStart (p : JumpStartSerializablePayload).

Record Serializer := {
  CONTENT_TYPE : mime;
  serialize : payload -> result string;
}.

Record Deserializer := {
  ACCEPT : mime;
  deserialize : string -> string -> result Prediction;
}.

(** The attributes of a [Predictor] object ([__init__]). *)
Record Predictor := {
  endpoint_name : string;
  component_name : option string;
  serializer : Serializer;
  deserializer : Deserializer;
  _endpoint_config_name : option string;
  _model_names : option (list string);
  _content_type : option mime;
  _accept : option mime;
}.

(** Calls made through the session, in the order they were dispatched. *)
Inductive call :=
| InvokeEndpoint (request_args : gmap string string)
| DescribeEndpoint (name : string)
| DescribeEndpointConfig (name : string)
| DescribeInferenceComponent (name : string)
| CreateEndpointConfigFromExisting
    (existing_config_name new_config_name : string)
    (new_tags : option (list (gmap string string)))
    (new_kms_key : option string)
    (new_data_capture_config_dict : option DataCaptureConfigDict)
    (new_production_variants : option (list ProductionVariant))
    (endpoint_type : option EndpointType)
| UpdateEndpoint (name new_config_name : string) (wait : option bool)
| DeleteModel (name : string)
| UpdateInferenceComponent (request : update_inference_component_request)
| ListMonitoringSchedules (name : string)
| DescribeMonitoringSchedule (name : string)
| Attach (clazz : monitor_class) (monitor_schedule_name : string).

Record state := {
  self : Predictor;
  world : World;
  calls : list call;
}.

(** ** The monad of methods *)

Definition M (A : Type) : Type := state -> result A * state.

Definition ret {A} (a : A) : M A := fun st => (Ok a, st).
Definition raise {A} (e : exn) : M A := fun st => (Raise e, st).
Definition bind {A B} (c : M A) (k : A -> M B) : M B :=
  fun st => match c st with
            | (Ok a, st') => k a st'
            | (Raise e, st') => (Raise e, st')
            end.

(** [try: c  except Exception: h] *)
Definition try_except {A} (c : M A) (h : exn -> M A) : M A :=
  fun st => match c st with
            | (Ok a, st') => (Ok a, st')
            | (Raise e, st') => h e st'
            end.

Definition get_self : M Predictor := fun st => (Ok (self st), st).
Definition get_world : M World := fun st => (Ok (world st), st).

(** Dispatch [c]: record it, let the world answer. *)
Definition remote {A} (c : call) (f : World -> result A * World) : M A :=
  fun st => let '(r, w) := f (world st) in
            (r, {| self := self st; world := w; calls := calls st ++ [c] |}).

(** A call outside the session's SageMaker clients: not recorded. *)
Definition external {A} (f : World -> result A * World) : M A :=
  fun st => let '(r, w) := f (world st) in
            (r, {| self := self st; world := w; calls := calls st |}).

Definition lift {A} (r : result A) : M A := fun st => (r, st).

Notation "x <- c ;; k" := (bind c (fun x => k))
  (at level 100, c at next level, right associativity) : method_scope.
Notation "c ;; k" := (bind c (fun _ => k))
  (at level 100, right associativity) : method_scope.
Local Open Scope method_scope.

(** [a or b] *)
Definition py_or {A} `{Truthy A} (a b : A) : A := if truthy a then a else b.

(** [if k not in d: d[k] = v] *)
Definition set_if_absent {V} (k : string) (v : V) (d : gmap string V) : gmap string V :=
  match d !! k with
  | Some _ => d
  | None => <[k := v]> d
  end.

(** [if b: d[k] = v] *)
Definition set_if {V} (b : bool) (k : string) (v : V) (d : gmap string V) : gmap string V :=
  if b then <[k := v]> d else d.

(** [d[k][k'] = v] on a dictionary of dictionaries. *)
Definition setitem2 (k k' : string) (v : field_value)
    (d : gmap string spec_value) : gmap string spec_value :=
  alter (fun sv => match sv with
                   | SVDict inner => SVDict (<[k' := v]> inner)
                   | SVStr s => SVStr s
                   end) k d.

(** ** Attribute writes *)

Definition with_endpoint_config_name (v : option string) (p : Predictor) : Predictor :=
  {| endpoint_name := endpoint_name p; component_name := component_name p;
     serializer := serializer p; deserializer := deserializer p;
     _endpoint_config_name := v; _model_names := _model_names p;
     _content_type := _content_type p; _accept := _accept p |}.

Definition with_model_names (v : option (list string)) (p : Predictor) : Predictor :=
  {| endpoint_name := endpoint_name p; component_name := component_name p;
     serializer := serializer p; deserializer := deserializer p;
     _endpoint_config_name := _endpoint_config_name p; _model_names := v;
     _content_type := _content_type p; _accept := _accept p |}.

(** The setters of the [content_type] and [accept] properties. *)
Definition set_content_type (val : mime) (p : Predictor) : Predictor :=
  {| endpoint_name := endpoint_name p; component_name := component_name p;
     serializer := serializer p; deserializer := deserializer p;
     _endpoint_config_name := _endpoint_config_name p; _model_names := _model_names p;
     _content_type := Some val; _accept := _accept p |}.

Definition set_accept (val : mime) (p : Predictor) : Predictor :=
  {| endpoint_name := endpoint_name p; component_name := component_name p;
     serializer := serializer p; deserializer := deserializer p;
     _endpoint_config_name := _endpoint_config_name p; _model_names := _model_names p;
     _content_type := _content_type p; _accept := Some val |}.

Definition modify_self (f : Predictor -> Predictor) : M unit :=
  fun st => (Ok tt, {| self := f (self st); world := world st; calls := calls st |}).

(** ** Properties and private helpers of [Predictor] *)

(** [getattr(self, "component_name", None)] *)
Definition _get_component_name (p : Predictor) : option string := component_name p.

(** [self._content_type or self.serializer.CONTENT_TYPE] *)
Definition content_type (p : Predictor) : mime :=
  match _content_type p with
  | Some c => if truthy c then c else CONTENT_TYPE (serializer p)
  | None => CONTENT_TYPE (serializer p)
  end.

(** [self._accept or self.deserializer.ACCEPT] *)
Definition accept (p : Predictor) : mime :=
  match _accept p with
  | Some c => if truthy c then c else ACCEPT (deserializer p)
  | None => ACCEPT (deserializer p)
  end.

Definition _get_endpoint_config_name : M string :=
  p <- get_self ;;
  match _endpoint_config_name p with
  | Some name => ret name
  | None =>
      endpoint_desc <- remote (DescribeEndpoint (endpoint_name p))
                              (client_describe_endpoint (endpoint_name p)) ;;
      modify_self (with_endpoint_config_name (Some (EndpointConfigName endpoint_desc))) ;;
      ret (EndpointConfigName endpoint_desc)
  end.

(** The [ModelName]s of the production variants that have one. *)
Definition variant_model_names (pvs : list ProductionVariantSummary) : list string :=
  omap pv_ModelName pvs.

Definition _get_model_names : M (list string) :=
  p <- get_self ;;
  match _model_names p with
  | Some names => ret names
  | None =>
      modify_self (with_model_names (Some [])) ;;
      if truthy (_get_component_name p) then
        desc <- remote (DescribeInferenceComponent (default "" (_get_component_name p)))
                  (session_describe_inference_component
                     (default "" (_get_component_name p))) ;;
        match Specification desc with
        | Some (Some model) =>
            modify_self (with_model_names (Some [model])) ;; ret [model]
        | _ => ret []
        end
      else
        current_endpoint_config_name <- _get_endpoint_config_name ;;
        endpoint_config <- remote (DescribeEndpointConfig current_endpoint_config_name)
            (client_describe_endpoint_config current_endpoint_config_name) ;;
        let names := variant_model_names (ProductionVariants endpoint_config) in
        modify_self (with_model_names (Some names)) ;;
        ret names
  end.

(** ** [predict] *)

Definition _create_request_args (data : payload)
    (initial_args : option (gmap string string))
    (target_model target_variant inference_id custom_attributes : option string)
    : M (gmap string string) :=
  p <- get_self ;;
  js <- match data with
        | JumpStart jp =>
            serialized <- external (jumpstart_serialize jp) ;;
            ret (Some serialized, content_type_of jp, accept_of jp)
        | Plain _ => ret (None, None, None)
        end ;;
  let '(jumpstart_serialized_data, jumpstart_content_type, jumpstart_accept) := js in
  let args : gmap string string :=
    if truthy initial_args then default ∅ initial_args else ∅ in
  let args := set_if_absent "EndpointName" (endpoint_name p) args in
  let args := set_if_absent "ContentType"
                (if truthy jumpstart_content_type
                 then default "" jumpstart_content_type
                 else str_or_join (content_type p)) args in
  let args := set_if_absent "Accept"
                (if truthy jumpstart_accept
                 then default "" jumpstart_accept
                 else str_or_join (accept p)) args in
  let args := set_if (truthy target_model) "TargetModel" (default "" target_model) args in
  let args := set_if (truthy target_variant) "TargetVariant"
                (default "" target_variant) args in
  let args := set_if (truthy inference_id) "InferenceId" (default "" inference_id) args in
  let args := set_if (truthy custom_attributes) "CustomAttributes"
                (default "" custom_attributes) args in
  body <- (if truthy jumpstart_serialized_data
           then ret (default "" jumpstart_serialized_data)
           else lift (serialize (serializer p) data)) ;;
  let args := set_if (truthy (_get_component_name p)) "InferenceComponentName"
                (default "" (component_name p)) args in
  ret (<["Body" := body]> args).

Definition _handle_response (response : InvokeResponse) : M Prediction :=
  p <- get_self ;;
  lift (deserialize (deserializer p) (resp_Body response)
          (default "application/octet-stream" (resp_ContentType response))).

Definition predict (data : payload) (initial_args : option (gmap string string))
    (target_model target_variant inference_id custom_attributes : option string)
    (component_name_arg : option string) : M Prediction :=
  request_args <- _create_request_args data initial_args target_model target_variant
                    inference_id custom_attributes ;;
  p <- get_self ;;
  let inference_component_name := py_or component_name_arg (_get_component_name p) in
  let request_args :=
    set_if (truthy inference_component_name) "InferenceComponentName"
      (default "" inference_component_name) request_args in
  response <- remote (InvokeEndpoint request_args) (runtime_invoke_endpoint request_args) ;;
  _handle_response response.

(** ** [update_endpoint] *)

Definition missing_count_or_type_message
    (initial_instance_count : option Z) (instance_type accelerator_type model_name : option string)
    : string :=
  "Missing initial_instance_count and/or instance_type. Provided values: "
  +:+ "initial_instance_count=" +:+ py_str initial_instance_count
  +:+ ", instance_type=" +:+ py_str instance_type
  +:+ ", accelerator_type=" +:+ py_str accelerator_type
  +:+ ", model_name=" +:+ py_str model_name +:+ ".".

Definition multiple_models_message (current_model_names : list string) : string :=
  "Unable to choose a default model for a new EndpointConfig because "
  +:+ "the endpoint has multiple models: " +:+ join ", " current_model_names.

(** [managed_instance_scaling], filled from the two optional bounds. *)
Definition managed_instance_scaling_of (max_instance_count min_instance_count : option Z)
    : gmap string Z :=
  let managed_instance_scaling : gmap string Z := ∅ in
  let managed_instance_scaling :=
    if truthy max_instance_count
    then <["MaxInstanceCount" := default 0 max_instance_count]> managed_instance_scaling
    else managed_instance_scaling in
  if truthy min_instance_count
  then <["MinInstanceCount" := default 0 min_instance_count]> managed_instance_scaling
  else managed_instance_scaling.

Definition update_endpoint
    (initial_instance_count : option Z)
    (instance_type accelerator_type model_name : option string)
    (tags : option (list (gmap string string)))
    (kms_key : option string)
    (data_capture_config_dict : option DataCaptureConfigDict)
    (max_instance_count min_instance_count : option Z)
    (wait : bool) : M unit :=
  current_model_names <- _get_model_names ;;
  production_variants <-
    (if truthy initial_instance_count || truthy instance_type
        || truthy accelerator_type || truthy model_name
     then
       match instance_type, initial_instance_count with
       | Some instance_type', Some initial_instance_count' =>
           model_name' <-
             match model_name with
             | None =>
                 if (1 <? length current_model_names)%nat
                 then raise (ValueError (multiple_models_message current_model_names))
                 else match current_model_names with
                      | m :: _ => ret m
                      | [] => raise (IndexError "list index out of range")
                      end
             | Some m => modify_self (with_model_names (Some [m])) ;; ret m
             end ;;
           let managed_instance_scaling :=
             managed_instance_scaling_of max_instance_count min_instance_count in
           let production_variant_config :=
             if truthy managed_instance_scaling
             then production_variant model_name' instance_type' initial_instance_count'
                    accelerator_type (Some managed_instance_scaling)
             else production_variant model_name' instance_type' initial_instance_count'
                    accelerator_type None in
           ret (Some [production_variant_config])
       | _, _ =>
           raise (ValueError (missing_count_or_type_message initial_instance_count
                                instance_type accelerator_type model_name))
       end
     else ret None) ;;
  current_endpoint_config_name <- _get_endpoint_config_name ;;
  now <- get_world ;;
  let new_endpoint_config_name := name_from_base current_endpoint_config_name now in
  p <- get_self ;;
  let endpoint_type :=
    if truthy (_get_component_name p) then INFERENCE_COMPONENT_BASED else MODEL_BASED in
  remote (CreateEndpointConfigFromExisting current_endpoint_config_name
            new_endpoint_config_name tags kms_key data_capture_config_dict
            production_variants (Some endpoint_type))
         (session_create_endpoint_config_from_existing current_endpoint_config_name
            new_endpoint_config_name tags kms_key data_capture_config_dict
            production_variants (Some endpoint_type)) ;;
  remote (UpdateEndpoint (endpoint_name p) new_endpoint_config_name (Some wait))
         (session_update_endpoint (endpoint_name p) new_endpoint_config_name (Some wait)) ;;
  modify_self (with_endpoint_config_name (Some new_endpoint_config_name)).

(** ** [update_predictor] *)

Definition no_inference_component_message : string :=
  "No inference component exists for the specified model. "
  +:+ "Ensure that you deployed the inference component, and try again.".

(** The keys of [specification] whose value is false, then their removal. *)
Definition empty_keys (specification : gmap string spec_value) : list string :=
  (map_to_list specification) ≫= (fun kv => if truthy kv.2 then [] else [kv.1]).

Definition prune (specification : gmap string spec_value) : gmap string spec_value :=
  foldl (fun d key => delete key d) specification (empty_keys specification).

Definition update_predictor
    (model_name image_uri : option string)
    (model_data : option field_value)
    (env_vars : option (gmap string string))
    (model_data_download_timeout container_startup_health_check_timeout : option Z)
    (resources : option ResourceRequirements) : M unit :=
  p <- get_self ;;
  match component_name p with
  | None => raise (ValueError no_inference_component_message)
  | Some name =>
      let spec : gmap string spec_value :=
        <["StartupParameters" := SVDict ∅]> (<["Container" := SVDict ∅]> ∅) in
      let spec :=
        match resources with
        | Some r => <["ComputeResourceRequirements" :=
                        SVDict (get_compute_resource_requirements r)]> spec
        | None => spec
        end in
      let spec :=
        if truthy model_name
        then <["ModelName" := SVStr (default "" model_name)]> spec
        else
          let spec := if truthy image_uri
                      then setitem2 "Container" "Image" (FStr (default "" image_uri)) spec
                      else spec in
          let spec := if truthy env_vars
                      then setitem2 "Container" "Environment"
                             (FDict (default ∅ env_vars)) spec
                      else spec in
          if truthy model_data
          then setitem2 "Container" "ArtifactUrl" (default (FStr "") model_data) spec
          else spec in
      copies <- match resources with
                | Some r => ret (copy_count r)
                | None => raise (AttributeError
                                   "'NoneType' object has no attribute 'copy_count'")
                end ;;
      let runtime : option (gmap string Z) :=
        if truthy copies then Some {["CopyCount" := copies]} else None in
      let spec :=
        if truthy model_data_download_timeout
        then setitem2 "StartupParameters" "ModelDataDownloadTimeoutInSeconds"
               (FInt (default 0 model_data_download_timeout)) spec
        else spec in
      let spec :=
        if truthy container_startup_health_check_timeout
        then setitem2 "StartupParameters" "ContainerStartupHealthCheckTimeoutInSeconds"
               (FInt (default 0 container_startup_health_check_timeout)) spec
        else spec in
      let request := {| inference_component_name := name;
                        specification := prune spec;
                        runtime_config := runtime |} in
      remote (UpdateInferenceComponent request) (session_update_inference_component request)
  end.

(** ** [delete_model] *)

Definition LF : string := String (Ascii.ascii_of_nat 10) "".

Definition failed_models_message (failed_models : list string) : string :=
  "One or more models cannot be deleted, please retry. " +:+ LF
  +:+ "Failed models: " +:+ join ", " failed_models.

(** The [for] loop, carrying [request_failed] and [failed_models]. *)
Fixpoint delete_model_loop (names : list string) (request_failed : bool)
    (failed_models : list string) : M (bool * list string) :=
  match names with
  | [] => ret (request_failed, failed_models)
  | model_name :: rest =>
      acc <- try_except
               (remote (DeleteModel model_name) (session_delete_model model_name) ;;
                ret (request_failed, failed_models))
               (fun _ => ret (true, (failed_models ++ [model_name])%list)) ;;
      delete_model_loop rest acc.1 acc.2
  end.

Definition delete_model : M unit :=
  current_model_names <- _get_model_names ;;
  acc <- delete_model_loop current_model_names false [] ;;
  if acc.1 then raise (Exception (failed_models_message acc.2)) else ret tt.

(** ** Data capture *)

Definition update_data_capture_config (data_capture_config : option DataCaptureConfig)
    : M unit :=
  p <- get_self ;;
  endpoint_desc <- remote (DescribeEndpoint (endpoint_name p))
                          (client_describe_endpoint (endpoint_name p)) ;;
  now <- get_world ;;
  let new_config_name := name_from_base (endpoint_name p) now in
  let data_capture_config_dict := _to_request_dict <$> data_capture_config in
  remote (CreateEndpointConfigFromExisting (EndpointConfigName endpoint_desc)
            new_config_name None None data_capture_config_dict None None)
         (session_create_endpoint_config_from_existing (EndpointConfigName endpoint_desc)
            new_config_name None None data_capture_config_dict None None) ;;
  remote (UpdateEndpoint (endpoint_name p) new_config_name None)
         (session_update_endpoint (endpoint_name p) new_config_name None).

Definition enable_data_capture : M unit :=
  update_data_capture_config (Some (new_DataCaptureConfig true)).

Definition disable_data_capture : M unit :=
  update_data_capture_config (Some (new_DataCaptureConfig false)).

(** ** Monitors *)

Definition _get_model_monitor_class (schedule_name : string)
    (monitoring_type : option string) : M monitor_class :=
  if decide (monitoring_type = Some "ModelBias") then ret ModelBiasMonitor
  else if decide (monitoring_type = Some "ModelExplainability")
  then ret ModelExplainabilityMonitor
  else
    schedule <- remote (DescribeMonitoringSchedule schedule_name)
                       (session_describe_monitoring_schedule schedule_name) ;;
    match MonitoringJobDefinition schedule with
    | Some image_uri =>
        if endswith image_uri DEFAULT_REPOSITORY_NAME
        then ret DefaultModelMonitor else ret ModelMonitor
    | None =>
        if decide (monitoring_type = Some "DataQuality") then ret DefaultModelMonitor
        else if decide (monitoring_type = Some "ModelQuality") then ret ModelQualityMonitor
        else raise (TypeError ("Unknown monitoring type: " +:+ py_str monitoring_type))
    end.

(** The [for] loop of [list_monitors], carrying [monitors]. *)
Fixpoint list_monitors_loop (schedules : list MonitoringScheduleSummary)
    (monitors : list Monitor) : M (list Monitor) :=
  match schedules with
  | [] => ret monitors
  | schedule_dict :: rest =>
      let schedule_name := MonitoringScheduleName schedule_dict in
      let monitoring_type := MonitoringType schedule_dict in
      clazz <- _get_model_monitor_class schedule_name monitoring_type ;;
      monitor <- remote (Attach clazz schedule_name) (monitor_attach clazz schedule_name) ;;
      list_monitors_loop rest (monitors ++ [monitor])%list
  end.

Definition list_monitors : M (list Monitor) :=
  p <- get_self ;;
  summaries <- remote (ListMonitoringSchedules (endpoint_name p))
                      (session_list_monitoring_schedules (endpoint_name p)) ;;
  if (length summaries =? 0)%nat then ret []
  else list_monitors_loop summaries [].

End Model.

Notation "x <- c ;; k" := (bind c (fun x => k))
  (at level 100, c at next level, right associativity) : method_scope.
Notation "c ;; k" := (bind c (fun _ => k))
  (at level 100, right associativity) : method_scope.

(** * Vocabulary of the properties *)

Section Vocabulary.
Context `{env : Env}.

(** ** Kinds of calls *)

(** The calls that only read: the three describe calls of the look-ups. *)
Definition describe_call (c : call) : bool :=
  match c with
  | DescribeEndpoint _ | DescribeEndpointConfig _ | DescribeInferenceComponent _ => true
  | _ => false
  end.


(** [st'] is [st] after look-ups: more describe calls in the log, the same
    endpoint and component. *)
Record looked_up (st st' : state) : Prop := {
  looked_up_calls : exists l, calls st' = calls st ++ l /\ forallb describe_call l = true;
  looked_up_endpoint : endpoint_name (self st') = endpoint_name (self st);
  looked_up_component : component_name (self st') = component_name (self st);
}.

(** ** Outcome of the deletions *)

(** The models whose deletion the service refuses when [names] are deleted
    one after the other starting in world [w], and the world after the last
    attempt. *)
Fixpoint failed_deletions (names : list string) (w : World) : list string * World :=
  match names with
  | [] => ([], w)
  | name :: rest =>
      let '(r, w1) := session_delete_model name w in
      let '(failed, w2) := failed_deletions rest w1 in
      (if raised r then name :: failed else failed, w2)
  end.

(** ** Content negotiation *)

(** The value the caller put under [key] in [initial_args]. *)
Definition explicit (initial_args : option (gmap string string)) (key : string)
    : option string :=
  initial_args ≫= (fun d => d !! key).

(** The non-empty value that a JumpStart payload embeds. *)
Definition embedded (field : JumpStartSerializablePayload -> option string)
    (data : payload) : option string :=
  match data with
  | JumpStart jp =>
      match field jp with
      | Some v => if truthy v then Some v else None
      | None => None
      end
  | Plain _ => None
  end.

(** The precedence: explicit, else embedded, else the Predictor's property. *)
Definition resolve (explicit_value embedded_value : option string) (property : mime)
    : string :=
  match explicit_value with
  | Some v => v
  | None =>
      match embedded_value with
      | Some v => v
      | None => str_or_join property
      end
  end.

End Vocabulary.

(** * Further vocabulary *)

Section Steps.
Context `{env : Env}.
Local Open Scope method_scope.

(** ** The two halves of [update_endpoint]

    The body of [update_endpoint] after the model-name look-up, cut where
    [production_variants] is known: the validation block (the [if] of
    lines 350-396), then the rotation (lines 398-418).
    [update_endpoint_steps] below shows that the method is their
    sequence. *)

Definition new_production_variants
    (initial_instance_count : option Z)
    (instance_type accelerator_type model_name : option string)
    (max_instance_count min_instance_count : option Z)
    (current_model_names : list string) : M (option (list ProductionVariant)) :=
  if truthy initial_instance_count || truthy instance_type
     || truthy accelerator_type || truthy model_name
  then
    match instance_type, initial_instance_count with
    | Some instance_type', Some initial_instance_count' =>
        model_name' <-
          match model_name with
          | None =>
              if (1 <? length current_model_names)%nat
              then raise (ValueError (multiple_models_message current_model_names))
              else match current_model_names with
                   | m :: _ => ret m
                   | [] => raise (IndexError "list index out of range")
                   end
          | Some m => modify_self (with_model_names (Some [m])) ;; ret m
          end ;;
        let managed_instance_scaling :=
          managed_instance_scaling_of max_instance_count min_instance_count in
        let production_variant_config :=
          if truthy managed_instance_scaling
          then production_variant model_name' instance_type' initial_instance_count'
                 accelerator_type (Some managed_instance_scaling)
          else production_variant model_name' instance_type' initial_instance_count'
                 accelerator_type None in
        ret (Some [production_variant_config])
    | _, _ =>
        raise (ValueError (missing_count_or_type_message initial_instance_count
                             instance_type accelerator_type model_name))
    end
  else ret None.

Definition rotate_endpoint_config
    (tags : option (list (gmap string string))) (kms_key : option string)
    (data_capture_config_dict : option DataCaptureConfigDict) (wait : bool)
    (production_variants : option (list ProductionVariant)) : M unit :=
  current_endpoint_config_name <- _get_endpoint_config_name ;;
  now <- get_world ;;
  let new_endpoint_config_name := name_from_base current_endpoint_config_name now in
  p <- get_self ;;
  let endpoint_type :=
    if truthy (_get_component_name p) then INFERENCE_COMPONENT_BASED else MODEL_BASED in
  remote (CreateEndpointConfigFromExisting current_endpoint_config_name
            new_endpoint_config_name tags kms_key data_capture_config_dict
            production_variants (Some endpoint_type))
         (session_create_endpoint_config_from_existing current_endpoint_config_name
            new_endpoint_config_name tags kms_key data_capture_config_dict
            production_variants (Some endpoint_type)) ;;
  remote (UpdateEndpoint (endpoint_name p) new_endpoint_config_name (Some wait))
         (session_update_endpoint (endpoint_name p) new_endpoint_config_name (Some wait)) ;;
  modify_self (with_endpoint_config_name (Some new_endpoint_config_name)).

(** ** Reading a request *)

(** [request["specification"][key][field]], when both levels are there. *)
Definition specification_field (request : update_inference_component_request)
    (key field : string) : option field_value :=
  match specification request !! key with
  | Some (SVDict d) => d !! field
  | _ => None
  end.

(** The schedules attached, in the order of the calls. *)
Definition attached (l : list call) : list string :=
  omap (fun c => match c with Attach _ name => Some name | _ => None end) l.

(** The configurations from which the create calls of [l] derive. *)
Definition created_from (l : list call) : list string :=
  omap (fun c => match c with
                 | CreateEndpointConfigFromExisting existing _ _ _ _ _ _ => Some existing
                 | _ => None
                 end) l.

End Steps.

(** * Deletion, related models and lineage

    The methods of [Predictor] that reach collaborators the methods above
    do not use: [delete_endpoint], [delete_predictor],
    [list_related_models] and [endpoint_context].  They run on an [object]:
    the state above, the [_context] attribute, and a [trace] that records
    every call, those of the methods above included, in the order of
    dispatch. *)

(** The optional filters of [list_related_models], as it forwards them. *)
Record related_models_filters (Datetime : Type) := {
  variant_name_equals : option string;
  name_contains : option string;
  creation_time_after : option Datetime;
  creation_time_before : option Datetime;
  last_modified_time_after : option Datetime;
  last_modified_time_before : option Datetime;
  status_equals : option string;
  sort_order : option string;
  sort_by : option string;
  max_results : option Z;
  next_token : option string;
}.

(** Modelled from the spec: a non-empty answer of
    [list_inference_components] "has [InferenceComponents] and optional
    [NextToken]". *)
Record inference_components_response (Summary : Type) := {
  InferenceComponents : list Summary;
  NextToken : option string;
}.
Arguments InferenceComponents {Summary} _.
Arguments NextToken {Summary} _.

(** The first component of what [list_related_models] returns: the empty
    dictionary, or the list of the response. *)
Inductive related_models (Summary : Type) :=
| EmptyDict
| Components (l : list Summary).
Arguments EmptyDict {Summary}.
Arguments Components {Summary} l.

(** The further collaborators.  [session_list_inference_components] answers
    [None] for the empty dictionary; [EndpointContext_list] gives the
    [context_name]s of the matches, in order.  A loaded [EndpointContext]
    is taken to be an object without a boolean conversion of its own, so
    the test [if self._context] is true exactly when one is cached. *)
Class Admin `{env : Env} := {
  Datetime : Type;
  InferenceComponentSummary : Type;
  EndpointContext : Type;
  session_delete_endpoint_config : string -> World -> result unit * World;
  session_delete_endpoint : string -> World -> result unit * World;
  session_delete_inference_component : string -> bool -> World -> result unit * World;
  session_list_inference_components :
    string -> related_models_filters Datetime -> World ->
    result (option (inference_components_response InferenceComponentSummary)) * World;
  EndpointContext_list : string -> World -> result (list string) * World;
  EndpointContext_load : string -> World -> result EndpointContext * World;
}.

Declare Scope object_scope.
Delimit Scope object_scope with object.

Section Administration.
Context `{admin : Admin}.

Inductive event :=
| Core (c : call)
| DeleteEndpointConfig (name : string)
| DeleteEndpoint (name : string)
| DeleteInferenceComponent (name : string) (wait : bool)
| ListInferenceComponents (endpoint_name_equals : string)
    (filters : related_models_filters Datetime)
| ListContexts (source_uri : string)
| LoadContext (context_name : string).

Record object := {
  core : state;
  _context : option EndpointContext;
  trace : list event;
}.

Definition O (A : Type) : Type := object -> result A * object.

Definition oret {A} (a : A) : O A := fun o => (Ok a, o).
Definition obind {A B} (c : O A) (k : A -> O B) : O B :=
  fun o => match c o with
           | (Ok a, o') => k a o'
           | (Raise e, o') => (Raise e, o')
           end.

Notation "x <- c ;; k" := (obind c (fun x => k))
  (at level 100, c at next level, right associativity) : object_scope.
Notation "c ;; k" := (obind c (fun _ => k))
  (at level 100, right associativity) : object_scope.
Local Open Scope object_scope.

Definition get_object : O object := fun o => (Ok o, o).

Definition set_context (ctx : option EndpointContext) : O unit :=
  fun o => (Ok tt, {| core := core o; _context := ctx; trace := trace o |}).

(** Run a method of the model above; the calls it adds to its log are added
    to the trace. *)
Definition core_method {A} (c : M A) : O A :=
  fun o => let '(r, st') := c (core o) in
           (r, {| core := st'; _context := _context o;
                  trace := trace o
                           ++ (Core <$> drop (length (calls (core o))) (calls st')) |}).

(** Dispatch [e]: record it, let the world answer. *)
Definition dispatch {A} (e : event) (f : World -> result A * World) : O A :=
  fun o => let '(r, w) := f (world (core o)) in
           (r, {| core := {| self := self (core o); world := w;
                             calls := calls (core o) |};
                  _context := _context o;
                  trace := trace o ++ [e] |}).

(** ** [delete_endpoint], [delete_predictor] *)

Definition _delete_endpoint_config : O unit :=
  current_endpoint_config_name <- core_method _get_endpoint_config_name ;;
  dispatch (DeleteEndpointConfig current_endpoint_config_name)
           (session_delete_endpoint_config current_endpoint_config_name).

Definition delete_endpoint (delete_endpoint_config : bool) : O unit :=
  (if delete_endpoint_config then _delete_endpoint_config else oret tt) ;;
  o <- get_object ;;
  dispatch (DeleteEndpoint (endpoint_name (self (core o))))
           (session_delete_endpoint (endpoint_name (self (core o)))).

Definition delete_predictor (wait : bool) : O unit :=
  o <- get_object ;;
  if truthy (component_name (self (core o)))
  then dispatch (DeleteInferenceComponent (default "" (component_name (self (core o))))
                   wait)
                (session_delete_inference_component
                   (default "" (component_name (self (core o)))) wait)
  else delete_endpoint true.

(** ** [list_related_models] *)

Definition list_related_models (filters : related_models_filters Datetime)
    : O (related_models InferenceComponentSummary * option string) :=
  o <- get_object ;;
  response_dict <-
    dispatch (ListInferenceComponents (endpoint_name (self (core o))) filters)
             (session_list_inference_components (endpoint_name (self (core o)))
                filters) ;;
  match response_dict with
  | None => oret (EmptyDict, None)
  | Some response =>
      oret (Components (InferenceComponents response), NextToken response)
  end.

(** ** [endpoint_context] *)

Definition endpoint_context : O (option EndpointContext) :=
  o <- get_object ;;
  match _context o with
  | Some ctx => oret (Some ctx)
  | None =>
      response <- core_method
                    (remote (DescribeEndpoint (endpoint_name (self (core o))))
                       (client_describe_endpoint (endpoint_name (self (core o))))) ;;
      let endpoint_arn := EndpointArn response in
      contexts <- dispatch (ListContexts endpoint_arn)
                           (EndpointContext_list endpoint_arn) ;;
      (match contexts with
       | first :: _ =>
           ctx <- dispatch (LoadContext first) (EndpointContext_load first) ;;
           set_context (Some ctx)
       | [] => oret tt
       end) ;;
      o' <- get_object ;;
      oret (_context o')
  end.

End Administration.

Notation "x <- c ;; k" := (obind c (fun x => k))
  (at level 100, c at next level, right associativity) : object_scope.
Notation "c ;; k" := (obind c (fun _ => k))
  (at level 100, right associativity) : object_scope.

(** * A concrete environment

    A small world to run the methods in: the world is a clock that ticks at
    every call that reaches it.  The endpoint ["ep"] runs configuration
    ["cfg"], which has the production variants of models ["A"] and ["B"];
    deleting model ["B"] is refused; the endpoint ["quiet"] has no monitoring
    schedule. *)
Module Demo.

Definition tick {A} (r : result A) (w : nat) : result A * nat := (r, S w).

Definition schedules (endpoint : string) : list MonitoringScheduleSummary :=
  if String.eqb endpoint "quiet" then []
  else [ {| MonitoringScheduleName := "bias"; MonitoringType := Some "ModelBias" |};
         {| MonitoringScheduleName := "legacy"; MonitoringType := None |};
         {| MonitoringScheduleName := "quality"; MonitoringType := Some "ModelQuality" |} ].

Definition schedule (name : string) : MonitoringScheduleDescription :=
  if String.eqb name "legacy"
  then {| MonitoringJobDefinition := Some "registry/sagemaker-model-monitor-analyzer" |}
  else {| MonitoringJobDefinition := None |}.

#[export] Instance env : Env := {|
  World := nat;
  Data := string;
  Prediction := string;
  DataCaptureConfig := bool;
  DataCaptureConfigDict := bool;
  new_DataCaptureConfig := fun enable_capture => enable_capture;
  _to_request_dict := fun config => config;
  ProductionVariant :=
    string * string * Z * option string * option (gmap string Z);
  production_variant := fun model instance_type count accelerator scaling =>
    (model, instance_type, count, accelerator, scaling);
  Monitor := monitor_class * string;
  name_from_base := fun base now => base +:+ "-" +:+ pretty now;
  DEFAULT_REPOSITORY_NAME := "sagemaker-model-monitor-analyzer";
  jumpstart_serialize := fun jp => tick (Ok (payload_body jp));
  runtime_invoke_endpoint := fun args =>
    tick (Ok {| resp_Body := default "" (args !! "Body");
                resp_ContentType := args !! "Accept" |});
  client_describe_endpoint := fun name =>
    tick (Ok {| EndpointConfigName := "cfg"; EndpointArn := "arn:" +:+ name |});
  client_describe_endpoint_config := fun name =>
    tick (Ok {| ProductionVariants :=
                  [ {| VariantName := "v1"; pv_ModelName := Some "A" |};
                    {| VariantName := "v2"; pv_ModelName := Some "B" |} ] |});
  session_describe_inference_component := fun name =>
    tick (Ok {| Specification := Some (Some "A") |});
  session_create_endpoint_config_from_existing := fun _ _ _ _ _ _ _ => tick (Ok tt);
  session_update_endpoint := fun _ _ _ => tick (Ok tt);
  session_delete_model := fun name =>
    tick (if String.eqb name "B" then Raise (ClientError "model in use") else Ok tt);
  session_update_inference_component := fun _ => tick (Ok tt);
  session_list_monitoring_schedules := fun name => tick (Ok (schedules name));
  session_describe_monitoring_schedule := fun name => tick (Ok (schedule name));
  monitor_attach := fun clazz name => tick (Ok (clazz, name));
|}.

Definition IdentitySerializer : Serializer :=
  {| CONTENT_TYPE := MStr "application/octet-stream";
     serialize := fun data => match data with
                              | Plain d => Ok d
                              | JumpStart jp => Ok (payload_body jp)
                              end |}.

Definition BytesDeserializer : Deserializer :=
  {| ACCEPT := MTuple ["*/*"];
     deserialize := fun body _ => Ok body |}.

(** [Predictor(endpoint_name, component_name=component_name)] *)
Definition new_Predictor (endpoint_name : string) (component_name : option string)
    : Predictor :=
  {| endpoint_name := endpoint_name; component_name := component_name;
     serializer := IdentitySerializer; deserializer := BytesDeserializer;
     _endpoint_config_name := None; _model_names := None;
     _content_type := None; _accept := None |}.

Definition start (p : Predictor) : state := {| self := p; world := 0%nat; calls := [] |}.

(** A Predictor for endpoint ["ep"] whose two caches are warm. *)
Definition warm (names : list string) : Predictor :=
  with_model_names (Some names)
    (with_endpoint_config_name (Some "cfg") (new_Predictor "ep" None)).

Definition two_copies : ResourceRequirements :=
  {| get_compute_resource_requirements := {["MinMemoryRequiredInMb" := FInt 1024]};
     copy_count := 2 |}.

End Demo.

(** The further collaborators of the concrete environment: the
    configuration ["locked"] cannot be deleted; the endpoint ["quiet"] hosts
    no inference component; only the endpoint ["ep"] has lineage
    contexts. *)
Module DemoAdmin.
Import Demo.

#[export] Instance admin : Admin := {|
  Datetime := nat;
  InferenceComponentSummary := string;
  EndpointContext := string;
  session_delete_endpoint_config := fun name =>
    tick (if String.eqb name "locked" then Raise (ClientError "configuration in use")
          else Ok tt);
  session_delete_endpoint := fun _ => tick (Ok tt);
  session_delete_inference_component := fun _ _ => tick (Ok tt);
  session_list_inference_components := fun endpoint filters =>
    tick (Ok (if String.eqb endpoint "quiet" then None
              else Some {| InferenceComponents := ["ic-1"; "ic-2"];
                           NextToken := Some "page-2" |}));
  EndpointContext_list := fun source_uri =>
    tick (Ok (if String.eqb source_uri "arn:ep" then ["ctx-1"; "ctx-2"] else []));
  EndpointContext_load := fun name => tick (Ok name);
|}.

(** A Predictor object as [__init__] leaves it: no context, nothing
    traced. *)
Definition fresh (p : Predictor) : object :=
  {| core := start p; _context := None; trace := [] |}.

Definition no_filters : related_models_filters Datetime :=
  {| variant_name_equals := None; name_contains := None;
     creation_time_after := None; creation_time_before := None;
     last_modified_time_after := None; last_modified_time_before := None;
     status_equals := None; sort_order := None; sort_by := None;
     max_results := None; next_token := None |}.

End DemoAdmin.

(** An environment in which the service cannot be reached: every call that
    leaves the process raises. *)
Module Outage.

Definition down {A} (w : nat) : result A * nat :=
  (Raise (ClientError "service unavailable"), S w).

#[local] Instance env : Env := {|
  World := nat;
  Data := string;
  Prediction := string;
  DataCaptureConfig := bool;
  DataCaptureConfigDict := bool;
  new_DataCaptureConfig := fun enable_capture => enable_capture;
  _to_request_dict := fun config => config;
  ProductionVariant := string;
  production_variant := fun model _ _ _ _ => model;
  Monitor := string;
  name_from_base := fun base now => base +:+ "-" +:+ pretty now;
  DEFAULT_REPOSITORY_NAME := "sagemaker-model-monitor-analyzer";
  jumpstart_serialize := fun _ => down;
  runtime_invoke_endpoint := fun _ => down;
  client_describe_endpoint := fun _ => down;
  client_describe_endpoint_config := fun _ => down;
  session_describe_inference_component := fun _ => down;
  session_create_endpoint_config_from_existing := fun _ _ _ _ _ _ _ => down;
  session_update_endpoint := fun _ _ _ => down;
  session_delete_model := fun _ => down;
  session_update_inference_component := fun _ => down;
  session_list_monitoring_schedules := fun _ => down;
  session_describe_monitoring_schedule := fun _ => down;
  monitor_attach := fun _ _ => down;
|}.

(** A Predictor for endpoint ["ep"] with nothing cached, before any call. *)
Definition cold : state :=
  {| self := {| endpoint_name := "ep"; component_name := None;
                serializer := {| CONTENT_TYPE := MStr "application/octet-stream";
                                 serialize := fun _ => Ok "" |};
                deserializer := {| ACCEPT := MTuple ["*/*"];
                                   deserialize := fun body _ => Ok body |};
                _endpoint_config_name := None; _model_names := None;
                _content_type := None; _accept := None |};
     world := 0%nat; calls := [] |}.

End Outage.

(** * Properties *)

Section Properties.
Context `{env : Env}.
Local Open Scope method_scope.

(** ** The monad *)

Lemma bind_run {A B} (c : M A) (k : A -> M B) (st : state) :
  bind c k st = match c st with
                | (Ok a, st') => k a st'
                | (Raise e, st') => (Raise e, st')
                end.
Proof. reflexivity. Qed.

Lemma bind_ok {A B} (c : M A) (k : A -> M B) (st st' : state) (a : A) :
  c st = (Ok a, st') -> bind c k st = k a st'.
Proof. intros H. rewrite bind_run, H. reflexivity. Qed.

Lemma bind_raise {A B} (c : M A) (k : A -> M B) (st st' : state) (e : exn) :
  c st = (Raise e, st') -> bind c k st = (Raise e, st').
Proof. intros H. rewrite bind_run, H. reflexivity. Qed.

Lemma remote_run {A} (c : call) (f : World -> result A * World) (st : state) :
  remote c f st =
  ((f (world st)).1,
   {| self := self st; world := (f (world st)).2; calls := calls st ++ [c] |}).
Proof. unfold remote. destruct (f (world st)). reflexivity. Qed.

(** ** Truth values *)

Lemma truthy_gmap_empty {V} : truthy (∅ : gmap string V) = false.
Proof. unfold truthy, truthy_gmap. rewrite map_to_list_empty. reflexivity. Qed.

Lemma truthy_gmap_false {V} (m : gmap string V) : truthy m = false <-> m = ∅.
Proof.
  unfold truthy, truthy_gmap. split.
  - intros H. apply map_to_list_empty_iff.
    destruct (map_to_list m); [reflexivity | discriminate H].
  - intros ->. rewrite map_to_list_empty. reflexivity.
Qed.

Lemma truthy_string_true (s : string) : truthy s = true <-> s ≠ "".
Proof. destruct s; cbn; split; intros H; try congruence; try reflexivity. Qed.

(** ** The two memoised look-ups only describe

    [_get_endpoint_config_name] and [_get_model_names] dispatch describe
    calls at most, and leave the identity of the Predictor alone. *)

Lemma looked_up_refl st : looked_up st st.
Proof.
  split; try reflexivity. exists []. rewrite app_nil_r. split; reflexivity.
Qed.

Lemma looked_up_trans st1 st2 st3 :
  looked_up st1 st2 -> looked_up st2 st3 -> looked_up st1 st3.
Proof.
  intros [(l1 & E1 & F1) N1 C1] [(l2 & E2 & F2) N2 C2]. split.
  - exists (l1 ++ l2). rewrite E2, E1, app_assoc. split; [reflexivity |].
    rewrite forallb_app, F1, F2. reflexivity.
  - congruence.
  - congruence.
Qed.


Lemma _get_endpoint_config_name_looked_up st r st' :
  _get_endpoint_config_name st = (r, st') -> looked_up st st'.
Proof.
  unfold _get_endpoint_config_name. rewrite bind_run. simpl.
  destruct (_endpoint_config_name (self st)) as [name |].
  - intros [= <- <-]. apply looked_up_refl.
  - rewrite bind_run, remote_run.
    destruct (client_describe_endpoint (endpoint_name (self st)) (world st))
      as [[desc | e] w]; simpl; intros [= <- <-].
    + split; simpl; try reflexivity. eexists. split; reflexivity.
    + split; simpl; try reflexivity. eexists. split; reflexivity.
Qed.

Lemma _get_endpoint_config_name_cached st name st' :
  _get_endpoint_config_name st = (Ok name, st') ->
  _endpoint_config_name (self st') = Some name.
Proof.
  unfold _get_endpoint_config_name. rewrite bind_run. simpl.
  destruct (_endpoint_config_name (self st)) as [name' |] eqn:E.
  - intros [= <- <-]. exact E.
  - rewrite bind_run, remote_run.
    destruct (client_describe_endpoint (endpoint_name (self st)) (world st))
      as [[desc | e] w]; simpl; intros [= <- <-]. reflexivity.
Qed.

Lemma _get_model_names_looked_up st r st' :
  _get_model_names st = (r, st') -> looked_up st st'.
Proof.
  unfold _get_model_names. rewrite bind_run. simpl.
  destruct (_model_names (self st)) as [names |].
  { intros [= <- <-]. apply looked_up_refl. }
  rewrite bind_run. simpl.
  destruct (truthy (_get_component_name (self st))).
  - rewrite bind_run, remote_run.
    match goal with |- context [session_describe_inference_component ?n ?w0] =>
      destruct (session_describe_inference_component n w0) as [[desc | e] w]; simpl
    end.
    + destruct (Specification desc) as [[model |] |]; simpl; intros [= <- <-];
        (split; simpl; try reflexivity; eexists; split; reflexivity).
    + intros [= <- <-]. split; simpl; try reflexivity. eexists. split; reflexivity.
  - rewrite bind_run.
    match goal with |- context [_get_endpoint_config_name ?s] =>
      destruct (_get_endpoint_config_name s) as [[cur | e] st1] eqn:E1;
      apply _get_endpoint_config_name_looked_up in E1;
      assert (L0 : looked_up st s) by (split; simpl; try reflexivity;
        exists []; rewrite app_nil_r; split; reflexivity)
    end.
    + rewrite bind_run, remote_run.
      destruct (client_describe_endpoint_config cur (world st1)) as [[cfg | e] w]; simpl;
        intros [= <- <-];
        (eapply looked_up_trans; [exact L0 |]; eapply looked_up_trans; [exact E1 |]);
        (split; simpl; try reflexivity; eexists; split; reflexivity).
    + intros [= <- <-]. eapply looked_up_trans; eassumption.
Qed.

(** ** [update_predictor] *)

(** C7.  On a Predictor whose [component_name] is [None], [update_predictor]
    raises the unsupported-operation [ValueError] and leaves the state as it
    found it: nothing was dispatched, whatever the arguments. *)
Theorem update_predictor_requires_component
    (model_name image_uri : option string) (model_data : option field_value)
    (env_vars : option (gmap string string))
    (model_data_download_timeout container_startup_health_check_timeout : option Z)
    (resources : option ResourceRequirements) (st : state) :
  component_name (self st) = None ->
  update_predictor model_name image_uri model_data env_vars model_data_download_timeout
    container_startup_health_check_timeout resources st
  = (Raise (ValueError no_inference_component_message), st)
  /\ calls (update_predictor model_name image_uri model_data env_vars
              model_data_download_timeout container_startup_health_check_timeout
              resources st).2 = calls st.
Proof.
  intros H.
  assert (E : update_predictor model_name image_uri model_data env_vars
                model_data_download_timeout container_startup_health_check_timeout
                resources st
              = (Raise (ValueError no_inference_component_message), st)).
  { unfold update_predictor. rewrite bind_run. simpl. rewrite H. reflexivity. }
  rewrite E. split; reflexivity.
Qed.

(** C9.  On a component-scoped Predictor, [update_predictor] with
    [resources] left at [None] fails with the [AttributeError] of
    [resources.copy_count], and the inference-component update is not
    dispatched. *)
Theorem update_predictor_without_resources
    (model_name image_uri : option string) (model_data : option field_value)
    (env_vars : option (gmap string string))
    (model_data_download_timeout container_startup_health_check_timeout : option Z)
    (name : string) (st : state) :
  component_name (self st) = Some name ->
  update_predictor model_name image_uri model_data env_vars model_data_download_timeout
    container_startup_health_check_timeout None st
  = (Raise (AttributeError "'NoneType' object has no attribute 'copy_count'"), st)
  /\ calls (update_predictor model_name image_uri model_data env_vars
              model_data_download_timeout container_startup_health_check_timeout
              None st).2 = calls st.
Proof.
  intros H.
  assert (E : update_predictor model_name image_uri model_data env_vars
                model_data_download_timeout container_startup_health_check_timeout
                None st
              = (Raise (AttributeError "'NoneType' object has no attribute 'copy_count'"),
                 st)).
  { unfold update_predictor. rewrite bind_run. simpl. rewrite H.
    rewrite bind_run. reflexivity. }
  rewrite E. split; reflexivity.
Qed.

(** *** Pruning of the empty sub-structures *)

Lemma lookup_foldl_delete {V} (keys : list string) (d : gmap string V) (k : string) :
  foldl (fun d key => delete key d) d keys !! k
  = if decide (k ∈ keys) then None else d !! k.
Proof.
  revert d. induction keys as [| key keys IH]; intros d; simpl.
  - destruct (decide (k ∈ [])) as [H | H]; [inversion H | reflexivity].
  - rewrite IH. destruct (decide (k ∈ keys)) as [H | H].
    + rewrite decide_True by (right; exact H). reflexivity.
    + destruct (decide (k = key)) as [-> | Hne].
      * rewrite decide_True by left. apply lookup_delete_eq.
      * rewrite decide_False.
        -- apply lookup_delete_ne. congruence.
        -- intros Hin. apply elem_of_cons in Hin as [? | ?]; contradiction.
Qed.

Lemma elem_of_empty_keys (d : gmap string spec_value) (k : string) :
  k ∈ empty_keys d <-> exists v, d !! k = Some v /\ truthy v = false.
Proof.
  unfold empty_keys. rewrite list_elem_of_bind. split.
  - intros ([k' v] & Hk & Hin). simpl in Hk.
    destruct (truthy v) eqn:T; [inversion Hk |].
    apply list_elem_of_singleton in Hk as ->.
    apply elem_of_map_to_list in Hin. eauto.
  - intros (v & Hv & T). exists (k, v). simpl. rewrite T. split; [left |].
    apply elem_of_map_to_list. exact Hv.
Qed.

Lemma lookup_prune (d : gmap string spec_value) (k : string) :
  prune d !! k = match d !! k with
                 | Some v => if truthy v then Some v else None
                 | None => None
                 end.
Proof.
  unfold prune. rewrite lookup_foldl_delete.
  destruct (decide (k ∈ empty_keys d)) as [H | H].
  - apply elem_of_empty_keys in H as (v & -> & ->). reflexivity.
  - destruct (d !! k) as [v |] eqn:E; [| reflexivity].
    destruct (truthy v) eqn:T; [reflexivity |].
    exfalso. apply H, elem_of_empty_keys. eauto.
Qed.

Lemma lookup_setitem2_ne (k k' j : string) (v : field_value) (d : gmap string spec_value) :
  k ≠ j -> setitem2 k k' v d !! j = d !! j.
Proof. intros H. unfold setitem2. apply lookup_alter_ne. exact H. Qed.

(** C6.  When [model_name] is given (not [None], not empty), every
    inference-component update that [update_predictor] dispatches carries
    [ModelName] and has no [Container] entry at all, so none of [Image],
    [Environment], [ArtifactUrl], whatever [image_uri], [env] and
    [model_data] are: the empty [Container] was pruned.  On a
    component-scoped Predictor with [resources] given, exactly one such
    update is dispatched. *)
Theorem update_predictor_model_name_excludes_container
    (m : string) (image_uri : option string) (model_data : option field_value)
    (env_vars : option (gmap string string))
    (model_data_download_timeout container_startup_health_check_timeout : option Z)
    (resources : option ResourceRequirements) (st : state) :
  m ≠ "" ->
  exists l,
    calls (update_predictor (Some m) image_uri model_data env_vars
             model_data_download_timeout container_startup_health_check_timeout
             resources st).2 = calls st ++ l
    /\ (forall c, c ∈ l ->
          exists request, c = UpdateInferenceComponent request
            /\ specification request !! "ModelName" = Some (SVStr m)
            /\ specification request !! "Container" = None)
    /\ (forall name r, component_name (self st) = Some name -> resources = Some r ->
          exists request, l = [UpdateInferenceComponent request]
            /\ inference_component_name request = name).
Proof.
  intros Hm. apply truthy_string_true in Hm.
  unfold update_predictor. rewrite bind_run. simpl.
  destruct (component_name (self st)) as [name |]; simpl.
  2:{ exists (@nil call). rewrite app_nil_r. split; [reflexivity |]. split.
      - intros c Hc. inversion Hc.
      - intros ? ? [=]. }
  rewrite bind_run.
  destruct resources as [r |]; simpl.
  2:{ exists (@nil call). rewrite app_nil_r. split; [reflexivity |]. split.
      - intros c Hc. inversion Hc.
      - intros ? ? _ [=]. }
  change (truthy (Some m)) with (truthy m). rewrite Hm.
  rewrite remote_run. simpl.
  eexists. split; [reflexivity |]. split.
  - intros c Hc. apply list_elem_of_singleton in Hc as ->.
    eexists. split; [reflexivity |]. simpl.
    assert (HM : forall (b1 b2 : bool) (s : gmap string spec_value) f1 f2,
               s !! "ModelName" = Some (SVStr m) ->
               prune (if b2 then setitem2 "StartupParameters"
                                  "ContainerStartupHealthCheckTimeoutInSeconds" f2
                                  (if b1 then setitem2 "StartupParameters"
                                                "ModelDataDownloadTimeoutInSeconds" f1 s
                                   else s)
                      else (if b1 then setitem2 "StartupParameters"
                                         "ModelDataDownloadTimeoutInSeconds" f1 s
                            else s)) !! "ModelName" = Some (SVStr m)).
    { intros b1 b2 s f1 f2 Hs. rewrite lookup_prune.
      destruct b1, b2; rewrite ?lookup_setitem2_ne by discriminate;
        rewrite Hs; cbn; change (truthy m) with (truthy_string m);
        unfold truthy in Hm; rewrite Hm; reflexivity. }
    assert (HC : forall (b1 b2 : bool) (s : gmap string spec_value) f1 f2,
               s !! "Container" = Some (SVDict ∅) ->
               prune (if b2 then setitem2 "StartupParameters"
                                  "ContainerStartupHealthCheckTimeoutInSeconds" f2
                                  (if b1 then setitem2 "StartupParameters"
                                                "ModelDataDownloadTimeoutInSeconds" f1 s
                                   else s)
                      else (if b1 then setitem2 "StartupParameters"
                                         "ModelDataDownloadTimeoutInSeconds" f1 s
                            else s)) !! "Container" = None).
    { intros b1 b2 s f1 f2 Hs. rewrite lookup_prune.
      destruct b1, b2; rewrite ?lookup_setitem2_ne by discriminate;
        rewrite Hs; cbn; rewrite truthy_gmap_empty; reflexivity. }
    split.
    + apply HM. apply lookup_insert_eq.
    + apply HC. rewrite !lookup_insert_ne by discriminate. apply lookup_insert_eq.
  - intros name' r' [= <-] [= <-]. eexists. split; reflexivity.
Qed.

(** ** [update_endpoint] *)

Lemma describe_not_create l e n t k d pv ty :
  forallb describe_call l = true ->
  CreateEndpointConfigFromExisting e n t k d pv ty ∈ l -> False.
Proof.
  intros H Hin. rewrite forallb_forall in H.
  apply list_elem_of_In, H in Hin. discriminate Hin.
Qed.

(** The part of [update_endpoint] after [production_variants] is known. *)
Lemma update_endpoint_rotate
    (initial_instance_count : option Z)
    (instance_type accelerator_type model_name : option string)
    (tags : option (list (gmap string string))) (kms_key : option string)
    (data_capture_config_dict : option DataCaptureConfigDict)
    (max_instance_count min_instance_count : option Z) (wait : bool)
    (st st1 : state) (names : list string) :
  _get_model_names st = (Ok names, st1) ->
  truthy initial_instance_count || truthy instance_type
    || truthy accelerator_type || truthy model_name = false ->
  forall cur st2, _get_endpoint_config_name st1 = (Ok cur, st2) ->
  let new := name_from_base cur (world st2) in
  let ety := if truthy (component_name (self st2))
             then INFERENCE_COMPONENT_BASED else MODEL_BASED in
  let create := CreateEndpointConfigFromExisting cur new tags kms_key
                  data_capture_config_dict None (Some ety) in
  let created := session_create_endpoint_config_from_existing cur new tags kms_key
                   data_capture_config_dict None (Some ety) (world st2) in
  let update := UpdateEndpoint (endpoint_name (self st2)) new (Some wait) in
  let updated := session_update_endpoint (endpoint_name (self st2)) new (Some wait)
                   created.2 in
  update_endpoint initial_instance_count instance_type accelerator_type model_name tags
    kms_key data_capture_config_dict max_instance_count min_instance_count wait st
  = match created.1 with
    | Raise e =>
        (Raise e, {| self := self st2; world := created.2; calls := calls st2 ++ [create] |})
    | Ok _ =>
        match updated.1 with
        | Raise e =>
            (Raise e, {| self := self st2; world := updated.2;
                         calls := calls st2 ++ [create; update] |})
        | Ok _ =>
            (Ok tt, {| self := with_endpoint_config_name (Some new) (self st2);
                       world := updated.2;
                       calls := calls st2 ++ [create; update] |})
        end
    end.
Proof.
  intros Hn Hg cur st2 Hc. simpl.
  unfold update_endpoint. rewrite (bind_ok _ _ _ _ _ Hn).
  rewrite Hg. rewrite bind_run. unfold ret at 1.
  rewrite (bind_ok _ _ _ _ _ Hc).
  rewrite bind_run. unfold get_world at 1.
  rewrite bind_run. unfold get_self at 1.
  unfold _get_component_name.
  rewrite bind_run, remote_run.
  destruct (session_create_endpoint_config_from_existing _ _ _ _ _ _ _ (world st2))
    as [[[] | e] w3]; simpl; [| reflexivity].
  rewrite bind_run, remote_run. simpl.
  destruct (session_update_endpoint _ _ _ w3) as [[[] | e] w4]; simpl.
  - unfold modify_self. simpl. rewrite <- app_assoc. reflexivity.
  - rewrite <- app_assoc. reflexivity.
Qed.

(** C4.  [update_endpoint] with none of [initial_instance_count],
    [instance_type], [accelerator_type], [model_name]: whatever it
    dispatches, a create-config-from-existing call has
    [new_production_variants = None]; and when the look-ups and the two
    calls succeed, it dispatches the create call for the name derived from
    the current configuration name, then the endpoint update with that new
    name, and replaces the cached configuration name (which was the current
    one) with the new name. *)
Theorem update_endpoint_without_overrides
    (tags : option (list (gmap string string))) (kms_key : option string)
    (data_capture_config_dict : option DataCaptureConfigDict)
    (max_instance_count min_instance_count : option Z) (wait : bool) (st : state) :
  let run := update_endpoint None None None None tags kms_key data_capture_config_dict
               max_instance_count min_instance_count wait st in
  (exists l, calls run.2 = calls st ++ l
     /\ forall e n t k d pv ty,
          CreateEndpointConfigFromExisting e n t k d pv ty ∈ l -> pv = None)
  /\ (forall names st1 cur st2 w3 w4,
        _get_model_names st = (Ok names, st1) ->
        _get_endpoint_config_name st1 = (Ok cur, st2) ->
        let new := name_from_base cur (world st2) in
        let ety := if truthy (component_name (self st))
                   then INFERENCE_COMPONENT_BASED else MODEL_BASED in
        session_create_endpoint_config_from_existing cur new tags kms_key
          data_capture_config_dict None (Some ety) (world st2) = (Ok tt, w3) ->
        session_update_endpoint (endpoint_name (self st)) new (Some wait) w3
          = (Ok tt, w4) ->
        run.1 = Ok tt
        /\ calls run.2
           = calls st2 ++ [CreateEndpointConfigFromExisting cur new tags kms_key
                             data_capture_config_dict None (Some ety);
                           UpdateEndpoint (endpoint_name (self st)) new (Some wait)]
        /\ world run.2 = w4
        /\ _endpoint_config_name (self st2) = Some cur
        /\ _endpoint_config_name (self run.2) = Some new).
Proof.
  simpl. split.
  - destruct (_get_model_names st) as [[names | e] st1] eqn:Hn.
    2:{ unfold update_endpoint. rewrite (bind_raise _ _ _ _ _ Hn). simpl.
        apply _get_model_names_looked_up in Hn as [(l & -> & F) _ _].
        exists l. split; [reflexivity |]. intros; exfalso; eauto using describe_not_create. }
    destruct (_get_endpoint_config_name st1) as [[cur | e] st2] eqn:Hc.
    2:{ unfold update_endpoint. rewrite (bind_ok _ _ _ _ _ Hn). simpl.
        rewrite bind_run. unfold ret at 1. rewrite (bind_raise _ _ _ _ _ Hc). simpl.
        apply _get_model_names_looked_up in Hn as [(l & E & F) _ _].
        apply _get_endpoint_config_name_looked_up in Hc as [(l' & -> & F') _ _].
        rewrite E, <- app_assoc. eexists. split; [reflexivity |].
        intros * Hin. apply elem_of_app in Hin as [Hin | Hin];
          exfalso; eauto using describe_not_create. }
    rewrite (update_endpoint_rotate None None None None _ _ _ _ _ _ _ _ _ Hn eq_refl _ _ Hc).
    apply _get_model_names_looked_up in Hn as [(l & E & F) _ _].
    apply _get_endpoint_config_name_looked_up in Hc as [(l' & E' & F') _ _].
    assert (P : forall (tl : list call),
      (forall e n t k d pv ty,
         CreateEndpointConfigFromExisting e n t k d pv ty ∈ tl -> pv = None) ->
      exists l0, calls st2 ++ tl = calls st ++ l0 /\
        forall e n t k d pv ty,
          CreateEndpointConfigFromExisting e n t k d pv ty ∈ l0 -> pv = None).
    { intros tl Htl. exists (l ++ l' ++ tl). rewrite E', E, <- !app_assoc.
      split; [reflexivity |]. intros * Hin.
      apply elem_of_app in Hin as [Hin | Hin];
        [exfalso; eauto using describe_not_create |].
      apply elem_of_app in Hin as [Hin | Hin];
        [exfalso; eauto using describe_not_create | eauto]. }
    destruct (session_create_endpoint_config_from_existing _ _ _ _ _ _ _ (world st2))
      as [[[] | e] w3]; simpl.
    + destruct (session_update_endpoint _ _ _ w3) as [[[] | e] w4]; simpl; apply P;
        intros * Hin; apply elem_of_cons in Hin as [[=] | Hin]; subst; try reflexivity;
        apply list_elem_of_singleton in Hin; discriminate Hin.
    + apply P. intros * Hin. apply list_elem_of_singleton in Hin.
      inversion Hin. reflexivity.
  - intros names st1 cur st2 w3 w4 Hn Hc Hcreate Hupdate.
    rewrite (update_endpoint_rotate None None None None _ _ _ _ _ _ _ _ _ Hn eq_refl _ _ Hc).
    pose proof (_get_endpoint_config_name_cached _ _ _ Hc) as Hcached.
    pose proof (_get_model_names_looked_up _ _ _ Hn) as [_ N1 C1].
    pose proof (_get_endpoint_config_name_looked_up _ _ _ Hc) as [_ N2 C2].
    rewrite C2, C1, N2, N1. rewrite Hcreate. simpl. rewrite Hupdate. simpl.
    repeat split; try reflexivity. exact Hcached.
Qed.



(** ** [delete_model] *)

Lemma delete_model_loop_run (names : list string) :
  forall (request_failed : bool) (failed_models : list string) (st : state),
    delete_model_loop names request_failed failed_models st
    = (Ok (request_failed || truthy (failed_deletions names (world st)).1,
           failed_models ++ (failed_deletions names (world st)).1),
       {| self := self st;
          world := (failed_deletions names (world st)).2;
          calls := calls st ++ map DeleteModel names |}).
Proof.
  induction names as [| name rest IH]; intros request_failed failed_models st.
  - simpl. rewrite orb_false_r, !app_nil_r. destruct st; reflexivity.
  - cbn [delete_model_loop]. rewrite bind_run. unfold try_except.
    rewrite bind_run, remote_run. cbn [failed_deletions].
    destruct (session_delete_model name (world st)) as [[[] | e] w1]; cbn [fst snd].
    + unfold ret at 1. rewrite IH. cbn [self world calls fst snd].
      destruct (failed_deletions rest w1) as [failed w2]. cbn [fst snd raised].
      rewrite <- app_assoc. reflexivity.
    + unfold ret at 1. rewrite IH. cbn [self world calls fst snd].
      destruct (failed_deletions rest w1) as [failed w2]. cbn [fst snd raised].
      rewrite <- !app_assoc. rewrite orb_true_r. reflexivity.
Qed.

Lemma failed_deletions_sublist (names : list string) :
  forall w, sublist (failed_deletions names w).1 names.
Proof.
  induction names as [| name rest IH]; intros w; simpl.
  - constructor.
  - destruct (session_delete_model name w) as [r w1].
    specialize (IH w1). destruct (failed_deletions rest w1) as [failed w2].
    simpl in *. destruct (raised r); constructor; exact IH.
Qed.

(** C5 (as amended: the look-up of the names can raise first).
    [delete_model] first resolves the backing model names, outside the
    [try].  When that look-up raises, [delete_model] raises the same
    error in the state the look-up left, having dispatched describe calls
    only: no deletion is attempted.  When the look-up returns,
    [delete_model] dispatches one delete per name, in order and whatever the
    earlier ones answered, and nothing else (no deleted model is restored);
    it raises if and only if some deletion failed, and then raises one
    [Exception] whose message ends with the names whose deletion failed,
    joined by [", "]. *)
Theorem delete_model_reports_all_failures (st st1 : state) (r : result (list string)) :
  _get_model_names st = (r, st1) ->
  let run := delete_model st in
  (forall e, r = Raise e ->
     run = (Raise e, st1)
     /\ exists l, calls st1 = calls st ++ l /\ forallb describe_call l = true)
  /\ (forall names, r = Ok names ->
        let failed := (failed_deletions names (world st1)).1 in
        calls run.2 = calls st1 ++ map DeleteModel names
        /\ world run.2 = (failed_deletions names (world st1)).2
        /\ sublist failed names
        /\ (raised run.1 = true <-> failed ≠ [])
        /\ (failed ≠ [] ->
              run.1 = Raise (Exception
                               ("One or more models cannot be deleted, please retry. "
                                +:+ LF +:+ "Failed models: " +:+ join ", " failed)))).
Proof.
  intros Hn. simpl. split.
  - intros e ->. split.
    + unfold delete_model. apply bind_raise, Hn.
    + apply _get_model_names_looked_up in Hn as [Hl _ _]. exact Hl.
  - intros names ->.
    unfold delete_model. rewrite (bind_ok _ _ _ _ _ Hn).
    rewrite bind_run, delete_model_loop_run. cbn [fst snd orb app].
    pose proof (failed_deletions_sublist names (world st1)) as Hsub.
    destruct (failed_deletions names (world st1)) as [failed w2]. cbn [fst snd] in *.
    destruct failed as [| name failed]; cbn [truthy truthy_list]; simpl.
    + repeat split; try reflexivity; try exact Hsub; congruence.
    + repeat split; try reflexivity; try exact Hsub; congruence.
Qed.

(** ** Data capture *)

(** C10.  [update_data_capture_config], and likewise
    [enable_data_capture] and [disable_data_capture] (which pass a capture
    configuration with capture on, respectively off), never writes an
    attribute of the Predictor: the cached [_endpoint_config_name], in
    particular, is what it was.  Each of the three, when the describe and
    the create call succeed, has created a new configuration from the one
    the endpoint runs, carrying its capture configuration, and dispatched
    the endpoint update for it.  [update_endpoint], for comparison, ends
    with the new name in the cache. *)
Theorem update_data_capture_config_keeps_cache
    (data_capture_config : option DataCaptureConfig) (st : state) :
  let ep := endpoint_name (self st) in
  let repoints (run : result unit * state) (config : option DataCaptureConfig) :=
    self run.2 = self st
    /\ _endpoint_config_name (self run.2) = _endpoint_config_name (self st)
    /\ (forall desc w1 w2,
          client_describe_endpoint ep (world st) = (Ok desc, w1) ->
          let new := name_from_base ep w1 in
          session_create_endpoint_config_from_existing (EndpointConfigName desc) new
            None None (_to_request_dict <$> config) None None w1 = (Ok tt, w2) ->
          calls run.2
          = calls st ++
            [DescribeEndpoint ep;
             CreateEndpointConfigFromExisting (EndpointConfigName desc) new None None
               (_to_request_dict <$> config) None None;
             UpdateEndpoint ep new None]
          /\ run.1 = (session_update_endpoint ep new None w2).1) in
  repoints (update_data_capture_config data_capture_config st) data_capture_config
  /\ repoints (enable_data_capture st) (Some (new_DataCaptureConfig true))
  /\ repoints (disable_data_capture st) (Some (new_DataCaptureConfig false))
  /\ (forall tags kms_key data_capture_config_dict max_instance_count min_instance_count
             wait names st1 cur st2 w3 w4,
        _get_model_names st = (Ok names, st1) ->
        _get_endpoint_config_name st1 = (Ok cur, st2) ->
        let new := name_from_base cur (world st2) in
        let ety := if truthy (component_name (self st2))
                   then INFERENCE_COMPONENT_BASED else MODEL_BASED in
        session_create_endpoint_config_from_existing cur new tags kms_key
          data_capture_config_dict None (Some ety) (world st2) = (Ok tt, w3) ->
        session_update_endpoint (endpoint_name (self st2)) new (Some wait) w3
          = (Ok tt, w4) ->
        _endpoint_config_name
          (self (update_endpoint None None None None tags kms_key
                   data_capture_config_dict max_instance_count min_instance_count
                   wait st).2) = Some new).
Proof.
  assert (Hself : forall config, self (update_data_capture_config config st).2 = self st).
  { intros config. unfold update_data_capture_config.
    rewrite bind_run. unfold get_self at 1. rewrite bind_run, remote_run.
    destruct (client_describe_endpoint _ (world st)) as [[desc | e] w1]; cbn [fst snd];
      [| reflexivity].
    rewrite bind_run. unfold get_world at 1. rewrite bind_run, remote_run.
    cbn [self world calls].
    destruct (session_create_endpoint_config_from_existing _ _ _ _ _ _ _ w1)
      as [[[] | e] w2]; cbn [fst snd]; [| reflexivity].
    rewrite remote_run. reflexivity. }
  assert (Hrun : forall config desc w1 w2,
            client_describe_endpoint (endpoint_name (self st)) (world st) = (Ok desc, w1) ->
            session_create_endpoint_config_from_existing (EndpointConfigName desc)
              (name_from_base (endpoint_name (self st)) w1)
              None None (_to_request_dict <$> config) None None w1 = (Ok tt, w2) ->
            calls (update_data_capture_config config st).2
            = calls st ++
              [DescribeEndpoint (endpoint_name (self st));
               CreateEndpointConfigFromExisting (EndpointConfigName desc)
                 (name_from_base (endpoint_name (self st)) w1) None None
                 (_to_request_dict <$> config) None None;
               UpdateEndpoint (endpoint_name (self st))
                 (name_from_base (endpoint_name (self st)) w1) None]
            /\ (update_data_capture_config config st).1
               = (session_update_endpoint (endpoint_name (self st))
                    (name_from_base (endpoint_name (self st)) w1) None w2).1).
  { intros config desc w1 w2 Hd Hc.
    set (ep := endpoint_name (self st)) in *.
    set (new := name_from_base ep w1) in *.
    assert (E : update_data_capture_config config st
                = ((session_update_endpoint ep new None w2).1,
                   {| self := self st;
                      world := (session_update_endpoint ep new None w2).2;
                      calls := calls st ++
                        [DescribeEndpoint ep;
                         CreateEndpointConfigFromExisting (EndpointConfigName desc) new
                           None None (_to_request_dict <$> config) None None;
                         UpdateEndpoint ep new None] |})).
    { unfold update_data_capture_config.
      rewrite bind_run. unfold get_self at 1.
      rewrite bind_run, remote_run. fold ep. rewrite Hd. cbn [fst snd].
      rewrite bind_run. unfold get_world at 1. rewrite bind_run, remote_run.
      cbn [self world calls]. fold ep. fold new. rewrite Hc. cbn [fst snd].
      rewrite remote_run. cbn [self world calls]. rewrite <- !app_assoc. reflexivity. }
    rewrite E. split; reflexivity. }
  assert (Hall : forall config,
            self (update_data_capture_config config st).2 = self st
            /\ _endpoint_config_name (self (update_data_capture_config config st).2)
               = _endpoint_config_name (self st)
            /\ (forall desc w1 w2,
                  client_describe_endpoint (endpoint_name (self st)) (world st)
                    = (Ok desc, w1) ->
                  session_create_endpoint_config_from_existing (EndpointConfigName desc)
                    (name_from_base (endpoint_name (self st)) w1)
                    None None (_to_request_dict <$> config) None None w1 = (Ok tt, w2) ->
                  calls (update_data_capture_config config st).2
                  = calls st ++
                    [DescribeEndpoint (endpoint_name (self st));
                     CreateEndpointConfigFromExisting (EndpointConfigName desc)
                       (name_from_base (endpoint_name (self st)) w1) None None
                       (_to_request_dict <$> config) None None;
                     UpdateEndpoint (endpoint_name (self st))
                       (name_from_base (endpoint_name (self st)) w1) None]
                  /\ (update_data_capture_config config st).1
                     = (session_update_endpoint (endpoint_name (self st))
                          (name_from_base (endpoint_name (self st)) w1) None w2).1)).
  { intros config. split; [apply Hself |]. split; [rewrite Hself; reflexivity |].
    apply Hrun. }
  cbv zeta. split; [apply Hall |].
  split; [unfold enable_data_capture; apply Hall |].
  split; [unfold disable_data_capture; apply Hall |].
  intros tags kms_key dcd maxc minc wait names st1 cur st2 w3 w4 Hn Hc Hcreate Hupdate.
  rewrite (update_endpoint_rotate None None None None _ _ _ _ _ _ _ _ _ Hn eq_refl _ _ Hc).
  rewrite Hcreate. cbn [fst snd]. rewrite Hupdate. reflexivity.
Qed.

(** ** Monitors *)

Lemma _get_model_monitor_class_calls (schedule_name : string)
    (monitoring_type : option string) (st : state) :
  let run := _get_model_monitor_class schedule_name monitoring_type st in
  exists l, calls run.2 = calls st ++ l
    /\ forall c, c ∈ l -> c = DescribeMonitoringSchedule schedule_name.
Proof.
  simpl. unfold _get_model_monitor_class.
  assert (H0 : exists l : list call, calls st = calls st ++ l
                 /\ forall c, c ∈ l -> c = DescribeMonitoringSchedule schedule_name).
  { exists []. rewrite app_nil_r. split; [reflexivity |]. intros c H. inversion H. }
  destruct (decide (monitoring_type = Some "ModelBias")); [exact H0 |].
  destruct (decide (monitoring_type = Some "ModelExplainability")); [exact H0 |].
  exists [DescribeMonitoringSchedule schedule_name].
  split; [| intros c H; apply list_elem_of_singleton in H; exact H].
  rewrite bind_run, remote_run.
  destruct (session_describe_monitoring_schedule schedule_name (world st))
    as [[sched | e] w]; cbn [fst snd]; [| reflexivity].
  destruct (MonitoringJobDefinition sched) as [image_uri |].
  - destruct (endswith image_uri DEFAULT_REPOSITORY_NAME); reflexivity.
  - destruct (decide (monitoring_type = Some "DataQuality")); [reflexivity |].
    destruct (decide (monitoring_type = Some "ModelQuality")); reflexivity.
Qed.

Lemma list_monitors_loop_attaches (schedules : list MonitoringScheduleSummary) :
  forall (monitors : list Monitor) (st : state),
    let run := list_monitors_loop schedules monitors st in
    exists l, calls run.2 = calls st ++ l
      /\ (forall clazz name, Attach clazz name ∈ l ->
            exists sd st0, sd ∈ schedules /\ name = MonitoringScheduleName sd
              /\ (_get_model_monitor_class name (MonitoringType sd) st0).1 = Ok clazz)
      /\ (forall ms, run.1 = Ok ms ->
            length ms = (length monitors + length schedules)%nat).
Proof.
  induction schedules as [| sd rest IH]; intros monitors st; simpl.
  - exists []. rewrite app_nil_r. split; [reflexivity |]. split.
    + intros ? ? H. inversion H.
    + intros ms [= <-]. lia.
  - rewrite bind_run.
    destruct (_get_model_monitor_class_calls (MonitoringScheduleName sd)
                (MonitoringType sd) st) as (l1 & E1 & Hl1). simpl in E1.
    assert (Hno : forall clazz name, Attach clazz name ∈ l1 -> False).
    { intros clazz name H. apply Hl1 in H. discriminate H. }
    destruct (_get_model_monitor_class (MonitoringScheduleName sd) (MonitoringType sd) st)
      as [[clazz | e] st1] eqn:Hclass; cbn [fst snd] in *.
    2:{ exists l1. split; [exact E1 |]. split.
        - intros ? ? H. exfalso. eauto.
        - intros ms [=]. }
    rewrite bind_run, remote_run.
    destruct (monitor_attach clazz (MonitoringScheduleName sd) (world st1))
      as [[monitor | e] w]; cbn [fst snd].
    2:{ cbn [calls]. exists (l1 ++ [Attach clazz (MonitoringScheduleName sd)]).
        split; [rewrite E1, <- app_assoc; reflexivity |]. split.
        - intros clazz' name H. apply elem_of_app in H as [H | H]; [exfalso; eauto |].
          apply list_elem_of_singleton in H. injection H as -> ->.
          exists sd, st. rewrite Hclass. split; [left | split; reflexivity].
        - intros ms [=]. }
    match goal with |- context [list_monitors_loop rest ?m ?s] =>
      destruct (IH m s) as (l & El & Hl & Hlen) end.
    cbn [calls] in El.
    exists (l1 ++ [Attach clazz (MonitoringScheduleName sd)] ++ l).
    split; [rewrite El, E1, <- !app_assoc; reflexivity |].
    split.
    + intros clazz' name H. apply elem_of_app in H as [H | H]; [exfalso; eauto |].
      apply elem_of_cons in H as [H | H].
      * injection H as -> ->.
        exists sd, st. rewrite Hclass. split; [left | split; reflexivity].
      * destruct (Hl _ _ H) as (sd' & st0 & Hin & Hname & Hc).
        exists sd', st0. split; [right; exact Hin | split; assumption].
    + intros ms Hms. rewrite (Hlen ms Hms), length_app. simpl. lia.
Qed.

(** C8.  [list_monitors]: with no monitoring schedule it dispatches the
    listing and returns the empty list.  A schedule is classified by
    [_get_model_monitor_class] in this order: type ["ModelBias"], the bias
    monitor; ["ModelExplainability"], the explainability monitor (neither
    describes the schedule); otherwise the schedule is described, and with
    an embedded job definition the class is the default monitor when the
    image URI ends with [DEFAULT_REPOSITORY_NAME], else the generic monitor;
    without one, ["DataQuality"] gives the default monitor,
    ["ModelQuality"] the model-quality monitor, and any other type (also
    none) raises [TypeError].  Every class that [list_monitors] attaches is
    the class found this way for a listed schedule, and a call that returns
    gives one monitor per schedule. *)
Theorem list_monitors_classification :
  (forall st w,
     session_list_monitoring_schedules (endpoint_name (self st)) (world st) = (Ok [], w) ->
     list_monitors st
     = (Ok [], {| self := self st; world := w;
                  calls := calls st ++ [ListMonitoringSchedules (endpoint_name (self st))] |}))
  /\ (forall name monitoring_type st,
        let run := _get_model_monitor_class name monitoring_type st in
        (monitoring_type = Some "ModelBias" -> run = (Ok ModelBiasMonitor, st))
        /\ (monitoring_type = Some "ModelExplainability" ->
              run = (Ok ModelExplainabilityMonitor, st))
        /\ (monitoring_type ≠ Some "ModelBias" ->
            monitoring_type ≠ Some "ModelExplainability" ->
            forall schedule w,
              session_describe_monitoring_schedule name (world st) = (Ok schedule, w) ->
              let st' := {| self := self st; world := w;
                            calls := calls st ++ [DescribeMonitoringSchedule name] |} in
              (forall image_uri, MonitoringJobDefinition schedule = Some image_uri ->
                 run = (Ok (if endswith image_uri DEFAULT_REPOSITORY_NAME
                            then DefaultModelMonitor else ModelMonitor), st'))
              /\ (MonitoringJobDefinition schedule = None ->
                    (monitoring_type = Some "DataQuality" ->
                       run = (Ok DefaultModelMonitor, st'))
                    /\ (monitoring_type = Some "ModelQuality" ->
                          run = (Ok ModelQualityMonitor, st'))
                    /\ (monitoring_type ≠ Some "DataQuality" ->
                        monitoring_type ≠ Some "ModelQuality" ->
                          run = (Raise (TypeError ("Unknown monitoring type: "
                                                   +:+ py_str monitoring_type)), st')))))
  /\ (forall st summaries w,
        session_list_monitoring_schedules (endpoint_name (self st)) (world st)
          = (Ok summaries, w) ->
        exists l,
          calls (list_monitors st).2
          = calls st ++ ListMonitoringSchedules (endpoint_name (self st)) :: l
          /\ (forall clazz schedule_name, Attach clazz schedule_name ∈ l ->
                exists sd st0, sd ∈ summaries
                  /\ schedule_name = MonitoringScheduleName sd
                  /\ (_get_model_monitor_class schedule_name (MonitoringType sd) st0).1
                     = Ok clazz)
          /\ (forall monitors, (list_monitors st).1 = Ok monitors ->
                length monitors = length summaries)).
Proof.
  split; [| split].
  - intros st w H. unfold list_monitors.
    rewrite bind_run. unfold get_self at 1. rewrite bind_run, remote_run, H. reflexivity.
  - intros name monitoring_type st. simpl. unfold _get_model_monitor_class.
    split; [intros ->; reflexivity |]. split; [intros ->; reflexivity |].
    intros H1 H2 schedule w Hd.
    rewrite (decide_False _ _ H1), (decide_False _ _ H2).
    rewrite bind_run, remote_run, Hd. cbn [fst snd]. split.
    + intros image_uri ->.
      destruct (endswith image_uri DEFAULT_REPOSITORY_NAME); reflexivity.
    + intros ->. split; [intros ->; reflexivity |]. split; [intros ->; reflexivity |].
      intros H3 H4. rewrite (decide_False _ _ H3), (decide_False _ _ H4). reflexivity.
  - intros st summaries w H.
    assert (E : list_monitors st
                = (if (length summaries =? 0)%nat then ret []
                   else list_monitors_loop summaries [])
                    {| self := self st; world := w;
                       calls := calls st
                                ++ [ListMonitoringSchedules (endpoint_name (self st))] |}).
    { unfold list_monitors.
      rewrite bind_run. unfold get_self at 1. rewrite bind_run, remote_run, H.
      reflexivity. }
    rewrite E. clear E.
    destruct summaries as [| sd rest].
    + simpl. exists []. split; [reflexivity |]. split.
      * intros ? ? Hin. inversion Hin.
      * intros ms [= <-]. reflexivity.
    + change (length (sd :: rest) =? 0)%nat with false. cbv iota.
      match goal with |- context [list_monitors_loop ?ss ?m ?s] =>
        destruct (list_monitors_loop_attaches ss m s) as (l & El & Hl & Hlen) end.
      cbn [calls] in El. exists l. split; [rewrite El, <- app_assoc; reflexivity |].
      split; [exact Hl |]. intros ms Hms. apply Hlen in Hms. exact Hms.
Qed.

(** ** [predict] *)

Lemma lookup_set_if_ne {V} (b : bool) (k j : string) (v : V) (d : gmap string V) :
  k ≠ j -> set_if b k v d !! j = d !! j.
Proof. intros H. unfold set_if. destruct b; [apply lookup_insert_ne, H | reflexivity]. Qed.

Lemma lookup_set_if_absent_ne {V} (k j : string) (v : V) (d : gmap string V) :
  k ≠ j -> set_if_absent k v d !! j = d !! j.
Proof.
  intros H. unfold set_if_absent.
  destruct (d !! k); [reflexivity | apply lookup_insert_ne, H].
Qed.

Lemma lookup_set_if_absent_eq {V} (k : string) (v : V) (d : gmap string V) :
  set_if_absent k v d !! k = Some (default v (d !! k)).
Proof.
  unfold set_if_absent. destruct (d !! k) eqn:E; [exact E | apply lookup_insert_eq].
Qed.

Lemma lookup_initial_args (initial_args : option (gmap string string)) (key : string) :
  (if truthy initial_args then default ∅ initial_args else ∅) !! key
  = explicit initial_args key.
Proof.
  destruct initial_args as [d |]; simpl; [| apply lookup_empty].
  change (truthy (Some d)) with (truthy d).
  destruct (truthy d) eqn:T; [reflexivity |].
  apply truthy_gmap_false in T as ->. reflexivity.
Qed.

Lemma jumpstart_value (field : JumpStartSerializablePayload -> option string)
    (jp : JumpStartSerializablePayload) (property : mime) (explicit_value : option string) :
  default (if truthy (field jp) then default "" (field jp) else str_or_join property)
    explicit_value
  = resolve explicit_value (embedded field (JumpStart jp)) property.
Proof.
  unfold resolve, embedded. destruct explicit_value; [reflexivity |]. simpl.
  destruct (field jp) as [v |]; [| reflexivity].
  change (truthy (Some v)) with (truthy v). destruct (truthy v); reflexivity.
Qed.

Lemma _create_request_args_run (data : payload)
    (initial_args : option (gmap string string))
    (target_model target_variant inference_id custom_attributes : option string)
    (st : state) :
  let run := _create_request_args data initial_args target_model target_variant
               inference_id custom_attributes st in
  calls run.2 = calls st /\ self run.2 = self st
  /\ forall request_args, run.1 = Ok request_args ->
       request_args !! "ContentType"
       = Some (resolve (explicit initial_args "ContentType")
                 (embedded content_type_of data) (content_type (self st)))
       /\ request_args !! "Accept"
          = Some (resolve (explicit initial_args "Accept")
                    (embedded accept_of data) (accept (self st))).
Proof.
  simpl. destruct data as [d | jp];
    cbv beta iota zeta delta [_create_request_args bind get_self ret lift external].
  - change (truthy (None : option string)) with false. cbv iota beta.
    destruct (serialize (serializer (self st)) (Plain d)) as [body | e]; cbn [fst snd].
    2:{ split; [reflexivity |]. split; [reflexivity |]. intros ? [=]. }
    split; [reflexivity |]. split; [reflexivity |].
    intros request_args [= <-]. split.
    + rewrite lookup_insert_ne by discriminate.
      rewrite !lookup_set_if_ne by discriminate.
      rewrite lookup_set_if_absent_ne by discriminate.
      rewrite lookup_set_if_absent_eq.
      rewrite lookup_set_if_absent_ne by discriminate.
      rewrite lookup_initial_args.
      unfold resolve. destruct (explicit initial_args "ContentType"); reflexivity.
    + rewrite lookup_insert_ne by discriminate.
      rewrite !lookup_set_if_ne by discriminate.
      rewrite lookup_set_if_absent_eq.
      rewrite !lookup_set_if_absent_ne by discriminate.
      rewrite lookup_initial_args.
      unfold resolve. destruct (explicit initial_args "Accept"); reflexivity.
  - destruct (jumpstart_serialize jp (world st)) as [[serialized | e] w];
      cbv beta iota; cbn [fst snd].
    2:{ split; [reflexivity |]. split; [reflexivity |]. intros ? [=]. }
    assert (Hlookup : forall (body : string) (b : bool) (v : string),
      let request_args :=
        <["Body" := body]>
          (set_if b "InferenceComponentName" v
             (set_if (truthy custom_attributes) "CustomAttributes"
                (default "" custom_attributes)
                (set_if (truthy inference_id) "InferenceId" (default "" inference_id)
                   (set_if (truthy target_variant) "TargetVariant"
                      (default "" target_variant)
                      (set_if (truthy target_model) "TargetModel"
                         (default "" target_model)
                         (set_if_absent "Accept"
                            (if truthy (accept_of jp) then default "" (accept_of jp)
                             else str_or_join (accept (self st)))
                            (set_if_absent "ContentType"
                               (if truthy (content_type_of jp)
                                then default "" (content_type_of jp)
                                else str_or_join (content_type (self st)))
                               (set_if_absent "EndpointName" (endpoint_name (self st))
                                  (if truthy initial_args then default ∅ initial_args
                                   else ∅))))))))) in
      request_args !! "ContentType"
      = Some (resolve (explicit initial_args "ContentType")
                (embedded content_type_of (JumpStart jp)) (content_type (self st)))
      /\ request_args !! "Accept"
         = Some (resolve (explicit initial_args "Accept")
                   (embedded accept_of (JumpStart jp)) (accept (self st)))).
    { intros body b v. simpl. split.
      - rewrite lookup_insert_ne by discriminate.
        rewrite !lookup_set_if_ne by discriminate.
        rewrite lookup_set_if_absent_ne by discriminate.
        rewrite lookup_set_if_absent_eq.
        rewrite lookup_set_if_absent_ne by discriminate.
        rewrite lookup_initial_args. f_equal. apply jumpstart_value.
      - rewrite lookup_insert_ne by discriminate.
        rewrite !lookup_set_if_ne by discriminate.
        rewrite lookup_set_if_absent_eq.
        rewrite !lookup_set_if_absent_ne by discriminate.
        rewrite lookup_initial_args. f_equal. apply jumpstart_value. }
    destruct (truthy (Some serialized)); cbv beta iota.
    + split; [reflexivity |]. split; [reflexivity |].
      intros request_args [= <-]. apply Hlookup.
    + destruct (serialize (serializer (self st)) (JumpStart jp)) as [body | e];
        cbn [fst snd].
      * split; [reflexivity |]. split; [reflexivity |].
        intros request_args [= <-]. apply Hlookup.
      * split; [reflexivity |]. split; [reflexivity |]. intros ? [=].
Qed.

(** C1 (as amended: the last level is the Predictor's property).  [predict]
    either cannot build the request (serialization raised) and dispatches
    nothing, or dispatches exactly one invoke request, whose [ContentType]
    and [Accept] are: the value under that key in [initial_args] when there
    is one; otherwise the non-empty value embedded in a JumpStart payload;
    otherwise the Predictor's [content_type] / [accept] property, a tuple
    being joined with [", "].  The property is the value given to its
    setter when that is true, and the serializer's [CONTENT_TYPE] / the
    deserializer's [ACCEPT] otherwise, so in particular when none was
    set. *)
Theorem predict_content_negotiation
    (data : payload) (initial_args : option (gmap string string))
    (target_model target_variant inference_id custom_attributes : option string)
    (component_name_arg : option string) (st : state) :
  let run := predict data initial_args target_model target_variant inference_id
               custom_attributes component_name_arg st in
  let built := _create_request_args data initial_args target_model target_variant
                 inference_id custom_attributes st in
  (exists l, calls run.2 = calls st ++ l
     /\ ((l = [] /\ raised built.1 = true)
         \/ exists request_args,
              l = [InvokeEndpoint request_args]
              /\ request_args !! "ContentType"
                 = Some (match explicit initial_args "ContentType" with
                         | Some v => v
                         | None =>
                             match embedded content_type_of data with
                             | Some v => v
                             | None => str_or_join (content_type (self st))
                             end
                         end)
              /\ request_args !! "Accept"
                 = Some (match explicit initial_args "Accept" with
                         | Some v => v
                         | None =>
                             match embedded accept_of data with
                             | Some v => v
                             | None => str_or_join (accept (self st))
                             end
                         end)))
  /\ (forall val, _content_type (self st) = Some val -> truthy val = true ->
        content_type (self st) = val)
  /\ (forall val, _accept (self st) = Some val -> truthy val = true ->
        accept (self st) = val)
  /\ (_content_type (self st) = None ->
        content_type (self st) = CONTENT_TYPE (serializer (self st)))
  /\ (_accept (self st) = None -> accept (self st) = ACCEPT (deserializer (self st))).
Proof.
  simpl. split.
  - unfold predict. rewrite bind_run.
    pose proof (_create_request_args_run data initial_args target_model target_variant
                  inference_id custom_attributes st) as (Hcalls & Hself & Hargs).
    destruct (_create_request_args data initial_args target_model target_variant
                inference_id custom_attributes st) as [[request_args | e] st1];
      cbn [fst snd] in *.
    2:{ exists []. rewrite app_nil_r. split; [exact Hcalls |]. left. split; reflexivity. }
    destruct (Hargs _ eq_refl) as [HC HA]. clear Hargs.
    rewrite bind_run. unfold get_self at 1. cbv beta iota.
    rewrite bind_run, remote_run.
    eexists. split.
    + destruct (runtime_invoke_endpoint _ (world st1)) as [[response | e] w];
        cbn [fst snd]; [unfold _handle_response; rewrite bind_run; unfold get_self, lift |];
        cbn [fst snd calls]; rewrite Hcalls; reflexivity.
    + right. eexists. split; [reflexivity |]. split.
      * rewrite lookup_set_if_ne by discriminate. exact HC.
      * rewrite lookup_set_if_ne by discriminate. exact HA.
  - unfold content_type, accept. repeat split.
    + intros val -> ->. reflexivity.
    + intros val -> ->. reflexivity.
    + intros ->. reflexivity.
    + intros ->. reflexivity.
Qed.

End Properties.

(** * Further properties *)

Section MoreProperties.
Context `{env : Env}.
Local Open Scope method_scope.

(** ** The memoised look-ups *)

Lemma _get_endpoint_config_name_warm (st : state) (name : string) :
  _endpoint_config_name (self st) = Some name ->
  _get_endpoint_config_name st = (Ok name, st).
Proof.
  intros H. unfold _get_endpoint_config_name. rewrite bind_run. simpl. rewrite H.
  reflexivity.
Qed.

Lemma _get_model_names_warm (st : state) (names : list string) :
  _model_names (self st) = Some names ->
  _get_model_names st = (Ok names, st).
Proof.
  intros H. unfold _get_model_names. rewrite bind_run. simpl. rewrite H. reflexivity.
Qed.

(** X1.  [_get_endpoint_config_name] describes the endpoint at most once:
    after a call that returned a name, another call returns the same name
    and changes nothing (no call is dispatched).  A call that raised leaves
    the cache empty, so the next one describes the endpoint again. *)
Theorem _get_endpoint_config_name_memoised (st st1 : state) (r : result string) :
  _get_endpoint_config_name st = (r, st1) ->
  (forall name, r = Ok name -> _get_endpoint_config_name st1 = (Ok name, st1))
  /\ (forall e, r = Raise e ->
        _endpoint_config_name (self st1) = None
        /\ calls st1 = calls st ++ [DescribeEndpoint (endpoint_name (self st))]
        /\ calls (_get_endpoint_config_name st1).2
           = calls st1 ++ [DescribeEndpoint (endpoint_name (self st))]).
Proof.
  intros H. split.
  - intros name ->. apply _get_endpoint_config_name_warm.
    eapply _get_endpoint_config_name_cached, H.
  - intros e ->. revert H. unfold _get_endpoint_config_name at 1.
    rewrite bind_run. simpl.
    destruct (_endpoint_config_name (self st)) as [name |] eqn:E; [intros [=] |].
    rewrite bind_run, remote_run.
    destruct (client_describe_endpoint (endpoint_name (self st)) (world st))
      as [[desc | e'] w]; simpl; intros [= <- <-]; simpl.
    split; [exact E |]. split; [reflexivity |].
    unfold _get_endpoint_config_name. rewrite bind_run. simpl. rewrite E.
    rewrite bind_run, remote_run. simpl.
    destruct (client_describe_endpoint (endpoint_name (self st)) w) as [[desc | e''] w'];
      reflexivity.
Qed.

Lemma _get_endpoint_config_name_model_names (st st' : state) (r : result string) :
  _get_endpoint_config_name st = (r, st') ->
  _model_names (self st') = _model_names (self st).
Proof.
  unfold _get_endpoint_config_name. rewrite bind_run. simpl.
  destruct (_endpoint_config_name (self st)) as [name |].
  - intros [= <- <-]. reflexivity.
  - rewrite bind_run, remote_run.
    destruct (client_describe_endpoint (endpoint_name (self st)) (world st))
      as [[desc | e] w]; simpl; intros [= <- <-]; reflexivity.
Qed.

Lemma _get_model_names_cached (st st1 : state) (r : result (list string)) :
  _get_model_names st = (r, st1) ->
  _model_names (self st1) = Some (match r with Ok names => names | Raise _ => [] end).
Proof.
  unfold _get_model_names. rewrite bind_run. simpl.
  destruct (_model_names (self st)) as [names |] eqn:E.
  { intros [= <- <-]. exact E. }
  rewrite bind_run. simpl.
  destruct (truthy (_get_component_name (self st))).
  - rewrite bind_run, remote_run.
    match goal with |- context [session_describe_inference_component ?n ?w0] =>
      destruct (session_describe_inference_component n w0) as [[desc | e] w]; simpl
    end.
    + destruct (Specification desc) as [[model |] |]; simpl; intros [= <- <-]; reflexivity.
    + intros [= <- <-]. reflexivity.
  - rewrite bind_run.
    match goal with |- context [_get_endpoint_config_name ?s] =>
      destruct (_get_endpoint_config_name s) as [[cur | e] st2] eqn:E1;
      apply _get_endpoint_config_name_model_names in E1; simpl in E1
    end.
    + rewrite bind_run, remote_run.
      destruct (client_describe_endpoint_config cur (world st2)) as [[cfg | e] w]; simpl;
        intros [= <- <-]; [reflexivity | exact E1].
    + intros [= <- <-]. exact E1.
Qed.

(** X2.  [_get_model_names] resolves the names at most once: after a call
    that returned, another call returns the same list and changes nothing
    (no call is dispatched), whatever the service would answer now. *)
Theorem _get_model_names_memoised (st st1 : state) (names : list string) :
  _get_model_names st = (Ok names, st1) ->
  _get_model_names st1 = (Ok names, st1)
  /\ calls (_get_model_names st1).2 = calls st1.
Proof.
  intros H. apply _get_model_names_cached in H as Hc. simpl in Hc.
  rewrite (_get_model_names_warm _ _ Hc). split; reflexivity.
Qed.

(** X3.  A failed look-up is remembered as "no models": [_model_names] is
    set to the empty list before the first remote call, so when
    [_get_model_names] raises, the next call returns [[]] without
    describing anything. *)
Theorem _get_model_names_failure_is_cached (st st1 : state) (e : exn) :
  _get_model_names st = (Raise e, st1) ->
  _model_names (self st) = None
  /\ _model_names (self st1) = Some []
  /\ _get_model_names st1 = (Ok [], st1).
Proof.
  intros H. apply _get_model_names_cached in H as Hc. simpl in Hc.
  split; [| split; [exact Hc | apply _get_model_names_warm, Hc]].
  destruct (_model_names (self st)) as [names |] eqn:E; [| reflexivity].
  rewrite (_get_model_names_warm _ _ E) in H. discriminate H.
Qed.

(** X4.  [delete_model] after a failed look-up deletes nothing and reports
    success: when the model names cannot be resolved, [delete_model] raises
    the error of the look-up without attempting a deletion, and a second
    [delete_model] on the same Predictor returns normally without
    dispatching any call. *)
Theorem delete_model_after_failed_lookup (st st1 : state) (e : exn) :
  _get_model_names st = (Raise e, st1) ->
  delete_model st = (Raise e, st1)
  /\ (forall name, DeleteModel name ∉ calls st -> DeleteModel name ∉ calls st1)
  /\ delete_model st1 = (Ok tt, st1).
Proof.
  intros H. split; [| split].
  - unfold delete_model. apply bind_raise, H.
  - intros name Hnot Hin.
    apply _get_model_names_looked_up in H as [(l & E & F) _ _].
    rewrite E in Hin. apply elem_of_app in Hin as [Hin | Hin]; [contradiction |].
    rewrite forallb_forall in F. apply list_elem_of_In, F in Hin. discriminate Hin.
  - apply _get_model_names_cached in H. simpl in H.
    unfold delete_model. rewrite (bind_ok _ _ _ _ _ (_get_model_names_warm _ _ H)).
    rewrite bind_run. simpl. destruct st1; reflexivity.
Qed.

(** X5.  On a component-scoped Predictor with no cached names,
    [_get_model_names] describes the inference component and nothing
    else: it never describes the endpoint or its configuration, and leaves
    the cached configuration name alone.  The result is the component's
    model when its description has a [Specification] with a [ModelName],
    and the empty list otherwise. *)
Theorem _get_model_names_component_scoped (st : state) (component : string) :
  _model_names (self st) = None ->
  component_name (self st) = Some component ->
  component ≠ "" ->
  let run := _get_model_names st in
  calls run.2 = calls st ++ [DescribeInferenceComponent component]
  /\ _endpoint_config_name (self run.2) = _endpoint_config_name (self st)
  /\ forall desc w,
       session_describe_inference_component component (world st) = (Ok desc, w) ->
       run.1 = Ok (match Specification desc with
                   | Some (Some model) => [model]
                   | _ => []
                   end).
Proof.
  intros Hnone Hc Hne. simpl. apply truthy_string_true in Hne.
  unfold _get_model_names. rewrite bind_run. simpl. rewrite Hnone.
  rewrite bind_run. simpl. unfold _get_component_name. rewrite Hc.
  change (truthy (Some component)) with (truthy component). rewrite Hne.
  rewrite bind_run, remote_run. simpl.
  destruct (session_describe_inference_component component (world st))
    as [[desc | e] w]; simpl.
  - destruct (Specification desc) as [[model |] |] eqn:E; simpl;
      (split; [reflexivity |]; split; [reflexivity |]);
      intros desc' w' [= <- <-]; rewrite E; reflexivity.
  - split; [reflexivity |]. split; [reflexivity |]. intros desc' w' [=].
Qed.

(** X6.  On a Predictor that is not component-scoped and has nothing
    cached, when both describe calls succeed [_get_model_names] dispatches
    the endpoint description, then the description of the configuration it
    names; it returns the [ModelName]s of the production variants in their
    order, skipping the variants that have none, and leaves both the names
    and the configuration name cached. *)
Theorem _get_model_names_model_based (st : state) (desc : EndpointDescription)
    (config : EndpointConfigDescription) (w1 w2 : World) :
  _model_names (self st) = None ->
  _endpoint_config_name (self st) = None ->
  truthy (component_name (self st)) = false ->
  client_describe_endpoint (endpoint_name (self st)) (world st) = (Ok desc, w1) ->
  client_describe_endpoint_config (EndpointConfigName desc) w1 = (Ok config, w2) ->
  let run := _get_model_names st in
  run.1 = Ok (omap pv_ModelName (ProductionVariants config))
  /\ calls run.2 = calls st ++ [DescribeEndpoint (endpoint_name (self st));
                                 DescribeEndpointConfig (EndpointConfigName desc)]
  /\ world run.2 = w2
  /\ _model_names (self run.2) = Some (omap pv_ModelName (ProductionVariants config))
  /\ _endpoint_config_name (self run.2) = Some (EndpointConfigName desc).
Proof.
  intros Hnone Hcfg Hc Hd Hdc. simpl.
  unfold _get_model_names. rewrite bind_run. simpl. rewrite Hnone.
  rewrite bind_run. simpl. unfold _get_component_name. rewrite Hc.
  rewrite bind_run.
  unfold _get_endpoint_config_name. rewrite bind_run. simpl. rewrite Hcfg.
  rewrite bind_run, remote_run. simpl. rewrite Hd. simpl.
  rewrite bind_run, remote_run. simpl. rewrite Hdc. simpl.
  rewrite <- app_assoc. repeat split.
Qed.

(** ** [update_endpoint], step by step *)

Lemma update_endpoint_steps
    (initial_instance_count : option Z)
    (instance_type accelerator_type model_name : option string)
    (tags : option (list (gmap string string))) (kms_key : option string)
    (data_capture_config_dict : option DataCaptureConfigDict)
    (max_instance_count min_instance_count : option Z) (wait : bool) :
  update_endpoint initial_instance_count instance_type accelerator_type model_name tags
    kms_key data_capture_config_dict max_instance_count min_instance_count wait
  = (current_model_names <- _get_model_names ;;
     production_variants <-
       new_production_variants initial_instance_count instance_type accelerator_type
         model_name max_instance_count min_instance_count current_model_names ;;
     rotate_endpoint_config tags kms_key data_capture_config_dict wait production_variants).
Proof. reflexivity. Qed.

(** The validation block dispatches nothing; the only attribute it may
    write is [_model_names], with the name that was given. *)
Lemma new_production_variants_frame
    (initial_instance_count : option Z)
    (instance_type accelerator_type model_name : option string)
    (max_instance_count min_instance_count : option Z)
    (names : list string) (st st' : state) (r : result (option (list ProductionVariant))) :
  new_production_variants initial_instance_count instance_type accelerator_type model_name
    max_instance_count min_instance_count names st = (r, st') ->
  calls st' = calls st /\ world st' = world st
  /\ (self st' = self st
      \/ exists m, model_name = Some m /\ self st' = with_model_names (Some [m]) (self st)).
Proof.
  unfold new_production_variants.
  destruct (truthy initial_instance_count || truthy instance_type
            || truthy accelerator_type || truthy model_name).
  2:{ intros [= <- <-]. auto. }
  destruct instance_type as [it |], initial_instance_count as [iic |];
    try (intros [= <- <-]; auto; fail).
  rewrite bind_run.
  destruct model_name as [m |].
  - rewrite bind_run. simpl. intros [= <- <-]. simpl. eauto 6.
  - destruct (1 <? length names)%nat; [intros [= <- <-]; auto |].
    destruct names as [| m rest]; intros [= <- <-]; auto.
Qed.

Lemma rotate_endpoint_config_run
    (tags : option (list (gmap string string))) (kms_key : option string)
    (data_capture_config_dict : option DataCaptureConfigDict) (wait : bool)
    (production_variants : option (list ProductionVariant))
    (st st2 : state) (cur : string) :
  _get_endpoint_config_name st = (Ok cur, st2) ->
  let new := name_from_base cur (world st2) in
  let ety := if truthy (component_name (self st2))
             then INFERENCE_COMPONENT_BASED else MODEL_BASED in
  let create := CreateEndpointConfigFromExisting cur new tags kms_key
                  data_capture_config_dict production_variants (Some ety) in
  let created := session_create_endpoint_config_from_existing cur new tags kms_key
                   data_capture_config_dict production_variants (Some ety) (world st2) in
  let update := UpdateEndpoint (endpoint_name (self st2)) new (Some wait) in
  let updated := session_update_endpoint (endpoint_name (self st2)) new (Some wait)
                   created.2 in
  rotate_endpoint_config tags kms_key data_capture_config_dict wait production_variants st
  = match created.1 with
    | Raise e =>
        (Raise e, {| self := self st2; world := created.2; calls := calls st2 ++ [create] |})
    | Ok _ =>
        match updated.1 with
        | Raise e =>
            (Raise e, {| self := self st2; world := updated.2;
                         calls := calls st2 ++ [create; update] |})
        | Ok _ =>
            (Ok tt, {| self := with_endpoint_config_name (Some new) (self st2);
                       world := updated.2;
                       calls := calls st2 ++ [create; update] |})
        end
    end.
Proof.
  intros Hc. simpl. unfold rotate_endpoint_config.
  rewrite (bind_ok _ _ _ _ _ Hc).
  rewrite bind_run. unfold get_world at 1.
  rewrite bind_run. unfold get_self at 1.
  unfold _get_component_name.
  rewrite bind_run, remote_run.
  destruct (session_create_endpoint_config_from_existing _ _ _ _ _ _ _ (world st2))
    as [[[] | e] w3]; simpl; [| reflexivity].
  rewrite bind_run, remote_run. simpl.
  destruct (session_update_endpoint _ _ _ w3) as [[[] | e] w4]; simpl.
  - unfold modify_self. simpl. rewrite <- app_assoc. reflexivity.
  - rewrite <- app_assoc. reflexivity.
Qed.

Lemma _get_model_names_keeps_config_name (st st1 : state) (r : result (list string))
    (cur : string) :
  _endpoint_config_name (self st) = Some cur ->
  _get_model_names st = (r, st1) ->
  _endpoint_config_name (self st1) = Some cur.
Proof.
  intros Hcur. unfold _get_model_names. rewrite bind_run. simpl.
  destruct (_model_names (self st)) as [names |].
  { intros [= <- <-]. exact Hcur. }
  rewrite bind_run. simpl.
  destruct (truthy (_get_component_name (self st))).
  - rewrite bind_run, remote_run.
    match goal with |- context [session_describe_inference_component ?n ?w0] =>
      destruct (session_describe_inference_component n w0) as [[desc | e] w]; simpl
    end.
    + destruct (Specification desc) as [[model |] |]; simpl; intros [= <- <-]; exact Hcur.
    + intros [= <- <-]. exact Hcur.
  - rewrite bind_run.
    rewrite (_get_endpoint_config_name_warm _ cur) by exact Hcur.
    rewrite bind_run, remote_run.
    destruct (client_describe_endpoint_config cur _) as [[cfg | e] w]; simpl;
      intros [= <- <-]; exact Hcur.
Qed.

Lemma update_endpoint_with_model
    (initial_instance_count : Z) (instance_type : string)
    (accelerator_type : option string) (model : string)
    (tags : option (list (gmap string string))) (kms_key : option string)
    (data_capture_config_dict : option DataCaptureConfigDict)
    (max_instance_count min_instance_count : option Z) (wait : bool)
    (st st1 : state) (names : list string) :
  truthy initial_instance_count || truthy instance_type
    || truthy accelerator_type || truthy model = true ->
  _get_model_names st = (Ok names, st1) ->
  let run := update_endpoint (Some initial_instance_count) (Some instance_type)
               accelerator_type (Some model) tags kms_key data_capture_config_dict
               max_instance_count min_instance_count wait st in
  let scaling := managed_instance_scaling_of max_instance_count min_instance_count in
  _model_names (self run.2) = Some [model]
  /\ exists l, calls run.2 = calls st1 ++ l
       /\ forall e n t k d pv ty,
            CreateEndpointConfigFromExisting e n t k d pv ty ∈ l ->
            pv = Some [production_variant model instance_type initial_instance_count
                         accelerator_type (if truthy scaling then Some scaling else None)].
Proof.
  intros Hg Hn. simpl.
  rewrite update_endpoint_steps. rewrite (bind_ok _ _ _ _ _ Hn).
  set (pv := production_variant model instance_type initial_instance_count
               accelerator_type
               (if truthy (managed_instance_scaling_of max_instance_count
                             min_instance_count)
                then Some (managed_instance_scaling_of max_instance_count
                             min_instance_count) else None)).
  set (st1' := {| self := with_model_names (Some [model]) (self st1);
                  world := world st1; calls := calls st1 |}).
  assert (Hblock : new_production_variants (Some initial_instance_count)
                     (Some instance_type) accelerator_type (Some model)
                     max_instance_count min_instance_count names st1
                   = (Ok (Some [pv]), st1')).
  { unfold new_production_variants.
    change (truthy (Some initial_instance_count)) with (truthy initial_instance_count).
    change (truthy (Some instance_type)) with (truthy instance_type).
    change (truthy (Some model)) with (truthy model).
    rewrite Hg. rewrite bind_run, bind_run. simpl. subst pv.
    destruct (truthy (managed_instance_scaling_of max_instance_count
                        min_instance_count)); reflexivity. }
  rewrite (bind_ok _ _ _ _ _ Hblock).
  destruct (_get_endpoint_config_name st1') as [[cur | e] st2] eqn:Hc.
  - pose proof (_get_endpoint_config_name_model_names _ _ _ Hc) as Hm.
    pose proof (_get_endpoint_config_name_looked_up _ _ _ Hc) as [(l1 & E1 & F1) _ _].
    simpl in Hm, E1.
    rewrite (rotate_endpoint_config_run _ _ _ _ _ _ _ _ Hc).
    assert (P : forall (tl : list call),
      (forall e n t k d pv' ty,
         CreateEndpointConfigFromExisting e n t k d pv' ty ∈ tl -> pv' = Some [pv]) ->
      exists l, calls st2 ++ tl = calls st1 ++ l /\
        forall e n t k d pv' ty,
          CreateEndpointConfigFromExisting e n t k d pv' ty ∈ l -> pv' = Some [pv]).
    { intros tl Htl. exists (l1 ++ tl). rewrite E1, <- app_assoc.
      split; [reflexivity |]. intros * Hin.
      apply elem_of_app in Hin as [Hin | Hin];
        [exfalso; eauto using describe_not_create | eauto]. }
    destruct (session_create_endpoint_config_from_existing _ _ _ _ _ _ _ (world st2))
      as [[[] | e] w3]; simpl.
    + destruct (session_update_endpoint _ _ _ w3) as [[[] | e] w4]; simpl;
        (split; [exact Hm |]); apply P; intros * Hin;
        apply elem_of_cons in Hin as [Hin | Hin];
        try (inversion Hin; reflexivity);
        apply list_elem_of_singleton in Hin; discriminate Hin.
    + split; [exact Hm |]. apply P. intros * Hin.
      apply list_elem_of_singleton in Hin. inversion Hin. reflexivity.
  - pose proof (_get_endpoint_config_name_model_names _ _ _ Hc) as Hm.
    pose proof (_get_endpoint_config_name_looked_up _ _ _ Hc) as [(l1 & E1 & F1) _ _].
    simpl in Hm, E1.
    unfold rotate_endpoint_config. rewrite (bind_raise _ _ _ _ _ Hc). simpl.
    split; [exact Hm |]. exists l1. split; [exact E1 |].
    intros * Hin. exfalso. eauto using describe_not_create.
Qed.

(** X7.  [update_endpoint] with [instance_type], [initial_instance_count]
    and a [model_name] (one of the four being true): the cached model names
    become the one-element list of that name as soon as the arguments are
    validated, so they are that list when the call ends, whether it
    returned or a later remote call raised; and every configuration it
    creates carries one production variant, built for that model, whatever
    models the endpoint backed. *)
Theorem update_endpoint_explicit_model
    (initial_instance_count : Z) (instance_type : string)
    (accelerator_type : option string) (model : string)
    (tags : option (list (gmap string string))) (kms_key : option string)
    (data_capture_config_dict : option DataCaptureConfigDict)
    (max_instance_count min_instance_count : option Z) (wait : bool)
    (st st1 : state) (names : list string) :
  truthy initial_instance_count || truthy instance_type
    || truthy accelerator_type || truthy model = true ->
  _get_model_names st = (Ok names, st1) ->
  let run := update_endpoint (Some initial_instance_count) (Some instance_type)
               accelerator_type (Some model) tags kms_key data_capture_config_dict
               max_instance_count min_instance_count wait st in
  let scaling := managed_instance_scaling_of max_instance_count min_instance_count in
  _model_names (self run.2) = Some [model]
  /\ exists l, calls run.2 = calls st1 ++ l
       /\ forall e n t k d pv ty,
            CreateEndpointConfigFromExisting e n t k d pv ty ∈ l ->
            pv = Some [production_variant model instance_type initial_instance_count
                         accelerator_type (if truthy scaling then Some scaling else None)].
Proof. intros Hg Hn. apply (update_endpoint_with_model _ _ _ _ _ _ _ _ _ _ _ _ _ Hg Hn). Qed.

(** X25.  [delete_model] after [update_endpoint] with a model name.  When
    [update_endpoint] is given [instance_type], [initial_instance_count] and
    a [model_name], at least one of these or of [accelerator_type] is true
    (a non-zero count, a non-empty string), and its look-up of the backing
    model names returns, then after that call, whether it returned or a
    later remote call of it raised, [delete_model] dispatches exactly one
    call, the deletion of the model that was named, and that deletion alone
    decides its result: the models that backed the endpoint before are not
    deleted. *)
Theorem delete_model_after_update_endpoint
    (initial_instance_count : Z) (instance_type : string)
    (accelerator_type : option string) (model : string)
    (tags : option (list (gmap string string))) (kms_key : option string)
    (data_capture_config_dict : option DataCaptureConfigDict)
    (max_instance_count min_instance_count : option Z) (wait : bool)
    (st st1 : state) (names : list string) :
  truthy initial_instance_count || truthy instance_type
    || truthy accelerator_type || truthy model = true ->
  _get_model_names st = (Ok names, st1) ->
  let st' := (update_endpoint (Some initial_instance_count) (Some instance_type)
                accelerator_type (Some model) tags kms_key data_capture_config_dict
                max_instance_count min_instance_count wait st).2 in
  calls (delete_model st').2 = calls st' ++ [DeleteModel model]
  /\ (delete_model st').1
     = match (session_delete_model model (world st')).1 with
       | Ok _ => Ok tt
       | Raise _ => Raise (Exception (failed_models_message [model]))
       end.
Proof.
  intros Hg Hn. simpl.
  destruct (update_endpoint_with_model initial_instance_count instance_type
              accelerator_type model tags kms_key data_capture_config_dict
              max_instance_count min_instance_count wait st st1 names Hg Hn)
    as (Hm & _).
  simpl in Hm.
  set (st' := (update_endpoint (Some initial_instance_count) (Some instance_type)
                 accelerator_type (Some model) tags kms_key data_capture_config_dict
                 max_instance_count min_instance_count wait st).2) in *.
  assert (E : delete_model st'
              = (acc <- delete_model_loop [model] false [] ;;
                 if acc.1 then raise (Exception (failed_models_message acc.2))
                 else ret tt)%method st').
  { unfold delete_model. rewrite (bind_ok _ _ _ _ _ (_get_model_names_warm _ _ Hm)).
    reflexivity. }
  rewrite E, bind_run, delete_model_loop_run. simpl.
  destruct (session_delete_model model (world st')) as [[[] | e] w]; simpl;
    split; reflexivity.
Qed.

(** X8.  [update_endpoint] on an endpoint with no backing model.  When
    [instance_type] and [initial_instance_count] are given, at least one of
    them or of [accelerator_type] is true (a non-zero count, a non-empty
    string), [model_name] is omitted and the look-up of the backing model
    names returns the empty list, the default model is taken from an empty
    list: the call raises [IndexError] in the state the look-up left, so no
    configuration is created. *)
Theorem update_endpoint_no_backing_model
    (initial_instance_count : Z) (instance_type : string)
    (accelerator_type : option string)
    (tags : option (list (gmap string string))) (kms_key : option string)
    (data_capture_config_dict : option DataCaptureConfigDict)
    (max_instance_count min_instance_count : option Z) (wait : bool)
    (st st1 : state) :
  truthy initial_instance_count || truthy instance_type || truthy accelerator_type = true ->
  _get_model_names st = (Ok [], st1) ->
  update_endpoint (Some initial_instance_count) (Some instance_type) accelerator_type None
    tags kms_key data_capture_config_dict max_instance_count min_instance_count wait st
  = (Raise (IndexError "list index out of range"), st1).
Proof.
  intros Hg Hn. rewrite update_endpoint_steps. rewrite (bind_ok _ _ _ _ _ Hn).
  unfold new_production_variants.
  change (truthy (Some initial_instance_count)) with (truthy initial_instance_count).
  change (truthy (Some instance_type)) with (truthy instance_type).
  change (truthy (None : option string)) with false.
  rewrite orb_false_r, Hg. rewrite bind_run, bind_run. reflexivity.
Qed.

Lemma created_from_describes (l : list call) :
  forallb describe_call l = true -> created_from l = [].
Proof.
  induction l as [| c l IH]; [reflexivity |]. simpl.
  intros H. apply andb_true_iff in H as [Hc Hl]. unfold created_from in *. simpl.
  rewrite (IH Hl). destruct c; simpl in *; congruence.
Qed.

Lemma created_from_app (l1 l2 : list call) :
  created_from (l1 ++ l2) = created_from l1 ++ created_from l2.
Proof. unfold created_from. apply omap_app. Qed.

Lemma update_endpoint_warm
    (initial_instance_count : option Z)
    (instance_type accelerator_type model_name : option string)
    (tags : option (list (gmap string string))) (kms_key : option string)
    (data_capture_config_dict : option DataCaptureConfigDict)
    (max_instance_count min_instance_count : option Z) (wait : bool)
    (st : state) (cur : string) :
  _endpoint_config_name (self st) = Some cur ->
  let run := update_endpoint initial_instance_count instance_type accelerator_type
               model_name tags kms_key data_capture_config_dict max_instance_count
               min_instance_count wait st in
  (raised run.1 = true -> _endpoint_config_name (self run.2) = Some cur)
  /\ (run.1 = Ok tt ->
        exists st2 production_variants endpoint_type,
          calls run.2
          = calls st2 ++ [CreateEndpointConfigFromExisting cur
                            (name_from_base cur (world st2)) tags kms_key
                            data_capture_config_dict production_variants endpoint_type;
                          UpdateEndpoint (endpoint_name (self st))
                            (name_from_base cur (world st2)) (Some wait)]
          /\ _endpoint_config_name (self run.2) = Some (name_from_base cur (world st2)))
  /\ exists l, calls run.2 = calls st ++ l /\ Forall (fun name => name = cur) (created_from l).
Proof.
  intros Hcur. simpl. rewrite update_endpoint_steps. rewrite bind_run.
  destruct (_get_model_names st) as [[names | e] st1] eqn:Hn.
  2:{ simpl. pose proof (_get_model_names_keeps_config_name _ _ _ _ Hcur Hn) as H1.
      apply _get_model_names_looked_up in Hn as [(l & E & F) _ _].
      split; [intros _; exact H1 |]. split; [intros [=] |].
      exists l. split; [exact E |]. rewrite (created_from_describes _ F). constructor. }
  pose proof (_get_model_names_keeps_config_name _ _ _ _ Hcur Hn) as H1.
  apply _get_model_names_looked_up in Hn as [(l & E & F) N1 _].
  rewrite bind_run.
  destruct (new_production_variants initial_instance_count instance_type accelerator_type
              model_name max_instance_count min_instance_count names st1)
    as [[pvs | e] st1'] eqn:Hb;
    apply new_production_variants_frame in Hb as (Ecalls & Eworld & Eself).
  2:{ simpl. split; [| split; [intros [=] |]].
      - intros _. destruct Eself as [-> | (m & _ & ->)]; exact H1.
      - exists l. rewrite Ecalls. split; [exact E |].
        rewrite (created_from_describes _ F). constructor. }
  assert (H1' : _endpoint_config_name (self st1') = Some cur).
  { destruct Eself as [-> | (m & _ & ->)]; exact H1. }
  assert (N1' : endpoint_name (self st1') = endpoint_name (self st)).
  { destruct Eself as [-> | (m & _ & ->)]; exact N1. }
  rewrite (rotate_endpoint_config_run _ _ _ _ _ _ _ _
             (_get_endpoint_config_name_warm _ _ H1')).
  rewrite N1', Ecalls, E.
  assert (HF : forall tl, Forall (fun name => name = cur) (created_from tl) ->
                 Forall (fun name => name = cur) (created_from (l ++ tl))).
  { intros tl Htl. rewrite created_from_app, (created_from_describes _ F). exact Htl. }
  destruct (session_create_endpoint_config_from_existing _ _ _ _ _ _ _ (world st1'))
    as [[[] | e] w3]; simpl.
  - destruct (session_update_endpoint _ _ _ w3) as [[[] | e] w4]; simpl.
    + split; [intros [=] |]. split.
      * intros _. eexists st1', _, _. rewrite Ecalls, E. split; reflexivity.
      * eexists. rewrite <- app_assoc. split; [reflexivity |].
        apply HF. repeat constructor.
    + split; [intros _; exact H1' |]. split; [intros [=] |].
      eexists. rewrite <- app_assoc. split; [reflexivity |].
      apply HF. repeat constructor.
  - split; [intros _; exact H1' |]. split; [intros [=] |].
    eexists. rewrite <- app_assoc. split; [reflexivity |].
    apply HF. repeat constructor.
Qed.

(** X9.  [update_endpoint] on a Predictor whose configuration name is
    cached, for all arguments: if the call raises, the cached name is what
    it was; if it returns, the last two calls dispatched are the creation of
    the configuration named after the cached one and the endpoint update
    with that new name, and the cache holds the new name.  In both cases
    every configuration it creates derives from the cached name. *)
Theorem update_endpoint_cache
    (initial_instance_count : option Z)
    (instance_type accelerator_type model_name : option string)
    (tags : option (list (gmap string string))) (kms_key : option string)
    (data_capture_config_dict : option DataCaptureConfigDict)
    (max_instance_count min_instance_count : option Z) (wait : bool)
    (st : state) (cur : string) :
  _endpoint_config_name (self st) = Some cur ->
  let run := update_endpoint initial_instance_count instance_type accelerator_type
               model_name tags kms_key data_capture_config_dict max_instance_count
               min_instance_count wait st in
  (raised run.1 = true -> _endpoint_config_name (self run.2) = Some cur)
  /\ (run.1 = Ok tt ->
        exists st2 production_variants endpoint_type,
          calls run.2
          = calls st2 ++ [CreateEndpointConfigFromExisting cur
                            (name_from_base cur (world st2)) tags kms_key
                            data_capture_config_dict production_variants endpoint_type;
                          UpdateEndpoint (endpoint_name (self st))
                            (name_from_base cur (world st2)) (Some wait)]
          /\ _endpoint_config_name (self run.2) = Some (name_from_base cur (world st2)))
  /\ exists l, calls run.2 = calls st ++ l /\ Forall (fun name => name = cur) (created_from l).
Proof. intros Hcur. apply update_endpoint_warm, Hcur. Qed.

(** ** [update_data_capture_config], case by case *)

Lemma update_data_capture_config_run
    (data_capture_config : option DataCaptureConfig) (st : state) :
  let ep := endpoint_name (self st) in
  let described := client_describe_endpoint ep (world st) in
  let new := name_from_base ep described.2 in
  update_data_capture_config data_capture_config st
  = match described.1 with
    | Raise e =>
        (Raise e, {| self := self st; world := described.2;
                     calls := calls st ++ [DescribeEndpoint ep] |})
    | Ok desc =>
        let create := CreateEndpointConfigFromExisting (EndpointConfigName desc) new
                        None None (_to_request_dict <$> data_capture_config) None None in
        let created := session_create_endpoint_config_from_existing
                         (EndpointConfigName desc) new None None
                         (_to_request_dict <$> data_capture_config) None None
                         described.2 in
        match created.1 with
        | Raise e =>
            (Raise e, {| self := self st; world := created.2;
                         calls := calls st ++ [DescribeEndpoint ep; create] |})
        | Ok _ =>
            ((session_update_endpoint ep new None created.2).1,
             {| self := self st;
                world := (session_update_endpoint ep new None created.2).2;
                calls := calls st ++ [DescribeEndpoint ep; create;
                                      UpdateEndpoint ep new None] |})
        end
    end.
Proof.
  simpl. unfold update_data_capture_config.
  rewrite bind_run. unfold get_self at 1. rewrite bind_run, remote_run.
  destruct (client_describe_endpoint _ (world st)) as [[desc | e] w1]; cbn [fst snd];
    [| reflexivity].
  rewrite bind_run. unfold get_world at 1. rewrite bind_run, remote_run.
  cbn [self world calls].
  destruct (session_create_endpoint_config_from_existing _ _ _ _ _ _ _ w1)
    as [[[] | e] w2]; cbn [fst snd].
  - rewrite remote_run. cbn [self world calls]. rewrite <- !app_assoc. reflexivity.
  - rewrite <- !app_assoc. reflexivity.
Qed.

(** X10.  [update_data_capture_config] reads none of the Predictor's
    caches: run on two Predictors for the same endpoint in the same world,
    whatever their cached configuration name and model names, it returns
    the same result, leaves the same world and dispatches the same calls,
    the first of which is always the description of the endpoint. *)
Theorem update_data_capture_config_ignores_caches
    (data_capture_config : option DataCaptureConfig) (st st' : state) :
  endpoint_name (self st) = endpoint_name (self st') ->
  world st = world st' ->
  let run := update_data_capture_config data_capture_config st in
  let run' := update_data_capture_config data_capture_config st' in
  run.1 = run'.1 /\ world run.2 = world run'.2
  /\ exists l, calls run.2 = calls st ++ DescribeEndpoint (endpoint_name (self st)) :: l
               /\ calls run'.2 = calls st' ++ DescribeEndpoint (endpoint_name (self st)) :: l.
Proof.
  intros Hep Hw. simpl. rewrite !update_data_capture_config_run.
  rewrite <- Hep, <- Hw.
  destruct (client_describe_endpoint _ (world st)) as [[desc | e] w1]; cbn [fst snd].
  - destruct (session_create_endpoint_config_from_existing _ _ _ _ _ _ _ w1)
      as [[[] | e] w2]; cbn [fst snd].
    + split; [reflexivity |]. split; [reflexivity |]. eexists. split; reflexivity.
    + split; [reflexivity |]. split; [reflexivity |]. eexists. split; reflexivity.
  - split; [reflexivity |]. split; [reflexivity |]. exists []. split; reflexivity.
Qed.

(** X11.  [update_data_capture_config] stops at the first failure and
    derives from what it described: a configuration is created only from
    the configuration name that the endpoint description returned, under
    the name derived from the endpoint name (not from a configuration
    name); the endpoint update is dispatched only after that creation
    succeeded, with the same new name; and a call that raises has not
    dispatched the endpoint update unless the update itself raised. *)
Theorem update_data_capture_config_stops_at_failure
    (data_capture_config : option DataCaptureConfig) (st : state) :
  let ep := endpoint_name (self st) in
  let run := update_data_capture_config data_capture_config st in
  exists l, calls run.2 = calls st ++ DescribeEndpoint ep :: l
    /\ (forall e n t k d pv ty,
          CreateEndpointConfigFromExisting e n t k d pv ty ∈ l ->
          exists desc w1,
            client_describe_endpoint ep (world st) = (Ok desc, w1)
            /\ e = EndpointConfigName desc /\ n = name_from_base ep w1
            /\ t = None /\ k = None /\ pv = None /\ ty = None
            /\ d = (_to_request_dict <$> data_capture_config))
    /\ (forall name new w,
          UpdateEndpoint name new w ∈ l ->
          exists desc w1 w2,
            client_describe_endpoint ep (world st) = (Ok desc, w1)
            /\ session_create_endpoint_config_from_existing (EndpointConfigName desc)
                 (name_from_base ep w1) None None
                 (_to_request_dict <$> data_capture_config) None None w1 = (Ok tt, w2)
            /\ name = ep /\ new = name_from_base ep w1 /\ w = None
            /\ run.1 = (session_update_endpoint ep new None w2).1).
Proof.
  simpl. rewrite update_data_capture_config_run.
  destruct (client_describe_endpoint _ (world st)) as [[desc | e] w1] eqn:Hd;
    cbn [fst snd].
  2:{ exists []. split; [reflexivity |]. split; intros * Hin; inversion Hin. }
  destruct (session_create_endpoint_config_from_existing _ _ _ _ _ _ _ w1)
    as [[[] | e] w2] eqn:Hc; cbn [fst snd].
  - eexists. split; [reflexivity |]. split.
    + intros * Hin. apply elem_of_cons in Hin as [Hin | Hin].
      * inversion Hin; subst. exists desc, w1. repeat split.
      * apply list_elem_of_singleton in Hin. discriminate Hin.
    + intros * Hin. apply elem_of_cons in Hin as [Hin | Hin]; [discriminate Hin |].
      apply list_elem_of_singleton in Hin. inversion Hin; subst.
      exists desc, w1, w2. repeat split. exact Hc.
  - eexists. split; [reflexivity |]. split.
    + intros * Hin. apply list_elem_of_singleton in Hin. inversion Hin; subst.
      exists desc, w1. repeat split.
    + intros * Hin. apply list_elem_of_singleton in Hin. discriminate Hin.
Qed.

(** X12.  [update_endpoint] after [update_data_capture_config] starts from
    the superseded configuration: on a Predictor whose configuration name is
    cached, once [update_data_capture_config] has succeeded the endpoint
    has been updated to the configuration it created, but every
    configuration that a following [update_endpoint] creates, for any
    arguments, derives from the cached name. *)
Theorem update_endpoint_after_data_capture
    (data_capture_config : option DataCaptureConfig) (st : state) (cur : string)
    (desc : EndpointDescription) (w1 w2 w3 : World)
    (initial_instance_count : option Z)
    (instance_type accelerator_type model_name : option string)
    (tags : option (list (gmap string string))) (kms_key : option string)
    (data_capture_config_dict : option DataCaptureConfigDict)
    (max_instance_count min_instance_count : option Z) (wait : bool) :
  let ep := endpoint_name (self st) in
  let new := name_from_base ep w1 in
  _endpoint_config_name (self st) = Some cur ->
  client_describe_endpoint ep (world st) = (Ok desc, w1) ->
  session_create_endpoint_config_from_existing (EndpointConfigName desc) new None None
    (_to_request_dict <$> data_capture_config) None None w1 = (Ok tt, w2) ->
  session_update_endpoint ep new None w2 = (Ok tt, w3) ->
  let st1 := (update_data_capture_config data_capture_config st).2 in
  let run := update_endpoint initial_instance_count instance_type accelerator_type
               model_name tags kms_key data_capture_config_dict max_instance_count
               min_instance_count wait st1 in
  (update_data_capture_config data_capture_config st).1 = Ok tt
  /\ (exists before, calls st1 = before ++ [UpdateEndpoint ep new None])
  /\ exists l, calls run.2 = calls st1 ++ l
               /\ Forall (fun name => name = cur) (created_from l).
Proof.
  simpl. intros Hcur Hd Hc Hu.
  rewrite update_data_capture_config_run. rewrite Hd. cbn [fst snd].
  rewrite Hc. cbn [fst snd]. rewrite Hu. cbn [fst snd].
  split; [reflexivity |]. split.
  - exists (calls st ++ [DescribeEndpoint (endpoint_name (self st));
                         CreateEndpointConfigFromExisting (EndpointConfigName desc)
                           (name_from_base (endpoint_name (self st)) w1) None None
                           (_to_request_dict <$> data_capture_config) None None]).
    rewrite <- app_assoc. reflexivity.
  - match goal with |- context [update_endpoint _ _ _ _ _ _ _ _ _ _ ?s] =>
      destruct (update_endpoint_warm initial_instance_count instance_type
                  accelerator_type model_name tags kms_key data_capture_config_dict
                  max_instance_count min_instance_count wait s cur Hcur)
        as (_ & _ & Hl)
    end.
    exact Hl.
Qed.

(** ** [predict], field by field *)

(** The request that [_create_request_args] returns, spelled out. *)
Lemma _create_request_args_built (data : payload)
    (initial_args : option (gmap string string))
    (target_model target_variant inference_id custom_attributes : option string)
    (st st1 : state) (request_args : gmap string string) :
  _create_request_args data initial_args target_model target_variant inference_id
    custom_attributes st = (Ok request_args, st1) ->
  self st1 = self st /\ calls st1 = calls st
  /\ exists body content_type_value accept_value,
       request_args
       = <["Body" := body]>
           (set_if (truthy (component_name (self st))) "InferenceComponentName"
              (default "" (component_name (self st)))
              (set_if (truthy custom_attributes) "CustomAttributes"
                 (default "" custom_attributes)
                 (set_if (truthy inference_id) "InferenceId" (default "" inference_id)
                    (set_if (truthy target_variant) "TargetVariant"
                       (default "" target_variant)
                       (set_if (truthy target_model) "TargetModel"
                          (default "" target_model)
                          (set_if_absent "Accept" accept_value
                             (set_if_absent "ContentType" content_type_value
                                (set_if_absent "EndpointName" (endpoint_name (self st))
                                   (if truthy initial_args then default ∅ initial_args
                                    else ∅)))))))))
       /\ match data with
          | Plain _ =>
              serialize (serializer (self st)) data = Ok body /\ world st1 = world st
          | JumpStart jp =>
              exists serialized,
                jumpstart_serialize jp (world st) = (Ok serialized, world st1)
                /\ (if truthy serialized then body = serialized
                    else serialize (serializer (self st)) data = Ok body)
          end.
Proof.
  destruct data as [d | jp];
    cbv beta iota zeta delta [_create_request_args bind get_self ret lift external].
  - change (truthy (None : option string)) with false. cbv iota beta.
    destruct (serialize (serializer (self st)) (Plain d)) as [body | e]; cbn [fst snd];
      intros [= <- <-].
    split; [reflexivity |]. split; [reflexivity |].
    eexists body, _, _. split; [reflexivity |]. split; reflexivity.
  - destruct (jumpstart_serialize jp (world st)) as [[serialized | e] w];
      cbv beta iota; cbn [fst snd]; [| intros [=]].
    change (truthy (Some serialized)) with (truthy serialized).
    destruct (truthy serialized) eqn:T; cbv beta iota.
    + intros [= <- <-]. split; [reflexivity |]. split; [reflexivity |].
      eexists serialized, _, _. split; [reflexivity |].
      exists serialized. rewrite T. split; reflexivity.
    + destruct (serialize (serializer (self st)) (JumpStart jp)) as [body | e];
        cbn [fst snd]; intros [= <- <-].
      split; [reflexivity |]. split; [reflexivity |].
      eexists body, _, _. split; [reflexivity |].
      exists serialized. rewrite T. split; reflexivity.
Qed.

(** [predict] from the request on. *)
Lemma predict_run (data : payload) (initial_args : option (gmap string string))
    (target_model target_variant inference_id custom_attributes : option string)
    (component_name_arg : option string) (st : state) :
  let built := _create_request_args data initial_args target_model target_variant
                 inference_id custom_attributes st in
  let inference_component_name := py_or component_name_arg (component_name (self st)) in
  predict data initial_args target_model target_variant inference_id custom_attributes
    component_name_arg st
  = match built.1 with
    | Raise e => (Raise e, built.2)
    | Ok request_args =>
        let sent := set_if (truthy inference_component_name) "InferenceComponentName"
                      (default "" inference_component_name) request_args in
        let invoked := runtime_invoke_endpoint sent (world built.2) in
        (match invoked.1 with
         | Raise e => Raise e
         | Ok response =>
             deserialize (deserializer (self st)) (resp_Body response)
               (default "application/octet-stream" (resp_ContentType response))
         end,
         {| self := self st; world := invoked.2;
            calls := calls st ++ [InvokeEndpoint sent] |})
    end.
Proof.
  simpl. unfold predict. rewrite bind_run.
  destruct (_create_request_args data initial_args target_model target_variant
              inference_id custom_attributes st) as [[request_args | e] st1] eqn:Hb;
    cbn [fst snd]; [| reflexivity].
  apply _create_request_args_built in Hb as (Hself & Hcalls & _).
  rewrite bind_run. unfold get_self at 1. cbv beta iota.
  unfold _get_component_name. rewrite Hself.
  rewrite bind_run, remote_run. rewrite Hself, Hcalls.
  destruct (runtime_invoke_endpoint _ (world st1)) as [[response | e] w];
    cbn [fst snd]; [| reflexivity].
  unfold _handle_response. rewrite bind_run. unfold get_self, lift. cbn [self].
  reflexivity.
Qed.

Lemma _create_request_args_run_calls (data : payload)
    (initial_args : option (gmap string string))
    (target_model target_variant inference_id custom_attributes : option string)
    (st st1 : state) (r : result (gmap string string)) :
  _create_request_args data initial_args target_model target_variant inference_id
    custom_attributes st = (r, st1) ->
  calls st1 = calls st.
Proof.
  intros H.
  pose proof (_create_request_args_run data initial_args target_model target_variant
                inference_id custom_attributes st) as (Hcalls & _).
  simpl in Hcalls. rewrite H in Hcalls. exact Hcalls.
Qed.

Lemma lookup_set_if_eq {V} (b : bool) (k : string) (v : V) (d : gmap string V) :
  set_if b k v d !! k = if b then Some v else d !! k.
Proof. unfold set_if. destruct b; [apply lookup_insert_eq | reflexivity]. Qed.

Lemma truthy_option_default (o : option string) :
  truthy o = true -> Some (default "" o) = o.
Proof. destruct o; [reflexivity | discriminate]. Qed.

(** The requests that [predict] dispatches: none, or the built request with
    the component name resolved. *)
Lemma predict_sent (data : payload) (initial_args : option (gmap string string))
    (target_model target_variant inference_id custom_attributes : option string)
    (component_name_arg : option string) (st : state) :
  let run := predict data initial_args target_model target_variant inference_id
               custom_attributes component_name_arg st in
  let inference_component_name := py_or component_name_arg (component_name (self st)) in
  exists l, calls run.2 = calls st ++ l
    /\ forall sent, InvokeEndpoint sent ∈ l ->
         l = [InvokeEndpoint sent]
         /\ exists request_args st1,
              _create_request_args data initial_args target_model target_variant
                inference_id custom_attributes st = (Ok request_args, st1)
              /\ sent = set_if (truthy inference_component_name) "InferenceComponentName"
                          (default "" inference_component_name) request_args.
Proof.
  simpl. rewrite predict_run.
  destruct (_create_request_args data initial_args target_model target_variant
              inference_id custom_attributes st) as [[request_args | e] st1] eqn:Hb;
    cbn [fst snd].
  - eexists. split; [reflexivity |]. intros sent Hin.
    apply list_elem_of_singleton in Hin. injection Hin as ->.
    split; [reflexivity |]. eauto.
  - apply _create_request_args_run_calls in Hb.
    exists []. rewrite app_nil_r. split; [exact Hb |]. intros sent Hin. inversion Hin.
Qed.

Ltac through_request :=
  repeat first [ rewrite lookup_insert_ne by discriminate
               | rewrite lookup_set_if_ne by discriminate
               | rewrite lookup_set_if_absent_ne by discriminate ].

(** X13.  Where a prediction is sent.  In every invoke request that
    [predict] dispatches, [EndpointName] is the value under that key in
    [initial_args] when there is one and the Predictor's endpoint name
    otherwise; [InferenceComponentName] is the [component_name] argument
    when it is true, else the Predictor's component name when that is
    true, else whatever [initial_args] holds under that key (absent if
    nothing). *)
Theorem predict_routing
    (data : payload) (initial_args : option (gmap string string))
    (target_model target_variant inference_id custom_attributes : option string)
    (component_name_arg : option string) (st : state) :
  let run := predict data initial_args target_model target_variant inference_id
               custom_attributes component_name_arg st in
  exists l, calls run.2 = calls st ++ l
    /\ forall sent, InvokeEndpoint sent ∈ l ->
         sent !! "EndpointName"
         = Some (default (endpoint_name (self st)) (explicit initial_args "EndpointName"))
         /\ sent !! "InferenceComponentName"
            = if truthy component_name_arg then component_name_arg
              else if truthy (component_name (self st)) then component_name (self st)
                   else explicit initial_args "InferenceComponentName".
Proof.
  simpl.
  destruct (predict_sent data initial_args target_model target_variant inference_id
              custom_attributes component_name_arg st) as (l & Hl & Hsent).
  exists l. split; [exact Hl |]. intros sent Hin.
  destruct (Hsent sent Hin) as (_ & request_args & st1 & Hb & ->).
  apply _create_request_args_built in Hb
    as (_ & _ & body & ct & ac & -> & _).
  split.
  - through_request. rewrite lookup_set_if_absent_eq, lookup_initial_args. reflexivity.
  - rewrite lookup_set_if_eq. unfold py_or.
    destruct (truthy component_name_arg) eqn:Ta.
    + rewrite Ta. apply truthy_option_default, Ta.
    + destruct (truthy (component_name (self st))) eqn:Tc.
      * apply truthy_option_default, Tc.
      * rewrite lookup_insert_ne by discriminate.
        unfold set_if at 1. through_request. apply lookup_initial_args.
Qed.

(** X14.  The optional per-call fields.  In every invoke request that
    [predict] dispatches, each of [TargetModel], [TargetVariant],
    [InferenceId] and [CustomAttributes] is the corresponding argument when
    it is true; when the argument is [None] or empty the key keeps the
    value that [initial_args] gave it, and is absent if there was none. *)
Theorem predict_optional_fields
    (data : payload) (initial_args : option (gmap string string))
    (target_model target_variant inference_id custom_attributes : option string)
    (component_name_arg : option string) (st : state) :
  let run := predict data initial_args target_model target_variant inference_id
               custom_attributes component_name_arg st in
  exists l, calls run.2 = calls st ++ l
    /\ forall sent, InvokeEndpoint sent ∈ l ->
         sent !! "TargetModel"
         = (if truthy target_model then target_model
            else explicit initial_args "TargetModel")
         /\ sent !! "TargetVariant"
            = (if truthy target_variant then target_variant
               else explicit initial_args "TargetVariant")
         /\ sent !! "InferenceId"
            = (if truthy inference_id then inference_id
               else explicit initial_args "InferenceId")
         /\ sent !! "CustomAttributes"
            = (if truthy custom_attributes then custom_attributes
               else explicit initial_args "CustomAttributes").
Proof.
  simpl.
  destruct (predict_sent data initial_args target_model target_variant inference_id
              custom_attributes component_name_arg st) as (l & Hl & Hsent).
  exists l. split; [exact Hl |]. intros sent Hin.
  destruct (Hsent sent Hin) as (_ & request_args & st1 & Hb & ->).
  apply _create_request_args_built in Hb
    as (_ & _ & body & ct & ac & -> & _).
  assert (Hopt : forall (arg : option string) (k : string) (d : gmap string string),
            set_if (truthy arg) k (default "" arg) d !! k
            = if truthy arg then arg else d !! k).
  { intros arg k d. rewrite lookup_set_if_eq.
    destruct (truthy arg) eqn:T; [apply truthy_option_default, T | reflexivity]. }
  repeat split.
  - rewrite lookup_set_if_ne, lookup_insert_ne by discriminate.
    rewrite !(lookup_set_if_ne _ _ "TargetModel") by discriminate.
    rewrite Hopt. through_request. rewrite lookup_initial_args. reflexivity.
  - rewrite lookup_set_if_ne, lookup_insert_ne by discriminate.
    rewrite !(lookup_set_if_ne _ _ "TargetVariant") by discriminate.
    rewrite Hopt. through_request. rewrite lookup_initial_args. reflexivity.
  - rewrite lookup_set_if_ne, lookup_insert_ne by discriminate.
    rewrite !(lookup_set_if_ne _ _ "InferenceId") by discriminate.
    rewrite Hopt. through_request. rewrite lookup_initial_args. reflexivity.
  - rewrite lookup_set_if_ne, lookup_insert_ne by discriminate.
    rewrite !(lookup_set_if_ne _ _ "CustomAttributes") by discriminate.
    rewrite Hopt. through_request. rewrite lookup_initial_args. reflexivity.
Qed.

(** X15.  What a prediction carries.  In every invoke request that
    [predict] dispatches, [Body] is the serialized payload, never a [Body]
    of [initial_args]: for an ordinary payload, what the configured
    serializer returned; for a JumpStart payload, what the payload
    serializer returned when that is not empty (the configured serializer
    is bypassed), and what the configured serializer returns for the
    payload object when it is empty. *)
Theorem predict_body
    (data : payload) (initial_args : option (gmap string string))
    (target_model target_variant inference_id custom_attributes : option string)
    (component_name_arg : option string) (st : state) :
  let run := predict data initial_args target_model target_variant inference_id
               custom_attributes component_name_arg st in
  exists l, calls run.2 = calls st ++ l
    /\ forall sent, InvokeEndpoint sent ∈ l ->
         exists body, sent !! "Body" = Some body
           /\ match data with
              | Plain _ => serialize (serializer (self st)) data = Ok body
              | JumpStart jp =>
                  exists serialized w,
                    jumpstart_serialize jp (world st) = (Ok serialized, w)
                    /\ (serialized ≠ "" -> body = serialized)
                    /\ (serialized = "" ->
                          serialize (serializer (self st)) data = Ok body)
              end.
Proof.
  simpl.
  destruct (predict_sent data initial_args target_model target_variant inference_id
              custom_attributes component_name_arg st) as (l & Hl & Hsent).
  exists l. split; [exact Hl |]. intros sent Hin.
  destruct (Hsent sent Hin) as (_ & request_args & st1 & Hb & ->).
  apply _create_request_args_built in Hb
    as (_ & _ & body & ct & ac & -> & Hbody).
  exists body. split.
  - rewrite lookup_set_if_ne by discriminate. apply lookup_insert_eq.
  - destruct data as [d | jp].
    + apply Hbody.
    + destruct Hbody as (serialized & Hs & Hcase).
      exists serialized, (world st1). split; [exact Hs |].
      destruct serialized; cbn in Hcase; split; intros H; congruence.
Qed.

(** X16.  What [predict] returns.  [predict] never writes an attribute of
    the Predictor.  Once the request is built it dispatches exactly one
    invoke call: if that raises, [predict] raises the same exception (no
    retry, no translation); if it answers, the result is what the
    deserializer makes of the response body and the content type of the
    response, ["application/octet-stream"] when the response has none,
    whatever [Accept] was requested. *)
Theorem predict_response
    (data : payload) (initial_args : option (gmap string string))
    (target_model target_variant inference_id custom_attributes : option string)
    (component_name_arg : option string) (st : state) :
  let run := predict data initial_args target_model target_variant inference_id
               custom_attributes component_name_arg st in
  self run.2 = self st
  /\ forall request_args st1,
       _create_request_args data initial_args target_model target_variant inference_id
         custom_attributes st = (Ok request_args, st1) ->
       exists sent,
         calls run.2 = calls st ++ [InvokeEndpoint sent]
         /\ (forall e w, runtime_invoke_endpoint sent (world st1) = (Raise e, w) ->
               run.1 = Raise e /\ world run.2 = w)
         /\ (forall response w,
               runtime_invoke_endpoint sent (world st1) = (Ok response, w) ->
               run.1 = deserialize (deserializer (self st)) (resp_Body response)
                         (default "application/octet-stream"
                            (resp_ContentType response))
               /\ world run.2 = w).
Proof.
  simpl. rewrite predict_run.
  destruct (_create_request_args data initial_args target_model target_variant
              inference_id custom_attributes st) as [[request_args | e] st1] eqn:Hb;
    cbn [fst snd].
  - split; [reflexivity |]. intros request_args' st1' [= <- <-].
    eexists. split; [reflexivity |]. split.
    + intros e w ->. split; reflexivity.
    + intros response w ->. split; reflexivity.
  - split; [| intros ? ? [=]].
    pose proof (_create_request_args_run data initial_args target_model target_variant
                  inference_id custom_attributes st) as (_ & Hself & _).
    simpl in Hself. rewrite Hb in Hself. exact Hself.
Qed.

(** ** [update_predictor], field by field *)

Lemma lookup_maybe_setitem2_eq (b : bool) (k k' : string) (v : field_value)
    (d : gmap string spec_value) (inner : gmap string field_value) :
  d !! k = Some (SVDict inner) ->
  (if b then setitem2 k k' v d else d) !! k = Some (SVDict (set_if b k' v inner)).
Proof.
  intros H. destruct b; [| exact H].
  unfold setitem2, set_if. rewrite lookup_alter_eq, H. reflexivity.
Qed.

Lemma lookup_maybe_setitem2_ne (b : bool) (k k' j : string) (v : field_value)
    (d : gmap string spec_value) :
  k ≠ j -> (if b then setitem2 k k' v d else d) !! j = d !! j.
Proof. intros H. destruct b; [apply lookup_setitem2_ne, H | reflexivity]. Qed.

(** The request of a component-scoped [update_predictor] with [resources]
    given, key by key. *)
Lemma update_predictor_request
    (model_name image_uri : option string) (model_data : option field_value)
    (env_vars : option (gmap string string))
    (model_data_download_timeout container_startup_health_check_timeout : option Z)
    (resources : ResourceRequirements) (name : string) (st : state) :
  component_name (self st) = Some name ->
  let container : gmap string field_value :=
    if truthy model_name then ∅
    else set_if (truthy model_data) "ArtifactUrl" (default (FStr "") model_data)
           (set_if (truthy env_vars) "Environment" (FDict (default ∅ env_vars))
              (set_if (truthy image_uri) "Image" (FStr (default "" image_uri)) ∅)) in
  let startup : gmap string field_value :=
    set_if (truthy container_startup_health_check_timeout)
      "ContainerStartupHealthCheckTimeoutInSeconds"
      (FInt (default 0 container_startup_health_check_timeout))
      (set_if (truthy model_data_download_timeout) "ModelDataDownloadTimeoutInSeconds"
         (FInt (default 0 model_data_download_timeout)) ∅) in
  exists request,
    update_predictor model_name image_uri model_data env_vars model_data_download_timeout
      container_startup_health_check_timeout (Some resources) st
    = ((session_update_inference_component request (world st)).1,
       {| self := self st;
          world := (session_update_inference_component request (world st)).2;
          calls := calls st ++ [UpdateInferenceComponent request] |})
    /\ inference_component_name request = name
    /\ runtime_config request
       = (if truthy (copy_count resources)
          then Some {["CopyCount" := copy_count resources]} else None)
    /\ specification request !! "ModelName"
       = (if truthy model_name then Some (SVStr (default "" model_name)) else None)
    /\ specification request !! "Container"
       = (if truthy container then Some (SVDict container) else None)
    /\ specification request !! "StartupParameters"
       = (if truthy startup then Some (SVDict startup) else None)
    /\ specification request !! "ComputeResourceRequirements"
       = (if truthy (get_compute_resource_requirements resources)
          then Some (SVDict (get_compute_resource_requirements resources)) else None).
Proof.
  intros Hc. simpl.
  unfold update_predictor. rewrite bind_run. simpl. rewrite Hc.
  rewrite bind_run. simpl. rewrite remote_run. simpl.
  eexists. split; [reflexivity |]. simpl.
  split; [reflexivity |]. split; [reflexivity |].
  repeat split; rewrite lookup_prune.
  - (* ModelName *)
    rewrite !lookup_maybe_setitem2_ne by discriminate.
    destruct (truthy model_name) eqn:T.
    + rewrite lookup_insert_eq. cbn. destruct model_name as [m |]; [| discriminate T].
      change (truthy (default "" (Some m))) with (truthy (Some m)).
      rewrite T. reflexivity.
    + rewrite !lookup_maybe_setitem2_ne by discriminate.
      rewrite !lookup_insert_ne by discriminate. rewrite lookup_empty. reflexivity.
  - (* Container *)
    rewrite !lookup_maybe_setitem2_ne by discriminate.
    destruct (truthy model_name) eqn:T.
    + rewrite !lookup_insert_ne by discriminate. rewrite lookup_insert_eq. reflexivity.
    + match goal with |- match ?d !! _ with _ => _ end = _ =>
        assert (H : d !! "Container"
                    = Some (SVDict
                              (set_if (truthy model_data) "ArtifactUrl"
                                 (default (FStr "") model_data)
                                 (set_if (truthy env_vars) "Environment"
                                    (FDict (default ∅ env_vars))
                                    (set_if (truthy image_uri) "Image"
                                       (FStr (default "" image_uri)) ∅)))))
      end.
      { do 3 apply lookup_maybe_setitem2_eq.
        rewrite !lookup_insert_ne by discriminate. apply lookup_insert_eq. }
      rewrite H. reflexivity.
  - (* StartupParameters *)
    match goal with |- match ?d !! _ with _ => _ end = _ =>
      assert (H : d !! "StartupParameters"
                  = Some (SVDict
                            (set_if (truthy container_startup_health_check_timeout)
                               "ContainerStartupHealthCheckTimeoutInSeconds"
                               (FInt (default 0 container_startup_health_check_timeout))
                               (set_if (truthy model_data_download_timeout)
                                  "ModelDataDownloadTimeoutInSeconds"
                                  (FInt (default 0 model_data_download_timeout)) ∅))))
    end.
    { do 2 apply lookup_maybe_setitem2_eq.
      destruct (truthy model_name).
      - rewrite lookup_insert_ne by discriminate.
        rewrite ?lookup_insert_ne by discriminate. apply lookup_insert_eq.
      - rewrite !lookup_maybe_setitem2_ne by discriminate.
        rewrite ?lookup_insert_ne by discriminate. apply lookup_insert_eq. }
    rewrite H. reflexivity.
  - (* ComputeResourceRequirements *)
    rewrite !lookup_maybe_setitem2_ne by discriminate.
    destruct (truthy model_name).
    + rewrite lookup_insert_ne by discriminate. rewrite lookup_insert_eq. reflexivity.
    + rewrite !lookup_maybe_setitem2_ne by discriminate.
      rewrite lookup_insert_eq. reflexivity.
Qed.

Lemma specification_field_pruned (request : update_inference_component_request)
    (key field : string) (d : gmap string field_value) :
  specification request !! key = (if truthy d then Some (SVDict d) else None) ->
  specification_field request key field = d !! field.
Proof.
  intros H. unfold specification_field. rewrite H.
  destruct (truthy d) eqn:T; [reflexivity |].
  apply truthy_gmap_false in T as ->. symmetry. apply lookup_empty.
Qed.

Lemma truthy_option_fmap {A B} `{Truthy A} (f : A -> B) (d : A) (o : option A) :
  truthy o = true -> Some (f (default d o)) = f <$> o.
Proof. destruct o; [reflexivity | discriminate]. Qed.

(** X17.  [update_predictor] without a model name.  On a component-scoped
    Predictor with [resources] given and [model_name] [None] or empty, the
    one update dispatched has no [ModelName], and its [Container] holds
    [Image], [Environment] and [ArtifactUrl] exactly for those of
    [image_uri], [env] and [model_data] that are true, with their values;
    the [Container] entry is absent altogether exactly when none of the
    three is. *)
Theorem update_predictor_container
    (model_name image_uri : option string) (model_data : option field_value)
    (env_vars : option (gmap string string))
    (model_data_download_timeout container_startup_health_check_timeout : option Z)
    (resources : ResourceRequirements) (name : string) (st : state) :
  truthy model_name = false ->
  component_name (self st) = Some name ->
  let run := update_predictor model_name image_uri model_data env_vars
               model_data_download_timeout container_startup_health_check_timeout
               (Some resources) st in
  exists request,
    calls run.2 = calls st ++ [UpdateInferenceComponent request]
    /\ specification request !! "ModelName" = None
    /\ specification_field request "Container" "Image"
       = (if truthy image_uri then FStr <$> image_uri else None)
    /\ specification_field request "Container" "Environment"
       = (if truthy env_vars then FDict <$> env_vars else None)
    /\ specification_field request "Container" "ArtifactUrl"
       = (if truthy model_data then model_data else None)
    /\ (specification request !! "Container" = None
        <-> truthy image_uri = false /\ truthy env_vars = false
            /\ truthy model_data = false).
Proof.
  intros Hm Hc. simpl.
  destruct (update_predictor_request model_name image_uri model_data env_vars
              model_data_download_timeout container_startup_health_check_timeout
              resources name st Hc)
    as (request & -> & _ & _ & HM & HC & _ & _).
  rewrite Hm in HM, HC. exists request. split; [reflexivity |]. split; [exact HM |].
  set (container := set_if (truthy model_data) "ArtifactUrl"
                      (default (FStr "") model_data)
                      (set_if (truthy env_vars) "Environment"
                         (FDict (default ∅ env_vars))
                         (set_if (truthy image_uri) "Image"
                            (FStr (default "" image_uri)) ∅))) in *.
  assert (HI : container !! "Image"
               = if truthy image_uri then FStr <$> image_uri else None).
  { subst container. rewrite !lookup_set_if_ne by discriminate.
    rewrite lookup_set_if_eq, lookup_empty.
    destruct (truthy image_uri) eqn:T; [apply truthy_option_fmap, T | reflexivity]. }
  assert (HE : container !! "Environment"
               = if truthy env_vars then FDict <$> env_vars else None).
  { subst container. rewrite lookup_set_if_ne by discriminate.
    rewrite lookup_set_if_eq, lookup_set_if_ne, lookup_empty by discriminate.
    destruct (truthy env_vars) eqn:T; [| reflexivity].
    destruct env_vars; [reflexivity | discriminate T]. }
  assert (HA : container !! "ArtifactUrl"
               = if truthy model_data then model_data else None).
  { subst container. rewrite lookup_set_if_eq.
    rewrite !lookup_set_if_ne, lookup_empty by discriminate.
    destruct (truthy model_data) eqn:T; [| reflexivity].
    destruct model_data; [reflexivity | discriminate T]. }
  split; [rewrite (specification_field_pruned _ _ _ _ HC); exact HI |].
  split; [rewrite (specification_field_pruned _ _ _ _ HC); exact HE |].
  split; [rewrite (specification_field_pruned _ _ _ _ HC); exact HA |].
  rewrite HC. split.
  - destruct (truthy container) eqn:T; [intros [=] | intros _].
    apply truthy_gmap_false in T. rewrite T in HI, HE, HA.
    rewrite lookup_empty in HI, HE, HA.
    destruct (truthy image_uri) eqn:T1;
      [destruct image_uri; [discriminate HI | discriminate T1] |].
    destruct (truthy env_vars) eqn:T2;
      [destruct env_vars; [discriminate HE | discriminate T2] |].
    destruct (truthy model_data) eqn:T3;
      [destruct model_data; [discriminate HA | discriminate T3] |].
    repeat split.
  - intros (T1 & T2 & T3). subst container. rewrite T1, T2, T3.
    unfold set_if. rewrite truthy_gmap_empty. reflexivity.
Qed.

(** X18.  The rest of the update request.  On a component-scoped Predictor
    with [resources] given, whatever the other arguments, [update_predictor]
    dispatches exactly one update, for the Predictor's component, returns
    what that call returns and writes no attribute.  The request has a
    [runtime_config] (the [CopyCount]) exactly when [copy_count] is not
    zero; [StartupParameters] holds each timeout that is true (a timeout of
    [0] is dropped) and is absent when neither is;
    [ComputeResourceRequirements] is what [resources] gives, absent when
    that is empty. *)
Theorem update_predictor_startup_and_runtime
    (model_name image_uri : option string) (model_data : option field_value)
    (env_vars : option (gmap string string))
    (model_data_download_timeout container_startup_health_check_timeout : option Z)
    (resources : ResourceRequirements) (name : string) (st : state) :
  component_name (self st) = Some name ->
  let run := update_predictor model_name image_uri model_data env_vars
               model_data_download_timeout container_startup_health_check_timeout
               (Some resources) st in
  exists request,
    calls run.2 = calls st ++ [UpdateInferenceComponent request]
    /\ run.1 = (session_update_inference_component request (world st)).1
    /\ self run.2 = self st
    /\ inference_component_name request = name
    /\ runtime_config request
       = (if (copy_count resources =? 0)%Z then None
          else Some {["CopyCount" := copy_count resources]})
    /\ specification_field request "StartupParameters" "ModelDataDownloadTimeoutInSeconds"
       = (if truthy model_data_download_timeout
          then FInt <$> model_data_download_timeout else None)
    /\ specification_field request "StartupParameters"
         "ContainerStartupHealthCheckTimeoutInSeconds"
       = (if truthy container_startup_health_check_timeout
          then FInt <$> container_startup_health_check_timeout else None)
    /\ (specification request !! "StartupParameters" = None
        <-> truthy model_data_download_timeout = false
            /\ truthy container_startup_health_check_timeout = false)
    /\ specification request !! "ComputeResourceRequirements"
       = (if decide (get_compute_resource_requirements resources = ∅) then None
          else Some (SVDict (get_compute_resource_requirements resources))).
Proof.
  intros Hc. simpl.
  destruct (update_predictor_request model_name image_uri model_data env_vars
              model_data_download_timeout container_startup_health_check_timeout
              resources name st Hc)
    as (request & -> & Hname & Hrun & _ & _ & HS & HR).
  exists request. split; [reflexivity |]. split; [reflexivity |].
  split; [reflexivity |]. split; [exact Hname |].
  set (startup := set_if (truthy container_startup_health_check_timeout)
                    "ContainerStartupHealthCheckTimeoutInSeconds"
                    (FInt (default 0 container_startup_health_check_timeout))
                    (set_if (truthy model_data_download_timeout)
                       "ModelDataDownloadTimeoutInSeconds"
                       (FInt (default 0 model_data_download_timeout)) ∅)) in *.
  assert (H1 : startup !! "ModelDataDownloadTimeoutInSeconds"
               = if truthy model_data_download_timeout
                 then FInt <$> model_data_download_timeout else None).
  { subst startup. rewrite lookup_set_if_ne by discriminate.
    rewrite lookup_set_if_eq, lookup_empty.
    destruct (truthy model_data_download_timeout) eqn:T;
      [apply truthy_option_fmap, T | reflexivity]. }
  assert (H2 : startup !! "ContainerStartupHealthCheckTimeoutInSeconds"
               = if truthy container_startup_health_check_timeout
                 then FInt <$> container_startup_health_check_timeout else None).
  { subst startup. rewrite lookup_set_if_eq.
    rewrite lookup_set_if_ne, lookup_empty by discriminate.
    destruct (truthy container_startup_health_check_timeout) eqn:T;
      [apply truthy_option_fmap, T | reflexivity]. }
  split.
  { rewrite Hrun. change (truthy (copy_count resources))
      with (negb (copy_count resources =? 0)%Z).
    destruct (copy_count resources =? 0)%Z; reflexivity. }
  split; [rewrite (specification_field_pruned _ _ _ _ HS); exact H1 |].
  split; [rewrite (specification_field_pruned _ _ _ _ HS); exact H2 |].
  split.
  - rewrite HS. split.
    + destruct (truthy startup) eqn:T; [intros [=] | intros _].
      apply truthy_gmap_false in T. rewrite T, lookup_empty in H1, H2.
      destruct (truthy model_data_download_timeout) eqn:T1;
        [destruct model_data_download_timeout; [discriminate H1 | discriminate T1] |].
      destruct (truthy container_startup_health_check_timeout) eqn:T2;
        [destruct container_startup_health_check_timeout;
           [discriminate H2 | discriminate T2] |].
      split; reflexivity.
    + intros (T1 & T2). subst startup. rewrite T1, T2.
      unfold set_if. rewrite truthy_gmap_empty. reflexivity.
  - rewrite HR.
    destruct (decide (get_compute_resource_requirements resources = ∅)) as [E | E].
    + rewrite E, truthy_gmap_empty. reflexivity.
    + destruct (truthy (get_compute_resource_requirements resources)) eqn:T;
        [reflexivity |]. apply truthy_gmap_false in T. contradiction.
Qed.

(** ** [list_monitors], in order *)

Lemma attached_app (l1 l2 : list call) : attached (l1 ++ l2) = attached l1 ++ attached l2.
Proof. unfold attached. apply omap_app. Qed.

Lemma attached_describes (l : list call) (name : string) :
  (forall c, c ∈ l -> c = DescribeMonitoringSchedule name) -> attached l = [].
Proof.
  induction l as [| c l IH]; [reflexivity |]. intros H.
  unfold attached in *. simpl. rewrite (H c) by left. simpl.
  apply IH. intros c' Hc'. apply H. right. exact Hc'.
Qed.

Lemma list_monitors_loop_order (schedules : list MonitoringScheduleSummary) :
  forall (monitors : list Monitor) (st : state),
    let run := list_monitors_loop schedules monitors st in
    exists l, calls run.2 = calls st ++ l
      /\ attached l `prefix_of` (MonitoringScheduleName <$> schedules)
      /\ (forall ms, run.1 = Ok ms ->
            attached l = MonitoringScheduleName <$> schedules).
Proof.
  induction schedules as [| sd rest IH]; intros monitors st; simpl.
  - exists []. rewrite app_nil_r. split; [reflexivity |]. split; [| reflexivity].
    exists []. reflexivity.
  - rewrite bind_run.
    destruct (_get_model_monitor_class_calls (MonitoringScheduleName sd)
                (MonitoringType sd) st) as (l1 & E1 & Hl1). simpl in E1.
    apply attached_describes in Hl1.
    destruct (_get_model_monitor_class (MonitoringScheduleName sd) (MonitoringType sd) st)
      as [[clazz | e] st1]; cbn [fst snd] in *.
    2:{ exists l1. split; [exact E1 |]. rewrite Hl1. split; [| intros ms [=]].
        eexists. reflexivity. }
    rewrite bind_run, remote_run.
    destruct (monitor_attach clazz (MonitoringScheduleName sd) (world st1))
      as [[monitor | e] w]; cbn [fst snd].
    2:{ cbn [calls]. exists (l1 ++ [Attach clazz (MonitoringScheduleName sd)]).
        split; [rewrite E1, <- app_assoc; reflexivity |].
        rewrite attached_app, Hl1. split; [| intros ms [=]].
        exists (MonitoringScheduleName <$> rest). reflexivity. }
    match goal with |- context [list_monitors_loop rest ?m ?s] =>
      destruct (IH m s) as (l & El & (k & Hk) & Hok) end.
    cbn [calls] in El.
    exists (l1 ++ [Attach clazz (MonitoringScheduleName sd)] ++ l).
    split; [rewrite El, E1, <- !app_assoc; reflexivity |].
    rewrite !attached_app, Hl1. split.
    + exists k. simpl. f_equal. exact Hk.
    + intros ms Hms. simpl. f_equal. exact (Hok ms Hms).
Qed.

(** X19.  [list_monitors] attaches in the order of the listing.  The
    schedules it attaches are, in order, a prefix of the listed schedule
    names: each schedule at most once, none skipped, none after a schedule
    whose classification or attachment raised; and when the call returns,
    all of them. *)
Theorem list_monitors_order (st : state) (summaries : list MonitoringScheduleSummary)
    (w : World) :
  session_list_monitoring_schedules (endpoint_name (self st)) (world st)
    = (Ok summaries, w) ->
  let run := list_monitors st in
  exists l,
    calls run.2 = calls st ++ ListMonitoringSchedules (endpoint_name (self st)) :: l
    /\ attached l `prefix_of` (MonitoringScheduleName <$> summaries)
    /\ (forall monitors, run.1 = Ok monitors ->
          attached l = MonitoringScheduleName <$> summaries).
Proof.
  intros H. simpl.
  assert (E : list_monitors st
              = (if (length summaries =? 0)%nat then ret []
                 else list_monitors_loop summaries [])
                  {| self := self st; world := w;
                     calls := calls st
                              ++ [ListMonitoringSchedules (endpoint_name (self st))] |}).
  { unfold list_monitors.
    rewrite bind_run. unfold get_self at 1. rewrite bind_run, remote_run, H.
    reflexivity. }
  rewrite E. clear E.
  destruct summaries as [| sd rest].
  - simpl. exists []. split; [reflexivity |]. split; [exists []; reflexivity |].
    reflexivity.
  - change (length (sd :: rest) =? 0)%nat with false. cbv iota.
    match goal with |- context [list_monitors_loop ?ss ?m ?s] =>
      destruct (list_monitors_loop_order ss m s) as (l & El & Hp & Hok) end.
    cbn [calls] in El. exists l. split; [rewrite El, <- app_assoc; reflexivity |].
    split; [exact Hp | exact Hok].
Qed.

End MoreProperties.

(** * Properties of deletion, related models and lineage *)

Section AdminProperties.
Context `{admin : Admin}.
Local Open Scope object_scope.

Lemma obind_run {A B} (c : O A) (k : A -> O B) (o : object) :
  obind c k o = match c o with
                | (Ok a, o') => k a o'
                | (Raise e, o') => (Raise e, o')
                end.
Proof. reflexivity. Qed.

Lemma dispatch_run {A} (e : event) (f : World -> result A * World) (o : object) :
  dispatch e f o
  = ((f (world (core o))).1,
     {| core := {| self := self (core o); world := (f (world (core o))).2;
                   calls := calls (core o) |};
        _context := _context o;
        trace := trace o ++ [e] |}).
Proof. unfold dispatch. destruct (f (world (core o))). reflexivity. Qed.

Lemma core_method_run {A} (c : M A) (o : object) (r : result A) (st' : state)
    (l : list call) :
  c (core o) = (r, st') ->
  calls st' = calls (core o) ++ l ->
  core_method c o
  = (r, {| core := st'; _context := _context o; trace := trace o ++ (Core <$> l) |}).
Proof.
  intros Hc Hl. unfold core_method. rewrite Hc, Hl, drop_app_length. reflexivity.
Qed.

(** X20.  [delete_endpoint].  Without the configuration
    ([delete_endpoint_config] false) it dispatches the endpoint deletion
    and nothing else.  With it, the configuration is deleted first, under
    the name the look-up gives: if the look-up raises nothing is deleted; if
    the deletion of the configuration raises, that error is raised and the
    endpoint deletion is not dispatched; otherwise the endpoint deletion
    follows and decides the result.  The cached configuration name is not
    cleared: it still names the deleted configuration. *)
Theorem delete_endpoint_order (o : object) :
  let ep := endpoint_name (self (core o)) in
  (let run := delete_endpoint false o in
   trace run.2 = trace o ++ [DeleteEndpoint ep]
   /\ run.1 = (session_delete_endpoint ep (world (core o))).1
   /\ self (core run.2) = self (core o))
  /\ (let run := delete_endpoint true o in
      forall r st1, _get_endpoint_config_name (core o) = (r, st1) ->
      exists l, calls st1 = calls (core o) ++ l /\ forallb describe_call l = true
        /\ (forall e, r = Raise e ->
              run.1 = Raise e /\ trace run.2 = trace o ++ (Core <$> l))
        /\ (forall cur e w, r = Ok cur ->
              session_delete_endpoint_config cur (world st1) = (Raise e, w) ->
              run.1 = Raise e
              /\ trace run.2 = trace o ++ (Core <$> l) ++ [DeleteEndpointConfig cur])
        /\ (forall cur w, r = Ok cur ->
              session_delete_endpoint_config cur (world st1) = (Ok tt, w) ->
              run.1 = (session_delete_endpoint ep w).1
              /\ trace run.2 = trace o ++ (Core <$> l)
                               ++ [DeleteEndpointConfig cur; DeleteEndpoint ep]
              /\ _endpoint_config_name (self (core run.2)) = Some cur)).
Proof.
  simpl. split.
  - assert (E : delete_endpoint false o
                = dispatch (DeleteEndpoint (endpoint_name (self (core o))))
                    (session_delete_endpoint (endpoint_name (self (core o)))) o)
      by reflexivity.
    rewrite E, dispatch_run. split; [reflexivity |]. split; reflexivity.
  - intros r st1 Hc.
    pose proof (_get_endpoint_config_name_looked_up _ _ _ Hc) as [(l & El & F) N1 _].
    exists l. split; [exact El |]. split; [exact F |].
    assert (E : delete_endpoint true o
                = match r with
                  | Raise e =>
                      (Raise e, {| core := st1; _context := _context o;
                                   trace := trace o ++ (Core <$> l) |})
                  | Ok cur =>
                      let deleted := session_delete_endpoint_config cur (world st1) in
                      let ep := endpoint_name (self st1) in
                      match deleted.1 with
                      | Raise e =>
                          (Raise e,
                           {| core := {| self := self st1; world := deleted.2;
                                         calls := calls st1 |};
                              _context := _context o;
                              trace := trace o ++ (Core <$> l)
                                       ++ [DeleteEndpointConfig cur] |})
                      | Ok _ =>
                          ((session_delete_endpoint ep deleted.2).1,
                           {| core := {| self := self st1;
                                         world := (session_delete_endpoint ep
                                                     deleted.2).2;
                                         calls := calls st1 |};
                              _context := _context o;
                              trace := trace o ++ (Core <$> l)
                                       ++ [DeleteEndpointConfig cur;
                                           DeleteEndpoint ep] |})
                      end
                  end).
    { unfold delete_endpoint, _delete_endpoint_config.
      rewrite obind_run, obind_run. rewrite (core_method_run _ _ _ _ _ Hc El).
      destruct r as [cur | e]; [| reflexivity].
      rewrite dispatch_run. cbn [core world self calls _context trace fst snd].
      destruct (session_delete_endpoint_config cur (world st1)) as [[[] | e] w];
        cbn [fst snd].
      - rewrite obind_run. unfold get_object at 1. rewrite dispatch_run.
        cbn [core world self calls _context trace fst snd].
        rewrite <- !app_assoc. reflexivity.
      - rewrite <- !app_assoc. reflexivity. }
    rewrite E. clear E. split; [| split].
    + intros e ->. split; reflexivity.
    + intros cur e w -> Hd. cbv zeta. rewrite Hd. split; reflexivity.
    + intros cur w -> Hd. cbv zeta. rewrite Hd. cbn [fst snd core self trace].
      rewrite N1. split; [reflexivity |]. split; [reflexivity |].
      eapply _get_endpoint_config_name_cached, Hc.
Qed.

(** X21.  [delete_predictor].  On a Predictor with a (non-empty) component
    name it deletes the inference component, passing [wait] on, and nothing
    else: the endpoint and its configuration are not touched.  Otherwise,
    also when the component name is the empty string, it is
    [delete_endpoint] with the configuration, and [wait] plays no part. *)
Theorem delete_predictor_scope (wait : bool) (o : object) :
  (forall name, component_name (self (core o)) = Some name -> name ≠ "" ->
     let run := delete_predictor wait o in
     trace run.2 = trace o ++ [DeleteInferenceComponent name wait]
     /\ run.1 = (session_delete_inference_component name wait (world (core o))).1
     /\ self (core run.2) = self (core o) /\ calls (core run.2) = calls (core o))
  /\ (component_name (self (core o)) = None \/ component_name (self (core o)) = Some "" ->
      delete_predictor wait o = delete_endpoint true o
      /\ delete_predictor (negb wait) o = delete_predictor wait o).
Proof.
  split.
  - intros name Hc Hne. simpl. apply truthy_string_true in Hne.
    assert (E : delete_predictor wait o
                = dispatch (DeleteInferenceComponent name wait)
                    (session_delete_inference_component name wait) o).
    { unfold delete_predictor. rewrite obind_run. unfold get_object at 1.
      cbv beta iota. rewrite Hc. change (truthy (Some name)) with (truthy name).
      rewrite Hne. reflexivity. }
    rewrite E, dispatch_run. repeat split.
  - intros Hc.
    assert (T : truthy (component_name (self (core o))) = false)
      by (destruct Hc as [-> | ->]; reflexivity).
    assert (E : forall b, delete_predictor b o = delete_endpoint true o).
    { intros b. unfold delete_predictor. rewrite obind_run. unfold get_object at 1.
      cbv beta iota. rewrite T. reflexivity. }
    rewrite !E. split; reflexivity.
Qed.

(** X22.  [list_related_models] asks for one page.  Whatever the answer,
    it dispatches exactly one listing, for the Predictor's endpoint, with
    the filters as given (the pagination token included), and writes
    nothing.  An error of the listing is raised as it is; the empty
    dictionary gives the pair of an empty dictionary and no token; any
    other answer gives its components and its [NextToken], [None] when it
    has none; a further page is never fetched. *)
Theorem list_related_models_one_page (filters : related_models_filters Datetime)
    (o : object) :
  let ep := endpoint_name (self (core o)) in
  let run := list_related_models filters o in
  let listed := session_list_inference_components ep filters (world (core o)) in
  trace run.2 = trace o ++ [ListInferenceComponents ep filters]
  /\ self (core run.2) = self (core o) /\ _context run.2 = _context o
  /\ world (core run.2) = listed.2
  /\ (forall e, listed.1 = Raise e -> run.1 = Raise e)
  /\ (listed.1 = Ok None -> run.1 = Ok (EmptyDict, None))
  /\ (forall response, listed.1 = Ok (Some response) ->
        run.1 = Ok (Components (InferenceComponents response), NextToken response)).
Proof.
  simpl.
  assert (E : list_related_models filters o
              = (match (session_list_inference_components
                          (endpoint_name (self (core o))) filters
                          (world (core o))).1 with
                 | Raise e => Raise e
                 | Ok None => Ok (EmptyDict, None)
                 | Ok (Some response) =>
                     Ok (Components (InferenceComponents response), NextToken response)
                 end,
                 {| core := {| self := self (core o);
                               world := (session_list_inference_components
                                           (endpoint_name (self (core o))) filters
                                           (world (core o))).2;
                               calls := calls (core o) |};
                    _context := _context o;
                    trace := trace o
                             ++ [ListInferenceComponents
                                   (endpoint_name (self (core o))) filters] |})).
  { unfold list_related_models. rewrite obind_run. unfold get_object at 1.
    rewrite obind_run, dispatch_run.
    destruct (session_list_inference_components _ _ _) as [[[response |] | e] w];
      reflexivity. }
  rewrite E. clear E. cbn [fst snd trace core self _context world].
  repeat split.
  - intros e ->. reflexivity.
  - intros ->. reflexivity.
  - intros response ->. reflexivity.
Qed.

(** ** [endpoint_context] *)

Lemma core_method_remote {A} (c : call) (f : World -> result A * World) (o : object) :
  core_method (remote c f) o
  = ((f (world (core o))).1,
     {| core := {| self := self (core o); world := (f (world (core o))).2;
                   calls := calls (core o) ++ [c] |};
        _context := _context o;
        trace := trace o ++ [Core c] |}).
Proof.
  apply (core_method_run _ _ _ _ [c]); [apply remote_run | reflexivity].
Qed.

(** A call with no cached context starts by describing the endpoint. *)
Lemma endpoint_context_cold (o : object) :
  _context o = None ->
  exists l, trace (endpoint_context o).2
            = trace o ++ Core (DescribeEndpoint (endpoint_name (self (core o)))) :: l.
Proof.
  intros Hnone. unfold endpoint_context. rewrite obind_run. unfold get_object at 1.
  cbv beta iota. rewrite Hnone. rewrite obind_run, core_method_remote.
  destruct (client_describe_endpoint _ _) as [[desc | e] w1]; cbn [fst snd].
  2:{ exists []. reflexivity. }
  rewrite obind_run, dispatch_run. cbn [core world self calls _context trace].
  destruct (EndpointContext_list (EndpointArn desc) w1) as [[names | e] w2];
    cbn [fst snd].
  2:{ eexists. rewrite <- app_assoc. reflexivity. }
  rewrite obind_run.
  destruct names as [| first rest].
  - unfold oret at 1. rewrite obind_run. unfold get_object at 1. unfold oret.
    cbn [trace]. eexists. rewrite <- app_assoc. reflexivity.
  - rewrite obind_run, dispatch_run. cbn [core world self calls _context trace].
    destruct (EndpointContext_load first w2) as [[ctx | e] w3]; cbn [fst snd].
    + unfold set_context at 1. rewrite obind_run. unfold get_object at 1. unfold oret.
      cbn [trace]. eexists. rewrite <- !app_assoc. reflexivity.
    + eexists. rewrite <- !app_assoc. reflexivity.
Qed.

(** X23.  [endpoint_context] remembers what it found.  With no cached
    context, when the endpoint is described, the lineage look-up by its ARN
    finds contexts and the first one loads, the call dispatches these three
    calls, loads no other match, returns the loaded context and caches it;
    the next call returns the same context and dispatches nothing. *)
Theorem endpoint_context_found_is_cached (o : object) (desc : EndpointDescription)
    (first : string) (others : list string) (ctx : EndpointContext) (w1 w2 w3 : World) :
  let ep := endpoint_name (self (core o)) in
  _context o = None ->
  client_describe_endpoint ep (world (core o)) = (Ok desc, w1) ->
  EndpointContext_list (EndpointArn desc) w1 = (Ok (first :: others), w2) ->
  EndpointContext_load first w2 = (Ok ctx, w3) ->
  let run := endpoint_context o in
  run.1 = Ok (Some ctx)
  /\ _context run.2 = Some ctx
  /\ trace run.2 = trace o ++ [Core (DescribeEndpoint ep);
                               ListContexts (EndpointArn desc); LoadContext first]
  /\ endpoint_context run.2 = (Ok (Some ctx), run.2).
Proof.
  simpl. intros Hnone Hd Hl Hload.
  assert (E : endpoint_context o
              = (Ok (Some ctx),
                 {| core := {| self := self (core o); world := w3;
                               calls := calls (core o)
                                        ++ [DescribeEndpoint
                                              (endpoint_name (self (core o)))] |};
                    _context := Some ctx;
                    trace := trace o
                             ++ [Core (DescribeEndpoint (endpoint_name (self (core o))));
                                 ListContexts (EndpointArn desc);
                                 LoadContext first] |})).
  { unfold endpoint_context. rewrite obind_run. unfold get_object at 1.
    cbv beta iota. rewrite Hnone. rewrite obind_run, core_method_remote, Hd.
    cbn [fst snd]. rewrite obind_run, dispatch_run.
    cbn [core world self calls _context trace]. rewrite Hl. cbn [fst snd].
    rewrite obind_run, obind_run, dispatch_run.
    cbn [core world self calls _context trace]. rewrite Hload. cbn [fst snd].
    unfold set_context at 1. rewrite obind_run. unfold get_object at 1. unfold oret.
    cbn [core _context trace]. rewrite <- !app_assoc. reflexivity. }
  rewrite E. cbn [fst snd _context trace].
  repeat split.
Qed.

(** X24.  [endpoint_context] does not remember that it found nothing.
    With no cached context, when the endpoint is described and the lineage
    look-up by its ARN finds no context, the call returns [None], loads
    nothing and leaves the cache empty, so the next call describes the
    endpoint again. *)
Theorem endpoint_context_not_found_is_not_cached (o : object)
    (desc : EndpointDescription) (w1 w2 : World) :
  let ep := endpoint_name (self (core o)) in
  _context o = None ->
  client_describe_endpoint ep (world (core o)) = (Ok desc, w1) ->
  EndpointContext_list (EndpointArn desc) w1 = (Ok [], w2) ->
  let run := endpoint_context o in
  run.1 = Ok None
  /\ _context run.2 = None
  /\ trace run.2 = trace o ++ [Core (DescribeEndpoint ep);
                               ListContexts (EndpointArn desc)]
  /\ exists l, trace (endpoint_context run.2).2
               = trace run.2 ++ Core (DescribeEndpoint ep) :: l.
Proof.
  simpl. intros Hnone Hd Hl.
  assert (E : endpoint_context o
              = (Ok None,
                 {| core := {| self := self (core o); world := w2;
                               calls := calls (core o)
                                        ++ [DescribeEndpoint
                                              (endpoint_name (self (core o)))] |};
                    _context := None;
                    trace := trace o
                             ++ [Core (DescribeEndpoint (endpoint_name (self (core o))));
                                 ListContexts (EndpointArn desc)] |})).
  { unfold endpoint_context. rewrite obind_run. unfold get_object at 1.
    cbv beta iota. rewrite Hnone. rewrite obind_run, core_method_remote, Hd.
    cbn [fst snd]. rewrite obind_run, dispatch_run.
    cbn [core world self calls _context trace]. rewrite Hl. cbn [fst snd].
    rewrite obind_run. unfold oret at 1. rewrite obind_run.
    unfold get_object at 1. unfold oret.
    cbn [core _context trace]. rewrite Hnone, <- !app_assoc. reflexivity. }
  rewrite E. cbn [fst snd _context trace].
  split; [reflexivity |]. split; [reflexivity |]. split; [reflexivity |].
  match goal with |- context [endpoint_context ?o1] =>
    destruct (endpoint_context_cold o1 eq_refl) as (l & Hcold) end.
  exists l. exact Hcold.
Qed.

End AdminProperties.

(** * The properties at work in the concrete environment *)

Import Demo.

Lemma update_predictor_requires_component_witness :
  let st := start (new_Predictor "ep" None) in
  component_name (self st) = None
  /\ update_predictor (Some "m") (Some "image") None None None None (Some two_copies) st
     = (Raise (ValueError no_inference_component_message), st).
Proof.
  split; [reflexivity |].
  apply (update_predictor_requires_component (Some "m") (Some "image") None None None None
           (Some two_copies) (start (new_Predictor "ep" None))).
  reflexivity.
Defined.

Lemma update_predictor_without_resources_witness :
  let st := start (new_Predictor "ep" (Some "ic")) in
  component_name (self st) = Some "ic"
  /\ update_predictor (Some "m") None None None None None None st
     = (Raise (AttributeError "'NoneType' object has no attribute 'copy_count'"), st).
Proof.
  split; [reflexivity |].
  apply (update_predictor_without_resources (Some "m") None None None None None "ic"
           (start (new_Predictor "ep" (Some "ic")))).
  reflexivity.
Defined.

Lemma update_predictor_model_name_excludes_container_witness :
  "m" ≠ ""
  /\ exists request,
       calls (update_predictor (Some "m") (Some "image") None None None None
                (Some two_copies) (start (new_Predictor "ep" (Some "ic")))).2
       = [UpdateInferenceComponent request]
       /\ specification request !! "ModelName" = Some (SVStr "m")
       /\ specification request !! "Container" = None.
Proof.
  assert (Hm : "m" ≠ "") by discriminate.
  split; [exact Hm |].
  destruct (update_predictor_model_name_excludes_container "m" (Some "image") None None
              None None (Some two_copies) (start (new_Predictor "ep" (Some "ic"))) Hm)
    as (l & Hl & Hall & Hone).
  destruct (Hone "ic" two_copies eq_refl eq_refl) as (request & -> & _).
  destruct (Hall _ (list_elem_of_here _ _)) as (request' & [= <-] & HM & HC).
  exists request. split; [exact Hl | split; assumption].
Defined.



Lemma update_endpoint_without_overrides_witness :
  let st := start (new_Predictor "ep" None) in
  let run := update_endpoint None None None None None None None None None true st in
  run.1 = Ok tt
  /\ calls run.2
     = [DescribeEndpoint "ep"; DescribeEndpointConfig "cfg";
        CreateEndpointConfigFromExisting "cfg" "cfg-2" None None None None
          (Some MODEL_BASED);
        UpdateEndpoint "ep" "cfg-2" (Some true)]
  /\ _endpoint_config_name (self run.2) = Some "cfg-2".
Proof.
  destruct (proj2 (update_endpoint_without_overrides None None None None None true
                     (start (new_Predictor "ep" None)))
              ["A"; "B"]
              (_get_model_names (start (new_Predictor "ep" None))).2
              "cfg"
              (_get_model_names (start (new_Predictor "ep" None))).2
              3%nat 4%nat eq_refl eq_refl eq_refl eq_refl)
    as (Hok & Hcalls & _ & _ & Hcache).
  split; [exact Hok |]. split; [exact Hcalls | exact Hcache].
Defined.

Lemma delete_model_reports_all_failures_witness :
  let st := start (new_Predictor "ep" None) in
  let run := delete_model st in
  _get_model_names st = (Ok ["A"; "B"], (_get_model_names st).2)
  /\ calls run.2
     = [DescribeEndpoint "ep"; DescribeEndpointConfig "cfg";
        DeleteModel "A"; DeleteModel "B"]
  /\ raised run.1 = true
  /\ run.1 = Raise (Exception
                      ("One or more models cannot be deleted, please retry. " +:+ LF
                       +:+ "Failed models: B")).
Proof.
  assert (Hn : _get_model_names (start (new_Predictor "ep" None))
               = (Ok ["A"; "B"], (_get_model_names (start (new_Predictor "ep" None))).2))
    by reflexivity.
  split; [exact Hn |].
  destruct (proj2 (delete_model_reports_all_failures _ _ _ Hn) _ eq_refl)
    as (Hcalls & _ & _ & Hiff & Hmsg).
  split; [exact Hcalls |]. split.
  - apply Hiff. discriminate.
  - apply Hmsg. discriminate.
Defined.

Lemma update_data_capture_config_keeps_cache_witness :
  let st := start (warm ["A"]) in
  let config := new_DataCaptureConfig true in
  _endpoint_config_name (self (enable_data_capture st).2) = Some "cfg"
  /\ calls (update_data_capture_config (Some config) st).2
     = [DescribeEndpoint "ep";
        CreateEndpointConfigFromExisting "cfg" "ep-1" None None
          (Some (_to_request_dict config)) None None;
        UpdateEndpoint "ep" "ep-1" None]
  /\ calls (enable_data_capture st).2
     = [DescribeEndpoint "ep";
        CreateEndpointConfigFromExisting "cfg" "ep-1" None None
          (Some (_to_request_dict config)) None None;
        UpdateEndpoint "ep" "ep-1" None]
  /\ calls (disable_data_capture st).2
     = [DescribeEndpoint "ep";
        CreateEndpointConfigFromExisting "cfg" "ep-1" None None
          (Some (_to_request_dict (new_DataCaptureConfig false))) None None;
        UpdateEndpoint "ep" "ep-1" None].
Proof.
  destruct (update_data_capture_config_keeps_cache (Some (new_DataCaptureConfig true))
              (start (warm ["A"])))
    as ((_ & _ & Hcalls) & (_ & Henable & Hon) & (_ & _ & Hoff) & _).
  split; [exact Henable |].
  split; [exact (proj1 (Hcalls {| EndpointConfigName := "cfg"; EndpointArn := "arn:ep" |}
                          1%nat 2%nat eq_refl eq_refl)) |].
  split; [exact (proj1 (Hon {| EndpointConfigName := "cfg"; EndpointArn := "arn:ep" |}
                          1%nat 2%nat eq_refl eq_refl)) |].
  exact (proj1 (Hoff {| EndpointConfigName := "cfg"; EndpointArn := "arn:ep" |}
                  1%nat 2%nat eq_refl eq_refl)).
Defined.

Lemma list_monitors_classification_witness :
  list_monitors (start (new_Predictor "quiet" None))
  = (Ok [], {| self := new_Predictor "quiet" None; world := 1%nat;
               calls := [ListMonitoringSchedules "quiet"] |})
  /\ (_get_model_monitor_class "legacy" None (start (new_Predictor "ep" None))).1
     = Ok DefaultModelMonitor
  /\ (_get_model_monitor_class "other" (Some "Custom") (start (new_Predictor "ep" None))).1
     = Raise (TypeError "Unknown monitoring type: Custom").
Proof.
  destruct (@list_monitors_classification env) as (Hempty & Hclass & _).
  split; [exact (Hempty (start (new_Predictor "quiet" None)) 1%nat eq_refl) |].
  split.
  - destruct (Hclass "legacy" None (start (new_Predictor "ep" None)))
      as (_ & _ & Hdescribed).
    assert (H1 : (None : option string) ≠ Some "ModelBias") by discriminate.
    assert (H2 : (None : option string) ≠ Some "ModelExplainability") by discriminate.
    destruct (Hdescribed H1 H2 (schedule "legacy") 1%nat eq_refl) as (Hlegacy & _).
    rewrite (Hlegacy "registry/sagemaker-model-monitor-analyzer" eq_refl). reflexivity.
  - destruct (Hclass "other" (Some "Custom") (start (new_Predictor "ep" None)))
      as (_ & _ & Hdescribed).
    assert (H1 : Some "Custom" ≠ Some "ModelBias") by discriminate.
    assert (H2 : Some "Custom" ≠ Some "ModelExplainability") by discriminate.
    assert (H3 : Some "Custom" ≠ Some "DataQuality") by discriminate.
    assert (H4 : Some "Custom" ≠ Some "ModelQuality") by discriminate.
    destruct (Hdescribed H1 H2 (schedule "other") 1%nat eq_refl) as (_ & Hnone).
    destruct (Hnone eq_refl) as (_ & _ & Hunknown).
    rewrite (Hunknown H3 H4). reflexivity.
Defined.

Lemma predict_content_negotiation_witness :
  let payload := JumpStart {| content_type_of := Some "application/json";
                              accept_of := None; payload_body := "{}" |} in
  exists request_args,
    calls (predict payload (Some {["Accept" := "text/csv"]}) None None None None None
             (start (new_Predictor "ep" None))).2
    = [InvokeEndpoint request_args]
    /\ request_args !! "ContentType" = Some "application/json"
    /\ request_args !! "Accept" = Some "text/csv".
Proof.
  destruct (proj1 (predict_content_negotiation
                     (JumpStart {| content_type_of := Some "application/json";
                                   accept_of := None; payload_body := "{}" |})
                     (Some {["Accept" := "text/csv"]}) None None None None None
                     (start (new_Predictor "ep" None))))
    as (l & Hl & [[_ Hraised] | (request_args & -> & HC & HA)]).
  - discriminate Hraised.
  - exists request_args. split; [exact Hl |]. split; [exact HC | exact HA].
Defined.

(** ** Inputs at which the code and the claims as first stated part *)

(** C1 as stated does not hold.  With nothing in [initial_args] and a plain
    payload, the claim sends the serializer's [CONTENT_TYPE]; a Predictor
    whose [content_type] was set to ["text/csv"] sends ["text/csv"]. *)
Lemma predict_content_type_setter_beats_serializer :
  let p := set_content_type (MStr "text/csv") (new_Predictor "ep" None) in
  let data : payload := Plain ("x" : string) in
  let run := predict data None None None None None None (start p) in
  explicit None "ContentType" = None
  /\ embedded content_type_of data = None
  /\ str_or_join (CONTENT_TYPE (serializer p)) = "application/octet-stream"
  /\ exists request_args,
       calls run.2 = [InvokeEndpoint request_args]
       /\ request_args !! "ContentType" = Some "text/csv"
       /\ request_args !! "ContentType" ≠ Some (str_or_join (CONTENT_TYPE (serializer p))).
Proof.
  simpl. split; [reflexivity |]. split; [reflexivity |]. split; [reflexivity |].
  eexists. split; [reflexivity |]. split; [reflexivity |].
  vm_compute. discriminate.
Qed.

(** C2.  The code at the failing input.  On a Predictor whose caches are
    warm, [update_endpoint] is given [initial_instance_count = 0] and
    nothing else: a count is supplied and [instance_type] is [None], yet no
    error is raised, and the configuration is created and the endpoint
    updated.  The gate before the validation tests truth values, where the
    validation itself tests [is None]: the same count with an accelerator
    type beside it is rejected with the invalid-argument [ValueError] and
    nothing is created. *)
Lemma update_endpoint_zero_count_is_not_rejected :
  let st := start (warm ["A"]) in
  let run := update_endpoint (Some 0) None None None None None None None None true st in
  let beside := update_endpoint (Some 0) None (Some "ml.eia2.medium") None None None None
                  None None true st in
  (Some 0 : option Z) ≠ None
  /\ run.1 = Ok tt
  /\ calls run.2
     = [CreateEndpointConfigFromExisting "cfg" "cfg-0" None None None None
          (Some MODEL_BASED);
        UpdateEndpoint "ep" "cfg-0" (Some true)]
  /\ beside
     = (Raise (ValueError (missing_count_or_type_message (Some 0) None
                             (Some "ml.eia2.medium") None)), st).
Proof.
  simpl. split; [discriminate |]. split; [reflexivity |]. split; reflexivity.
Qed.

(** C3.  The code at the failing input.  [instance_type = ""] and
    [initial_instance_count = 0] are supplied, [model_name] is omitted and
    the endpoint backs models ["A"] and ["B"], yet no error is raised: the
    configuration is created without a production variant and the endpoint
    updated.  The gate before the validation tests truth values, where the
    validation itself tests [is None]: the same arguments with an
    accelerator type beside them raise the ambiguous-configuration
    [ValueError] and nothing is created. *)
Lemma update_endpoint_false_arguments_are_not_ambiguous :
  let st := start (warm ["A"; "B"]) in
  let run := update_endpoint (Some 0) (Some "") None None None None None None None true st in
  let beside := update_endpoint (Some 0) (Some "") (Some "ml.eia2.medium") None None None
                  None None None true st in
  _get_model_names st = (Ok ["A"; "B"], st)
  /\ run.1 = Ok tt
  /\ calls run.2
     = [CreateEndpointConfigFromExisting "cfg" "cfg-0" None None None None
          (Some MODEL_BASED);
        UpdateEndpoint "ep" "cfg-0" (Some true)]
  /\ beside = (Raise (ValueError (multiple_models_message ["A"; "B"])), st).
Proof.
  simpl. split; [reflexivity |]. split; [reflexivity |]. split; reflexivity.
Qed.

(** C5 as stated does not hold.  Nothing answers, so the look-up of the
    model names raises: [delete_model] raises that error although no
    deletion failed (none was dispatched), and the error is not the
    aggregate one.  The names are cached as the empty list by then, so the
    next [delete_model] returns normally, again without a deletion. *)
Lemma delete_model_raises_without_failed_deletion :
  let run := delete_model Outage.cold in
  run.1 = Raise (ClientError "service unavailable")
  /\ calls run.2 = [DescribeEndpoint "ep"]
  /\ (forall name, DeleteModel name ∉ calls run.2)
  /\ delete_model run.2 = (Ok tt, run.2).
Proof.
  simpl. split; [reflexivity |]. split; [reflexivity |]. split; [| reflexivity].
  intros name H. vm_compute in H. apply list_elem_of_singleton in H. discriminate H.
Qed.

(** * The further properties at work *)

Lemma _get_endpoint_config_name_memoised_witness :
  let st := start (new_Predictor "ep" None) in
  let st1 := (_get_endpoint_config_name st).2 in
  _get_endpoint_config_name st = (Ok "cfg", st1)
  /\ calls st1 = [DescribeEndpoint "ep"]
  /\ _get_endpoint_config_name st1 = (Ok "cfg", st1).
Proof.
  assert (H : _get_endpoint_config_name (start (new_Predictor "ep" None))
              = (Ok "cfg", (_get_endpoint_config_name (start (new_Predictor "ep" None))).2))
    by reflexivity.
  split; [exact H |]. split; [reflexivity |].
  exact (proj1 (_get_endpoint_config_name_memoised _ _ _ H) "cfg" eq_refl).
Defined.

Lemma _get_model_names_memoised_witness :
  let st := start (new_Predictor "ep" None) in
  let st1 := (_get_model_names st).2 in
  _get_model_names st = (Ok ["A"; "B"], st1)
  /\ _get_model_names st1 = (Ok ["A"; "B"], st1).
Proof.
  assert (H : _get_model_names (start (new_Predictor "ep" None))
              = (Ok ["A"; "B"], (_get_model_names (start (new_Predictor "ep" None))).2))
    by reflexivity.
  split; [exact H |].
  exact (proj1 (_get_model_names_memoised _ _ _ H)).
Defined.

Lemma _get_model_names_failure_is_cached_witness :
  let st1 := (_get_model_names Outage.cold).2 in
  _get_model_names Outage.cold = (Raise (ClientError "service unavailable"), st1)
  /\ calls st1 = [DescribeEndpoint "ep"]
  /\ _get_model_names st1 = (Ok [], st1).
Proof.
  assert (H : _get_model_names Outage.cold
              = (Raise (ClientError "service unavailable"),
                 (_get_model_names Outage.cold).2))
    by reflexivity.
  split; [exact H |]. split; [reflexivity |].
  exact (proj2 (proj2 (_get_model_names_failure_is_cached _ _ _ H))).
Defined.

Lemma delete_model_after_failed_lookup_witness :
  let st1 := (_get_model_names Outage.cold).2 in
  _get_model_names Outage.cold = (Raise (ClientError "service unavailable"), st1)
  /\ delete_model Outage.cold = (Raise (ClientError "service unavailable"), st1)
  /\ delete_model st1 = (Ok tt, st1).
Proof.
  assert (H : _get_model_names Outage.cold
              = (Raise (ClientError "service unavailable"),
                 (_get_model_names Outage.cold).2))
    by reflexivity.
  split; [exact H |].
  destruct (delete_model_after_failed_lookup _ _ _ H) as (H1 & _ & H2).
  split; [exact H1 | exact H2].
Defined.

Lemma _get_model_names_component_scoped_witness :
  let st := start (new_Predictor "ep" (Some "ic")) in
  let run := _get_model_names st in
  _model_names (self st) = None
  /\ calls run.2 = [DescribeInferenceComponent "ic"]
  /\ run.1 = Ok ["A"].
Proof.
  split; [reflexivity |].
  assert (Hne : "ic" ≠ "") by discriminate.
  destruct (_get_model_names_component_scoped (start (new_Predictor "ep" (Some "ic")))
              "ic" eq_refl eq_refl Hne) as (Hcalls & _ & Hres).
  split; [exact Hcalls |].
  exact (Hres {| Specification := Some (Some "A") |} 1%nat eq_refl).
Defined.

Lemma _get_model_names_model_based_witness :
  let st := start (new_Predictor "ep" None) in
  let run := _get_model_names st in
  run.1 = Ok ["A"; "B"]
  /\ calls run.2 = [DescribeEndpoint "ep"; DescribeEndpointConfig "cfg"]
  /\ _endpoint_config_name (self run.2) = Some "cfg".
Proof.
  destruct (_get_model_names_model_based (start (new_Predictor "ep" None))
              {| EndpointConfigName := "cfg"; EndpointArn := "arn:ep" |}
              {| ProductionVariants :=
                   [ {| VariantName := "v1"; pv_ModelName := Some "A" |};
                     {| VariantName := "v2"; pv_ModelName := Some "B" |} ] |}
              1%nat 2%nat eq_refl eq_refl eq_refl eq_refl eq_refl)
    as (Hres & Hcalls & _ & _ & Hcfg).
  split; [exact Hres |]. split; [exact Hcalls | exact Hcfg].
Defined.

Lemma update_endpoint_explicit_model_witness :
  let st := start (warm ["A"; "B"]) in
  let run := update_endpoint (Some 2) (Some "ml.m5.large") None (Some "C") None None None
               None None true st in
  (truthy 2 || truthy "ml.m5.large" || truthy (None : option string) || truthy "C" = true)
  /\ _model_names (self st) = Some ["A"; "B"]
  /\ _model_names (self run.2) = Some ["C"].
Proof.
  assert (Hg : truthy 2 || truthy "ml.m5.large" || truthy (None : option string)
               || truthy "C" = true) by reflexivity.
  split; [exact Hg |]. split; [reflexivity |].
  exact (proj1 (update_endpoint_explicit_model 2 "ml.m5.large" None "C" None None None
                  None None true (start (warm ["A"; "B"])) (start (warm ["A"; "B"]))
                  ["A"; "B"] Hg eq_refl)).
Defined.

Lemma delete_model_after_update_endpoint_witness :
  let st := start (warm ["A"; "B"]) in
  let st' := (update_endpoint (Some 2) (Some "ml.m5.large") None (Some "C") None None None
                None None true st).2 in
  (truthy 2 || truthy "ml.m5.large" || truthy (None : option string) || truthy "C" = true)
  /\ _get_model_names st = (Ok ["A"; "B"], st)
  /\ calls (delete_model st').2 = calls st' ++ [DeleteModel "C"].
Proof.
  assert (Hg : truthy 2 || truthy "ml.m5.large" || truthy (None : option string)
               || truthy "C" = true) by reflexivity.
  split; [exact Hg |]. split; [reflexivity |].
  exact (proj1 (delete_model_after_update_endpoint 2 "ml.m5.large" None "C" None None None
                  None None true (start (warm ["A"; "B"])) (start (warm ["A"; "B"]))
                  ["A"; "B"] Hg eq_refl)).
Defined.

Lemma update_endpoint_no_backing_model_witness :
  let st := start (warm []) in
  (truthy 1 || truthy "ml.m5.large" || truthy (None : option string) = true)
  /\ _get_model_names st = (Ok [], st)
  /\ update_endpoint (Some 1) (Some "ml.m5.large") None None None None None None None true
       st
     = (Raise (IndexError "list index out of range"), st).
Proof.
  assert (Hg : truthy 1 || truthy "ml.m5.large" || truthy (None : option string) = true)
    by reflexivity.
  split; [exact Hg |]. split; [reflexivity |].
  exact (update_endpoint_no_backing_model 1 "ml.m5.large" None None None None None None
           true (start (warm [])) (start (warm [])) Hg eq_refl).
Defined.

Lemma update_endpoint_cache_witness :
  let st := start (warm ["A"; "B"]) in
  let failed := update_endpoint (Some 1) (Some "ml.m5.large") None None None None None None
                  None true st in
  let done := update_endpoint None None None None None None None None None true st in
  _endpoint_config_name (self st) = Some "cfg"
  /\ raised failed.1 = true
  /\ _endpoint_config_name (self failed.2) = Some "cfg"
  /\ done.1 = Ok tt
  /\ _endpoint_config_name (self done.2) = Some "cfg-0".
Proof.
  split; [reflexivity |].
  destruct (update_endpoint_cache (Some 1) (Some "ml.m5.large") None None None None None
              None None true (start (warm ["A"; "B"])) "cfg" eq_refl) as (Hfail & _ & _).
  destruct (update_endpoint_cache None None None None None None None None None true
              (start (warm ["A"; "B"])) "cfg" eq_refl) as (_ & Hdone & _).
  split; [reflexivity |]. split; [exact (Hfail eq_refl) |]. split; [reflexivity |].
  destruct (Hdone eq_refl) as (st2 & pvs & ety & _ & _). reflexivity.
Defined.

Lemma update_data_capture_config_ignores_caches_witness :
  let st := start (new_Predictor "ep" None) in
  let st' := start (warm ["A"]) in
  let config := Some (new_DataCaptureConfig true) in
  endpoint_name (self st) = endpoint_name (self st')
  /\ world st = world st'
  /\ (update_data_capture_config config st).1 = (update_data_capture_config config st').1
  /\ calls (update_data_capture_config config st').2
     = [DescribeEndpoint "ep";
        CreateEndpointConfigFromExisting "cfg" "ep-1" None None
          (Some (_to_request_dict (new_DataCaptureConfig true))) None None;
        UpdateEndpoint "ep" "ep-1" None].
Proof.
  split; [reflexivity |]. split; [reflexivity |].
  destruct (update_data_capture_config_ignores_caches (Some (new_DataCaptureConfig true))
              (start (new_Predictor "ep" None)) (start (warm ["A"])) eq_refl eq_refl)
    as (Hres & _ & _).
  split; [exact Hres | reflexivity].
Defined.

Lemma update_data_capture_config_stops_at_failure_witness :
  let run := update_data_capture_config None Outage.cold in
  raised run.1 = true
  /\ exists l, calls run.2 = DescribeEndpoint "ep" :: l
       /\ forall name new w, UpdateEndpoint name new w ∉ l.
Proof.
  split; [reflexivity |].
  destruct (update_data_capture_config_stops_at_failure None Outage.cold)
    as (l & Hl & _ & Hupdate).
  exists l. split; [exact Hl |].
  intros name new w Hin.
  destruct (Hupdate name new w Hin) as (desc & w1 & w2 & Hd & _).
  discriminate Hd.
Defined.

Lemma update_endpoint_after_data_capture_witness :
  let st := start (warm ["A"]) in
  let st1 := (update_data_capture_config None st).2 in
  let run := update_endpoint None None None None None None None None None true st1 in
  _endpoint_config_name (self st) = Some "cfg"
  /\ (exists before, calls st1 = before ++ [UpdateEndpoint "ep" "ep-1" None])
  /\ exists l, calls run.2 = calls st1 ++ l
               /\ Forall (fun name => name = "cfg") (created_from l).
Proof.
  split; [reflexivity |].
  destruct (update_endpoint_after_data_capture None (start (warm ["A"])) "cfg"
              {| EndpointConfigName := "cfg"; EndpointArn := "arn:ep" |}
              1%nat 2%nat 3%nat None None None None None None None None None true
              eq_refl eq_refl eq_refl eq_refl) as (_ & Hlast & Hcreated).
  split; [exact Hlast | exact Hcreated].
Defined.

Lemma predict_routing_witness :
  exists sent,
    calls (predict (@Plain env "x") (Some {["EndpointName" := "other"]}) None None None
             None (Some "ic-2") (start (new_Predictor "ep" (Some "ic")))).2
    = [InvokeEndpoint sent]
    /\ sent !! "EndpointName" = Some "other"
    /\ sent !! "InferenceComponentName" = Some "ic-2".
Proof.
  destruct (predict_routing (@Plain env "x") (Some {["EndpointName" := "other"]})
              None None None None (Some "ic-2") (start (new_Predictor "ep" (Some "ic"))))
    as (l & Hl & Hsent).
  change (calls (start (new_Predictor "ep" (Some "ic"))) ++ l) with l in Hl. subst l.
  eexists. split; [reflexivity |].
  apply Hsent. left.
Defined.

Lemma predict_optional_fields_witness :
  exists sent,
    calls (predict (@Plain env "x") (Some {["InferenceId" := "from-args"]})
             (Some "model.tar.gz") None (Some "") None None
             (start (new_Predictor "ep" None))).2
    = [InvokeEndpoint sent]
    /\ sent !! "TargetModel" = Some "model.tar.gz"
    /\ sent !! "TargetVariant" = None
    /\ sent !! "InferenceId" = Some "from-args".
Proof.
  destruct (predict_optional_fields (@Plain env "x")
              (Some {["InferenceId" := "from-args"]}) (Some "model.tar.gz") None
              (Some "") None None (start (new_Predictor "ep" None)))
    as (l & Hl & Hsent).
  change (calls (start (new_Predictor "ep" None)) ++ l) with l in Hl. subst l.
  eexists. split; [reflexivity |].
  match goal with |- ?s !! _ = _ /\ _ =>
    destruct (Hsent s) as (H1 & H2 & H3 & _); [left |] end.
  split; [exact H1 |]. split; [exact H2 | exact H3].
Defined.

Lemma predict_body_witness :
  let data : payload :=
    JumpStart {| content_type_of := Some "application/json"; accept_of := None;
                 payload_body := "{}" |} in
  exists sent,
    calls (predict data (Some {["Body" := "ignored"]}) None None None None None
             (start (new_Predictor "ep" None))).2 = [InvokeEndpoint sent]
    /\ sent !! "Body" = Some "{}".
Proof.
  destruct (predict_body
              (JumpStart {| content_type_of := Some "application/json";
                            accept_of := None; payload_body := "{}" |})
              (Some {["Body" := "ignored"]}) None None None None None
              (start (new_Predictor "ep" None)))
    as (l & Hl & Hsent).
  change (calls (start (new_Predictor "ep" None)) ++ l) with l in Hl. subst l.
  eexists. split; [reflexivity |].
  match goal with |- ?s !! _ = _ =>
    destruct (Hsent s) as (body & Hb & serialized & w & Hs & Hne & _); [left |] end.
  rewrite Hb. f_equal. injection Hs as <- _. apply Hne. discriminate.
Defined.

Lemma predict_response_witness :
  let down := predict (@Plain Outage.env "x") None None None None None None Outage.cold in
  down.1 = Raise (ClientError "service unavailable")
  /\ self down.2 = self Outage.cold
  /\ length (calls down.2) = 1%nat.
Proof.
  destruct (predict_response (@Plain Outage.env "x") None None None None None None
              Outage.cold) as (Hself & Hrun).
  destruct (Hrun _ _ eq_refl) as (sent & Hcalls & Hraise & _).
  split; [exact (proj1 (Hraise _ _ eq_refl)) |]. split; [exact Hself |].
  rewrite Hcalls. reflexivity.
Defined.

Lemma update_predictor_container_witness :
  let st := start (new_Predictor "ep" (Some "ic")) in
  let run := update_predictor None (Some "image") None (Some {["MODE" := "fast"]}) None
               None (Some two_copies) st in
  truthy (None : option string) = false
  /\ exists request,
       calls run.2 = [UpdateInferenceComponent request]
       /\ specification request !! "ModelName" = None
       /\ specification_field request "Container" "Image" = Some (FStr "image")
       /\ specification_field request "Container" "Environment"
          = Some (FDict {["MODE" := "fast"]})
       /\ specification_field request "Container" "ArtifactUrl" = None.
Proof.
  split; [reflexivity |].
  destruct (update_predictor_container None (Some "image") None
              (Some {["MODE" := "fast"]}) None None two_copies "ic"
              (start (new_Predictor "ep" (Some "ic"))) eq_refl eq_refl)
    as (request & Hcalls & HM & HI & HE & HA & _).
  exists request. split; [exact Hcalls |]. split; [exact HM |].
  split; [exact HI |]. split; [exact HE | exact HA].
Defined.

Lemma update_predictor_startup_and_runtime_witness :
  let st := start (new_Predictor "ep" (Some "ic")) in
  let run := update_predictor (Some "m") None None None (Some 600) (Some 0)
               (Some two_copies) st in
  component_name (self st) = Some "ic"
  /\ exists request,
       calls run.2 = [UpdateInferenceComponent request]
       /\ runtime_config request = Some {["CopyCount" := 2]}
       /\ specification_field request "StartupParameters"
            "ModelDataDownloadTimeoutInSeconds" = Some (FInt 600)
       /\ specification_field request "StartupParameters"
            "ContainerStartupHealthCheckTimeoutInSeconds" = None.
Proof.
  split; [reflexivity |].
  destruct (update_predictor_startup_and_runtime (Some "m") None None None (Some 600)
              (Some 0) two_copies "ic" (start (new_Predictor "ep" (Some "ic"))) eq_refl)
    as (request & Hcalls & _ & _ & _ & Hrun & H1 & H2 & _).
  exists request. split; [exact Hcalls |]. split; [exact Hrun |].
  split; [exact H1 | exact H2].
Defined.

Lemma list_monitors_order_witness :
  let run := list_monitors (start (new_Predictor "ep" None)) in
  exists l,
    calls run.2 = ListMonitoringSchedules "ep" :: l
    /\ attached l = ["bias"; "legacy"; "quality"].
Proof.
  destruct (list_monitors_order (start (new_Predictor "ep" None)) (schedules "ep") 1%nat
              eq_refl) as (l & Hl & _ & Hall).
  exists l. split; [exact Hl |].
  exact (Hall _ eq_refl).
Defined.

Import DemoAdmin.

Lemma delete_endpoint_order_witness :
  let locked := fresh (with_endpoint_config_name (Some "locked") (new_Predictor "ep" None)) in
  let o := fresh (new_Predictor "ep" None) in
  (delete_endpoint true locked).1 = Raise (ClientError "configuration in use")
  /\ trace (delete_endpoint true locked).2 = [DeleteEndpointConfig "locked"]
  /\ (delete_endpoint true o).1 = Ok tt
  /\ trace (delete_endpoint true o).2
     = [Core (DescribeEndpoint "ep"); DeleteEndpointConfig "cfg"; DeleteEndpoint "ep"]
  /\ _endpoint_config_name (self (core (delete_endpoint true o).2)) = Some "cfg".
Proof.
  destruct (proj2 (delete_endpoint_order
                     (fresh (with_endpoint_config_name (Some "locked")
                               (new_Predictor "ep" None))))
              _ _ eq_refl) as (l1 & E1 & _ & _ & Hlocked & _).
  destruct (proj2 (delete_endpoint_order (fresh (new_Predictor "ep" None)))
              _ _ eq_refl) as (l2 & E2 & _ & _ & _ & Hdone).
  assert (L1 : l1 = []) by (symmetry; exact E1).
  assert (L2 : l2 = [DescribeEndpoint "ep"]) by (symmetry; exact E2).
  subst l1 l2.
  destruct (Hlocked "locked" _ _ eq_refl eq_refl) as (H1 & H2).
  destruct (Hdone "cfg" _ eq_refl eq_refl) as (H3 & H4 & H5).
  split; [exact H1 |]. split; [exact H2 |]. split; [exact H3 |].
  split; [exact H4 | exact H5].
Defined.

Lemma delete_predictor_scope_witness :
  let scoped := fresh (new_Predictor "ep" (Some "ic")) in
  let unnamed := fresh (new_Predictor "ep" (Some "")) in
  trace (delete_predictor true scoped).2 = [DeleteInferenceComponent "ic" true]
  /\ trace (delete_predictor true unnamed).2
     = [Core (DescribeEndpoint "ep"); DeleteEndpointConfig "cfg"; DeleteEndpoint "ep"].
Proof.
  assert (Hne : "ic" ≠ "") by discriminate.
  split.
  - exact (proj1 (proj1 (delete_predictor_scope true
                           (fresh (new_Predictor "ep" (Some "ic"))))
                    "ic" eq_refl Hne)).
  - rewrite (proj1 (proj2 (delete_predictor_scope true
                             (fresh (new_Predictor "ep" (Some ""))))
                      (or_intror eq_refl))).
    reflexivity.
Defined.

Lemma list_related_models_one_page_witness :
  let run := list_related_models no_filters (fresh (new_Predictor "ep" None)) in
  let none := list_related_models no_filters (fresh (new_Predictor "quiet" None)) in
  run.1 = Ok (Components ["ic-1"; "ic-2"], Some "page-2")
  /\ trace run.2 = [ListInferenceComponents "ep" no_filters]
  /\ none.1 = Ok (EmptyDict, None).
Proof.
  destruct (list_related_models_one_page no_filters (fresh (new_Predictor "ep" None)))
    as (Htrace & _ & _ & _ & _ & _ & Hsome).
  destruct (list_related_models_one_page no_filters (fresh (new_Predictor "quiet" None)))
    as (_ & _ & _ & _ & _ & Hnone & _).
  split; [exact (Hsome _ eq_refl) |]. split; [exact Htrace | exact (Hnone eq_refl)].
Defined.

Lemma endpoint_context_found_is_cached_witness :
  let run := endpoint_context (fresh (new_Predictor "ep" None)) in
  run.1 = Ok (Some "ctx-1")
  /\ trace run.2 = [Core (DescribeEndpoint "ep"); ListContexts "arn:ep";
                    LoadContext "ctx-1"]
  /\ endpoint_context run.2 = (Ok (Some "ctx-1"), run.2).
Proof.
  destruct (endpoint_context_found_is_cached (fresh (new_Predictor "ep" None))
              {| EndpointConfigName := "cfg"; EndpointArn := "arn:ep" |}
              "ctx-1" ["ctx-2"] "ctx-1" 1%nat 2%nat 3%nat
              eq_refl eq_refl eq_refl eq_refl) as (Hres & _ & Htrace & Hagain).
  split; [exact Hres |]. split; [exact Htrace | exact Hagain].
Defined.

Lemma endpoint_context_not_found_is_not_cached_witness :
  let run := endpoint_context (fresh (new_Predictor "other" None)) in
  run.1 = Ok None
  /\ _context run.2 = None
  /\ trace (endpoint_context run.2).2
     = [Core (DescribeEndpoint "other"); ListContexts "arn:other";
        Core (DescribeEndpoint "other"); ListContexts "arn:other"].
Proof.
  destruct (endpoint_context_not_found_is_not_cached (fresh (new_Predictor "other" None))
              {| EndpointConfigName := "cfg"; EndpointArn := "arn:other" |}
              1%nat 2%nat eq_refl eq_refl eq_refl) as (Hres & Hctx & _ & _).
  split; [exact Hres |]. split; [exact Hctx | reflexivity].
Defined.
